(** * DICOM importer: a shallow embedding of [importer/importer.py]

    The importer watches an inbox tree, debounces filesystem events into
    ready study folders, uploads every DICOM instance of a folder over
    STOW-RS and finally archives or quarantines the folder.

    The Python code is effectful throughout.  It is embedded as a state,
    writer and exception monad [M]:
    - the state holds what the process and its disk keep between calls
      (the token cache, the pending map, the tracked filesystem entries);
    - the writer collects what the process emits (log lines, metric
      updates, HTTP requests, executor submissions), in program order;
    - a Python exception is a [Raise] result that [try_except] and
      [try_finally] handle as the language does.

    Everything outside the repository is either a pure library function
    (record [Lib]: pydicom's codec, [hashlib.md5], [str] of a float) or an
    answer of the environment (record [Env]: clock readings, HTTP replies,
    filesystem faults, the contents of the study folder).  Timestamps are
    exact integers ([Z]); Python uses floats, the code only adds, subtracts
    and compares them.  Where it adds an integer of a reply to the clock,
    the conversion of an integer that no float holds raises, as in Python;
    the rounding of floats is not modelled.  A string holds the bytes of
    its text in UTF-8, a file name the bytes it has on disk. *)

From Stdlib Require Import ZArith String Ascii.
From Stdlib.Strings Require Import Byte.
From stdpp Require Import base gmap strings list pretty fin_maps.

Open Scope string_scope.
Open Scope Z_scope.
Open Scope list_scope.

(** ** Strings *)

Module Str.

(** [str.lower()] on the ASCII range, which is what decides a file
    extension; other bytes are left as they are. *)
Definition lower_ascii (c : ascii) : ascii :=
  let n := nat_of_ascii c in
  if ((65 <=? n)%nat && (n <=? 90)%nat)%bool then ascii_of_nat (n + 32) else c.

Fixpoint lower (s : string) : string :=
  match s with
  | EmptyString => EmptyString
  | String c r => String (lower_ascii c) (lower r)
  end.

(** [s.endswith(suf)] *)
Fixpoint endswith (suf s : string) : bool :=
  (String.eqb s suf ||
   match s with
   | EmptyString => false
   | String _ r => endswith suf r
   end)%bool.

(** The part of [s] that starts at its last dot, when it has one:
    [s[s.rfind('.'):]]. *)
Fixpoint from_last_dot (s : string) : option string :=
  match s with
  | EmptyString => None
  | String c r =>
      match from_last_dot r with
      | Some t => Some t
      | None => if Ascii.eqb c "."%char then Some s else None
      end
  end.

(** A string holds the bytes of a text in UTF-8.  A character starts at
    every byte that is no continuation byte ([10xxxxxx]). *)
Definition is_continuation (c : ascii) : bool :=
  let n := nat_of_ascii c in ((128 <=? n)%nat && (n <? 192)%nat)%bool.

(** [s[:n]]: the first [n] characters, each with its continuation bytes. *)
Fixpoint take (n : nat) (s : string) : string :=
  match s with
  | EmptyString => EmptyString
  | String c r =>
      if is_continuation c then String c (take n r)
      else match n with
           | O => EmptyString
           | S k => String c (take k r)
           end
  end.

(** Well-formed UTF-8 (Unicode, table 3-7), as the strict codec of Python
    has it: no overlong form, no surrogate, nothing above U+10FFFF. *)
Inductive utf8_state :=
| Utf8Start                       (* between two characters *)
| Utf8Tail1 | Utf8Tail2 | Utf8Tail3   (* continuation bytes to come *)
| Utf8E0 | Utf8ED | Utf8F0 | Utf8F4.  (* after that lead byte *)

Definition between (lo hi n : nat) : bool := ((lo <=? n)%nat && (n <=? hi)%nat)%bool.

Definition utf8_step (st : utf8_state) (c : ascii) : option utf8_state :=
  let n := nat_of_ascii c in
  match st with
  | Utf8Start =>
      if (n <? 128)%nat then Some Utf8Start
      else if between 194 223 n then Some Utf8Tail1
      else if (n =? 224)%nat then Some Utf8E0
      else if (between 225 236 n || between 238 239 n)%bool then Some Utf8Tail2
      else if (n =? 237)%nat then Some Utf8ED
      else if (n =? 240)%nat then Some Utf8F0
      else if between 241 243 n then Some Utf8Tail3
      else if (n =? 244)%nat then Some Utf8F4
      else None
  | Utf8Tail1 => if between 128 191 n then Some Utf8Start else None
  | Utf8Tail2 => if between 128 191 n then Some Utf8Tail1 else None
  | Utf8Tail3 => if between 128 191 n then Some Utf8Tail2 else None
  | Utf8E0 => if between 160 191 n then Some Utf8Tail1 else None
  | Utf8ED => if between 128 159 n then Some Utf8Tail1 else None
  | Utf8F0 => if between 144 191 n then Some Utf8Tail2 else None
  | Utf8F4 => if between 128 143 n then Some Utf8Tail2 else None
  end.

Fixpoint utf8_run (st : utf8_state) (s : string) : option utf8_state :=
  match s with
  | EmptyString => Some st
  | String c r =>
      match utf8_step st c with
      | Some st' => utf8_run st' r
      | None => None
      end
  end.

Definition utf8_valid (s : string) : bool :=
  match utf8_run Utf8Start s with
  | Some Utf8Start => true
  | _ => false
  end.

(** Is every byte of [s] an ASCII character? *)
Fixpoint is_ascii_text (s : string) : bool :=
  match s with
  | EmptyString => true
  | String c r => ((nat_of_ascii c <? 128)%nat && is_ascii_text r)%bool
  end.

(** [bytes.hex()]: two lower-case hexadecimal digits for each byte. *)
Definition hex_digit (k : nat) : ascii :=
  nth k (list_ascii_of_string "0123456789abcdef") "f"%char.

Fixpoint hex (d : list byte) : string :=
  match d with
  | nil => EmptyString
  | cons b r =>
      let n := Byte.to_nat b in
      String (hex_digit (n / 16)) (String (hex_digit (n mod 16)) (hex r))
  end.

(** [sep.join(l)] *)
Definition join (sep : string) (l : list string) : string := String.concat sep l.

End Str.

(** ** pathlib *)

(** A path is the list of its components ([PurePath.parts]); a component
    is a single name: it holds no separator.  [str(Path)] and [Path(str)]
    are inverse to each other on such paths, so the dictionary of pending
    folders, keyed by [str(study_folder)] in Python, is keyed by the path
    here. *)
Abbreviation path := (list string).

Module PathLib.

(** [PurePath.name]: the last component, the empty string when there is none. *)
Definition name (p : path) : string := List.last p "".

(** [PurePath.parent] *)
Definition parent (p : path) : path := List.removelast p.

(** [p / s]; joining an empty string leaves the path as it is. *)
Definition joinpath (p : path) (s : string) : path :=
  match s with
  | EmptyString => p
  | _ => p ++ [s]
  end.

(** [PurePath.suffix]:
    [i = name.rfind('.'); name[i:] if 0 < i < len(name) - 1 else ''] *)
Definition suffix_of_name (n : string) : string :=
  match n with
  | EmptyString => ""
  | String _ r =>
      match Str.from_last_dot r with
      | Some t => if (1 <? String.length t)%nat then t else ""
      | None => ""
      end
  end.

Definition suffix (p : path) : string := suffix_of_name (name p).

(** [str(path)]: the components joined by the separator, after the root
    when the path has one. *)
Definition str (p : path) : string :=
  match p with
  | "/" :: rest => "/" +:+ Str.join "/" rest
  | _ => Str.join "/" p
  end.

(** [p.relative_to(base)]: the components of [p] below [base], or
    [None] where Python raises [ValueError]. *)
Fixpoint relative_to (p base : path) {struct base} : option path :=
  match base with
  | [] => Some p
  | b :: base' =>
      match p with
      | [] => None
      | x :: p' => if String.eqb x b then relative_to p' base' else None
      end
  end.

(** Does a name match the last component [*ext] of a glob pattern?
    pathlib matches case-sensitively on POSIX, the platform the service
    is deployed on, and [*] also matches the empty string. *)
Definition glob_match (ext : string) (p : path) : bool := Str.endswith ext (name p).

End PathLib.

Notation "p // s" := (PathLib.joinpath p s) (at level 40, left associativity).

(** ** Python results *)

Inductive exn_class :=
| InvalidDicomError | ValueError | IndexError | KeyError | TypeError
| OSError | FileNotFoundError | ShutilError
| HTTPError | RequestException | JSONDecodeError | PlainException
| OverflowError | UnicodeEncodeError.

(** Every class above derives from [Exception]; [str(e)] is [exn_msg]. *)
Record exn := Exn { exn_cls : exn_class; exn_msg : string }.

Inductive Res (A : Type) :=
| Ok (a : A)
| Raise (e : exn).
Arguments Ok {A} a.
Arguments Raise {A} e.

Definition is_invalid_dicom (e : exn) : bool :=
  match exn_cls e with InvalidDicomError => true | _ => false end.

(** ** DICOM data (pydicom) *)

Abbreviation tag := (N * N)%type.

Record element := Element { vr : string; value : string }.

Record FileDataset := {
  preamble : option (list byte);
  file_meta : gmap tag element;
  dataset : gmap tag element
}.

(** (0008,0080) InstitutionName, of value representation LO. *)
Definition InstitutionName : tag := (8%N, 128%N).

(** [ds.InstitutionName = v]: the element keeps its VR when it is there
    already, and is created as LO when it is not. *)
Definition set_InstitutionName (v : string) (ds : FileDataset) : FileDataset :=
  let el := match dataset ds !! InstitutionName with
            | Some old => Element (vr old) v
            | None => Element "LO" v
            end in
  {| preamble := preamble ds;
     file_meta := file_meta ds;
     dataset := <[InstitutionName := el]> (dataset ds) |}.

(** ** Configuration *)

Record Config := {
  inbox_path : path;
  processed_path : path;
  failed_path : path;
  orthanc_url : string;
  keycloak_url : string;
  keycloak_realm : string;
  keycloak_client_id : string;
  keycloak_client_secret : string;
  cooldown_seconds : Z;
  max_concurrent : nat;
  max_retries : nat;
  retry_delay : Z
}.

(** ** The filesystem the importer addresses *)

(** One entry of the per-file error list: [{'file': ..., 'error': ...}]. *)
Record file_error := FileError { fe_file : string; fe_error : string }.

(** The error record written next to a quarantined folder. *)
Record error_log := {
  el_timestamp : string;
  el_study_folder : string;
  el_clinic_id : string;
  el_reason : string;
  el_errors : list file_error
}.

Inductive content :=
| ErrorJson (r : error_log)
| Blob.

(** A study folder is one [Dir] entry: what lies inside it is read through
    [Env] and moves with it. *)
Inductive node :=
| Dir
| File (c : content).

Abbreviation FS := (gmap path node).

Definition is_dir (fs : FS) (p : path) : bool :=
  match fs !! p with Some Dir => true | _ => false end.

Definition path_exists (fs : FS) (p : path) : bool :=
  match fs !! p with Some _ => true | None => false end.

(** ** HTTP *)

Inductive http_outcome (B : Type) :=
| ConnectionFailed (e : exn)                           (* the call raises *)
| Responded (status : Z) (text : string) (body : B).   (* a response came back *)
Arguments ConnectionFailed {B} e.
Arguments Responded {B} status text body.

(** [data.get('expires_in', 300)]: absent, an integer (as timestamps
    are), or a value that [+] rejects with a [TypeError]. *)
Inductive expires_field :=
| ExpAbsent
| ExpNum (n : Z)
| ExpNotNum.

(** [time.time() + n] converts the integer [n] to a float, which raises
    [OverflowError] when [n] rounds to a magnitude of [2^1024] or more:
    from [2^1024 - 2^970] on. *)
Definition float_limit : Z := 2 ^ 1024 - 2 ^ 970.

Definition float_of_int_overflows (n : Z) : bool := float_limit <=? Z.abs n.

(** What [response.json()] and [data['access_token']] give.  The token is
    a string, as [TokenManager._token : Optional[str]] declares. *)
Inductive token_body :=
| BodyInvalid (e : exn)   (* not JSON, not an object, or no access_token *)
| BodyToken (access_token : string) (expires_in : expires_field).

(** ** What the process emits *)

Inductive level := Debug | Info | Warning | Error | Exception.

Inductive event :=
| ELog (l : level) (msg : string) (kw : list (string * string))
| EImportsTotal (clinic_id status : string)      (* IMPORTS_TOTAL.labels(..).inc() *)
| EInstancesUploaded (clinic_id : string)        (* INSTANCES_UPLOADED.labels(..).inc() *)
| EImportDuration (clinic_id : string) (d : Z)   (* IMPORT_DURATION.labels(..).observe(d) *)
| EUploadDuration (d : Z)                        (* UPLOAD_DURATION.observe(d) *)
| EActiveImports (delta : Z)                     (* ACTIVE_IMPORTS.inc() / .dec() *)
| EPendingImports (n : nat)                      (* PENDING_IMPORTS.set(n) *)
| ETokenPost (url : string) (form : list (string * string))
| EStowPost (url : string) (body : list byte) (headers : list (string * string))
| ESubmit (folder : path) (clinic_id : string).  (* executor.submit(process_study_folder, ..) *)

(** ** Libraries and environment *)

Record Lib := {
  float_str : Z -> list byte;                        (* str(t).encode(): the text of a float, ASCII *)
  md5 : list byte -> list byte;                      (* hashlib.md5(b).digest() *)
  dcm_decode : bool -> list byte -> Res FileDataset; (* pydicom.dcmread(.., stop_before_pixels) *)
  dcm_encode : FileDataset -> Res (list byte)        (* ds.save_as(buffer); buffer.getvalue() *)
}.

(** The three renderings of [datetime.now()] the importer uses. *)
Record DateTime := {
  dt_ymd : string;   (* strftime('%Y-%m-%d') *)
  dt_hms : string;   (* strftime('%H%M%S') *)
  dt_iso : string    (* isoformat() *)
}.

(** The environment answers by position: the [n]-th clock reading, the
    [n]-th filesystem operation, the [n]-th request.  The contents of the
    folder being processed do not change while it is processed. *)
Record Env := {
  clock : nat -> Z;
  datetime_now : nat -> DateTime;
  fs_fault : nat -> option exn;
  token_reply : nat -> http_outcome token_body;
  stow_reply : nat -> http_outcome unit;
  walk : path -> list path;        (* every entry below a folder, in traversal order *)
  is_file : path -> bool;
  file_bytes : path -> Res (list byte)
}.

(** ** State *)

Record State := {
  fs : FS;
  token : option string;       (* TokenManager._token *)
  token_expires : Z;           (* TokenManager._token_expires *)
  pending_folders : gmap path Z;   (* InboxHandler.pending_folders *)
  ticks : nat;                 (* clock readings taken *)
  io_ops : nat;                (* filesystem operations performed *)
  token_calls : nat;           (* requests sent to the identity provider *)
  stow_calls : nat             (* requests sent to the DICOM server *)
}.

Definition with_fs (f : FS) (s : State) : State :=
  {| fs := f; token := token s; token_expires := token_expires s;
     pending_folders := pending_folders s; ticks := ticks s; io_ops := io_ops s;
     token_calls := token_calls s; stow_calls := stow_calls s |}.

Definition with_token (t : option string) (s : State) : State :=
  {| fs := fs s; token := t; token_expires := token_expires s;
     pending_folders := pending_folders s; ticks := ticks s; io_ops := io_ops s;
     token_calls := token_calls s; stow_calls := stow_calls s |}.

Definition with_token_expires (x : Z) (s : State) : State :=
  {| fs := fs s; token := token s; token_expires := x;
     pending_folders := pending_folders s; ticks := ticks s; io_ops := io_ops s;
     token_calls := token_calls s; stow_calls := stow_calls s |}.

Definition with_pending (p : gmap path Z) (s : State) : State :=
  {| fs := fs s; token := token s; token_expires := token_expires s;
     pending_folders := p; ticks := ticks s; io_ops := io_ops s;
     token_calls := token_calls s; stow_calls := stow_calls s |}.

Definition with_ticks (n : nat) (s : State) : State :=
  {| fs := fs s; token := token s; token_expires := token_expires s;
     pending_folders := pending_folders s; ticks := n; io_ops := io_ops s;
     token_calls := token_calls s; stow_calls := stow_calls s |}.

Definition with_io_ops (n : nat) (s : State) : State :=
  {| fs := fs s; token := token s; token_expires := token_expires s;
     pending_folders := pending_folders s; ticks := ticks s; io_ops := n;
     token_calls := token_calls s; stow_calls := stow_calls s |}.

Definition with_token_calls (n : nat) (s : State) : State :=
  {| fs := fs s; token := token s; token_expires := token_expires s;
     pending_folders := pending_folders s; ticks := ticks s; io_ops := io_ops s;
     token_calls := n; stow_calls := stow_calls s |}.

Definition with_stow_calls (n : nat) (s : State) : State :=
  {| fs := fs s; token := token s; token_expires := token_expires s;
     pending_folders := pending_folders s; ticks := ticks s; io_ops := io_ops s;
     token_calls := token_calls s; stow_calls := n |}.

(** ** The monad *)

Definition M (A : Type) : Type := State -> Res A * State * list event.

Definition ret {A} (a : A) : M A := fun s => (Ok a, s, []).

Definition raise {A} (e : exn) : M A := fun s => (Raise e, s, []).

Definition bind {A B} (m : M A) (k : A -> M B) : M B :=
  fun s =>
    match m s with
    | (Ok a, s1, ev1) => let '(r, s2, ev2) := k a s1 in (r, s2, ev1 ++ ev2)
    | (Raise e, s1, ev1) => (Raise e, s1, ev1)
    end.

(** [try: m  except Exception as e: h e] *)
Definition try_except {A} (m : M A) (h : exn -> M A) : M A :=
  fun s =>
    match m s with
    | (Ok a, s1, ev1) => (Ok a, s1, ev1)
    | (Raise e, s1, ev1) => let '(r, s2, ev2) := h e s1 in (r, s2, ev1 ++ ev2)
    end.

(** [try: m  finally: fin]: [fin] runs on every exit and the result of
    [m] stands unless [fin] raises itself. *)
Definition try_finally {A} (m : M A) (fin : M unit) : M A :=
  fun s =>
    let '(r, s1, ev1) := m s in
    match fin s1 with
    | (Ok _, s2, ev2) => (r, s2, ev1 ++ ev2)
    | (Raise e, s2, ev2) => (Raise e, s2, ev1 ++ ev2)
    end.

Definition get : M State := fun s => (Ok s, s, []).
Definition modify (f : State -> State) : M unit := fun s => (Ok tt, f s, []).
Definition emit (e : event) : M unit := fun s => (Ok tt, s, [e]).

(** Lift a pure result. *)
Definition lift {A} (r : Res A) : M A := fun s => (r, s, []).

Notation "x <- m ;; k" := (bind m (fun x => k))
  (at level 100, m at next level, right associativity).
Notation "m ;; k" := (bind m (fun _ => k))
  (at level 100, right associativity).

(** [for x in l: body x] *)
Fixpoint for_each {A} (l : list A) (body : A -> M unit) : M unit :=
  match l with
  | [] => ret tt
  | x :: r => body x ;; for_each r body
  end.

Definition res_of {A} (o : Res A * State * list event) : Res A := o.1.1.
Definition state_of {A} (o : Res A * State * list event) : State := o.1.2.
Definition events_of {A} (o : Res A * State * list event) : list event := o.2.

(** ** Clock, logger and filesystem primitives *)

Section Primitives.
Context (E : Env).

(** [time.time()] *)
Definition time_time : M Z :=
  fun s => (Ok (clock E (ticks s)), with_ticks (S (ticks s)) s, []).

(** [datetime.now()] *)
Definition now : M DateTime :=
  fun s => (Ok (datetime_now E (ticks s)), with_ticks (S (ticks s)) s, []).

(** Every operation that touches the disk may fail for reasons of the
    environment (permissions, a full disk, a vanished mount). *)
Definition io_step : M unit :=
  fun s =>
    match fs_fault E (io_ops s) with
    | Some e => (Raise e, with_io_ops (S (io_ops s)) s, [])
    | None => (Ok tt, with_io_ops (S (io_ops s)) s, [])
    end.

Definition log (l : level) (msg : string) (kw : list (string * string)) : M unit :=
  emit (ELog l msg kw).

(** The non-empty prefixes of a path, shortest first. *)
Fixpoint ancestors (p : path) : list path :=
  match p with
  | [] => []
  | x :: q => [x] :: List.map (cons x) (ancestors q)
  end.

Definition is_file_node (o : option node) : bool :=
  match o with Some (File _) => true | _ => false end.

Definition make_dir (q : path) (m : FS) : FS :=
  match m !! q with
  | Some _ => m
  | None => <[q := Dir]> m
  end.

(** [d.mkdir(parents=True, exist_ok=True)]: a file in the way raises and
    creates nothing, otherwise every missing ancestor is created. *)
Definition mkdir_parents (d : path) : M unit :=
  io_step ;;
  s <- get ;;
  if existsb (fun q => is_file_node (fs s !! q)) (ancestors d)
  then raise (Exn OSError "File exists")
  else modify (with_fs (foldr make_dir (fs s) (ancestors d))).

(** [os.rename(src, real_dst)] as [shutil.move] uses it, with the fallback
    for a directory that would be moved below itself. *)
Definition rename_entry (src : path) (n : node) (real_dst : path) : M unit :=
  s <- get ;;
  if bool_decide (src `prefix_of` real_dst)
  then raise (Exn ShutilError "Cannot move a directory into itself")
  else
    match fs s !! real_dst, n with
    | Some Dir, _ => raise (Exn OSError "Directory not empty")
    | Some (File _), Dir => raise (Exn OSError "Not a directory")
    | Some (File _), File _ | None, _ =>
        modify (with_fs (<[real_dst := n]> (delete src (fs s))))
    end.

(** [shutil.move(str(src), str(dst))]: into [dst] when it is a directory,
    onto [dst] otherwise; either the entry moves or the call raises and
    nothing has changed. *)
Definition shutil_move (src dst : path) : M unit :=
  io_step ;;
  s <- get ;;
  match fs s !! src with
  | None => raise (Exn FileNotFoundError "No such file or directory")
  | Some n =>
      if bool_decide (src = dst) then ret tt
      else if is_dir (fs s) dst then
        let real_dst := dst // PathLib.name src in
        if path_exists (fs s) real_dst
        then raise (Exn ShutilError "Destination path already exists")
        else rename_entry src n real_dst
      else rename_entry src n dst
  end.

(** [with open(p, 'w') as f: json.dump(r, f, indent=2)] *)
Definition write_json (p : path) (r : error_log) : M unit :=
  io_step ;;
  s <- get ;;
  if is_dir (fs s) p
  then raise (Exn OSError "Is a directory")
  else modify (with_fs (<[p := File (ErrorJson r)]> (fs s))).

(** [study_path.glob('**/' + pat)] for the patterns of the importer: the
    entries below [d] whose name passes [keep]. *)
Definition glob (d : path) (keep : path -> bool) : M (list path) :=
  io_step ;;
  ret (List.filter keep (walk E d)).

End Primitives.

(** ** Token Manager *)

Module TokenManager.
Section TokenManager.
Context (E : Env) (cfg : Config).

Definition token_url : string :=
  keycloak_url cfg +:+ "/realms/" +:+ keycloak_realm cfg +:+ "/protocol/openid-connect/token".

(** [requests.post(token_url, data=..., timeout=30)] *)
Definition requests_post : M (Z * token_body) :=
  emit (ETokenPost token_url
          [("grant_type", "client_credentials");
           ("client_id", keycloak_client_id cfg);
           ("client_secret", keycloak_client_secret cfg)]) ;;
  s <- get ;;
  modify (with_token_calls (S (token_calls s))) ;;
  match token_reply E (token_calls s) with
  | ConnectionFailed e => raise e
  | Responded status _ body => ret (status, body)
  end.

(** [response.raise_for_status()] *)
Definition raise_for_status (status : Z) : M unit :=
  if ((400 <=? status) && (status <? 600))%bool
  then raise (Exn HTTPError (pretty status))
  else ret tt.

Definition _refresh_token : M (option string) :=
  match keycloak_client_secret cfg with
  | EmptyString =>
      log Debug "No client secret configured, skipping token refresh" [] ;;
      ret None
  | _ =>
      try_except
        (response <- requests_post ;;
         raise_for_status response.1 ;;
         match response.2 with
         | BodyInvalid e => raise e
         | BodyToken access_token expires_in =>
             modify (with_token (Some access_token)) ;;
             t <- time_time E ;;
             lifetime <- match expires_in with
                         | ExpAbsent => ret 300
                         | ExpNum n =>
                             if float_of_int_overflows n
                             then raise (Exn OverflowError
                                           "int too large to convert to float")
                             else ret n
                         | ExpNotNum => raise (Exn TypeError "unsupported operand type(s) for +")
                         end ;;
             modify (with_token_expires (t + lifetime)) ;;
             log Debug "Token refreshed successfully" [] ;;
             ret (Some access_token)
         end)
        (fun e =>
           log Error "Failed to refresh token" [("error", exn_msg e)] ;;
           ret None)
  end.

(** [if self._token and time.time() < self._token_expires - 60]: the
    clock is read only when a non-empty token is held. *)
Definition get_token : M (option string) :=
  s <- get ;;
  match token s with
  | Some (String c r) =>
      t <- time_time E ;;
      if t <? token_expires s - 60 then ret (token s) else _refresh_token
  | _ => _refresh_token
  end.

End TokenManager.
End TokenManager.

(** ** DICOM Processor *)

Module DicomProcessor.
Section DicomProcessor.
Context (L : Lib) (E : Env) (cfg : Config).

(** [pydicom.dcmread(file_path, stop_before_pixels=...)] *)
Definition dcmread (stop_before_pixels : bool) (p : path) : Res FileDataset :=
  match file_bytes E p with
  | Ok b => dcm_decode L stop_before_pixels b
  | Raise e => Raise e
  end.

Definition not_tried : list string := [".dcm"; ".json"; ".txt"; ".log"].

(** [x in l] on strings and on paths *)
Definition str_in (x : string) (l : list string) : bool := existsb (String.eqb x) l.
Definition path_in (p : path) (l : list path) : bool := bool_decide (p ∈ l).

(** The body of the loop over [study_path.glob('**/*')]. *)
Definition try_other_file (dicom_files : list path) (file_path : path) : list path :=
  if (is_file E file_path
      && negb (str_in (Str.lower (PathLib.suffix file_path)) not_tried))%bool
  then
    match dcmread true file_path with
    | Ok _ =>
        if path_in file_path dicom_files then dicom_files
        else dicom_files ++ [file_path]
    | Raise _ => dicom_files
    end
  else dicom_files.

(** "Find all DICOM files" *)
Definition discover (study_path : path) : M (list path) :=
  dcm <- glob E study_path (PathLib.glob_match ".dcm") ;;
  DCM <- glob E study_path (PathLib.glob_match ".DCM") ;;
  everything <- glob E study_path (fun _ => true) ;;
  ret (foldl try_other_file (dcm ++ DCM) everything).

Definition stow_url : string := orthanc_url cfg +:+ "/dicom-web/studies".

(** [s.encode('utf-8')].  The string holds the bytes of the text.  A file
    name reaches Python as [os.fsdecode] of its bytes, which turns every
    byte that is not part of well-formed UTF-8 into a lone surrogate, and
    the strict codec refuses those: the encoding is the bytes again when
    they are well-formed UTF-8 and raises [UnicodeEncodeError] when not. *)
Definition encode (s : string) : Res (list byte) :=
  if Str.utf8_valid s then Ok (list_byte_of_string s)
  else Raise (Exn UnicodeEncodeError
                "'utf-8' codec can't encode character: surrogates not allowed").

Definition CRLF : string := String (ascii_of_nat 13) (String (ascii_of_nat 10) "").
Definition DQUOTE : string := String (ascii_of_nat 34) "".

(** The boundary of a request built at clock reading [t]:
    [hashlib.md5(str(t).encode()).hexdigest()]. *)
Definition boundary_at (t : Z) : string := Str.hex (md5 L (float_str L t)).

Definition multipart_body (boundary filename : string) (dicom_bytes : list byte)
  : Res (list byte) :=
  match encode ("--" +:+ boundary +:+ CRLF +:+
                "Content-Type: application/dicom" +:+ CRLF +:+
                "Content-Disposition: attachment; filename=" +:+ DQUOTE +:+ filename
                +:+ DQUOTE +:+ CRLF +:+ CRLF) with
  | Raise e => Raise e
  | Ok head =>
      match encode (CRLF +:+ "--" +:+ boundary +:+ "--" +:+ CRLF) with
      | Raise e => Raise e
      | Ok tail => Ok (head ++ dicom_bytes ++ tail)
      end
  end.

(** [self.session.post(stow_url, data=body, headers=headers, timeout=120)];
    the reply is what the retrying adapter finally yields. *)
Definition session_post (body : list byte) (headers : list (string * string))
  : M (Z * string) :=
  emit (EStowPost stow_url body headers) ;;
  s <- get ;;
  modify (with_stow_calls (S (stow_calls s))) ;;
  match stow_reply E (stow_calls s) with
  | ConnectionFailed e => raise e
  | Responded status text _ => ret (status, text)
  end.

Definition _upload_stow_rs (dicom_bytes : list byte) (filename : string) : M unit :=
  t <- time_time E ;;
  let boundary := boundary_at t in
  body <- lift (multipart_body boundary filename dicom_bytes) ;;
  let headers :=
    [("Content-Type",
      "multipart/related; type=" +:+ DQUOTE +:+ "application/dicom" +:+ DQUOTE
      +:+ "; boundary=" +:+ boundary);
     ("Accept", "application/dicom+json")] in
  tok <- TokenManager.get_token E cfg ;;
  let headers :=
    match tok with
    | Some (String c r) => headers ++ [("Authorization", "Bearer " +:+ String c r)]
    | _ => headers
    end in
  response <- session_post body headers ;;
  if (Z.eqb response.1 200 || Z.eqb response.1 202)%bool
  then ret tt
  else raise (Exn PlainException
                ("STOW-RS failed: " +:+ pretty response.1 +:+ " - "
                 +:+ Str.take 500 response.2)).

Definition _process_single_file (file_path : path) (clinic_id : string) : M unit :=
  start_time <- time_time E ;;
  ds <- match dcmread false file_path with
        | Ok ds => ret ds
        | Raise e =>
            if is_invalid_dicom e
            then raise (Exn ValueError ("Invalid DICOM file: " +:+ exn_msg e))
            else raise e
        end ;;
  let ds := set_InstitutionName clinic_id ds in
  dicom_bytes <- lift (dcm_encode L ds) ;;
  _upload_stow_rs dicom_bytes (PathLib.name file_path) ;;
  t <- time_time E ;;
  emit (EUploadDuration (t - start_time)).

(** The opening of both moves: the dated directory is created and the
    destination gets a time suffix when its name is taken. *)
Definition dated_destination (root study_path : path) (clinic_id : string) : M path :=
  dt <- now E ;;
  let dest_dir := root // clinic_id // dt_ymd dt in
  mkdir_parents E dest_dir ;;
  let dest_path := dest_dir // PathLib.name study_path in
  s <- get ;;
  if path_exists (fs s) dest_path
  then
    dt' <- now E ;;
    ret (dest_dir // (PathLib.name study_path +:+ "_" +:+ dt_hms dt'))
  else ret dest_path.

Definition _move_to_processed (study_path : path) (clinic_id : string) : M unit :=
  dest_path <- dated_destination (processed_path cfg) study_path clinic_id ;;
  shutil_move E study_path dest_path ;;
  log Info "Study moved to processed" [("destination", PathLib.str dest_path)].

(** [errors or []] *)
Definition or_empty (errors : option (list file_error)) : list file_error :=
  match errors with
  | Some l => l
  | None => []
  end.

Definition _move_to_failed (study_path : path) (clinic_id reason : string)
    (errors : option (list file_error)) : M unit :=
  dest_path <- dated_destination (failed_path cfg) study_path clinic_id ;;
  shutil_move E study_path dest_path ;;
  dt <- now E ;;
  let error_log :=
    {| el_timestamp := dt_iso dt;
       el_study_folder := PathLib.name study_path;
       el_clinic_id := clinic_id;
       el_reason := reason;
       el_errors := or_empty errors |} in
  let error_file :=
    PathLib.parent dest_path // (PathLib.name dest_path +:+ ".error.json") in
  write_json E error_file error_log ;;
  log Warning "Study moved to failed"
    [("destination", PathLib.str dest_path); ("reason", reason)].

(** [success_count], [error_count] and [errors] of the instance loop. *)
Record tally := Tally {
  success_count : nat;
  error_count : nat;
  errors : list file_error
}.

(** [log = self.logger.bind(study_path=..., clinic_id=...)] *)
Definition bound (study_path : path) (clinic_id : string) : list (string * string) :=
  [("study_path", PathLib.str study_path); ("clinic_id", clinic_id)].

(** One turn of [for dicom_file in dicom_files]. *)
Definition process_one (study_path : path) (clinic_id : string)
    (acc : tally) (dicom_file : path) : M tally :=
  try_except
    (_process_single_file dicom_file clinic_id ;;
     emit (EInstancesUploaded clinic_id) ;;
     ret (Tally (S (success_count acc)) (error_count acc) (errors acc)))
    (fun e =>
       rel <- match PathLib.relative_to dicom_file study_path with
              | Some r => ret r
              | None => raise (Exn ValueError "is not in the subpath of")
              end ;;
       log Error "Failed to process file"
         (bound study_path clinic_id
          ++ [("file", PathLib.str dicom_file); ("error", exn_msg e)]) ;;
       ret (Tally (success_count acc) (S (error_count acc))
              (errors acc ++ [FileError (PathLib.str rel) (exn_msg e)]))).

Fixpoint upload_loop (study_path : path) (clinic_id : string)
    (dicom_files : list path) (acc : tally) : M tally :=
  match dicom_files with
  | [] => ret acc
  | f :: rest =>
      acc' <- process_one study_path clinic_id acc f ;;
      upload_loop study_path clinic_id rest acc'
  end.

(** "Determine overall success" *)
Definition classify (study_path : path) (clinic_id : string) (t : tally) : M bool :=
  match error_count t with
  | O =>
      log Info "Study imported successfully"
        (bound study_path clinic_id ++ [("files_processed", pretty (success_count t))]) ;;
      _move_to_processed study_path clinic_id ;;
      emit (EImportsTotal clinic_id "success") ;;
      ret true
  | S _ =>
      if (0 <? success_count t)%nat
      then
        log Warning "Study partially imported"
          (bound study_path clinic_id
           ++ [("success_count", pretty (success_count t));
               ("error_count", pretty (error_count t))]) ;;
        _move_to_processed study_path clinic_id ;;
        emit (EImportsTotal clinic_id "partial") ;;
        ret true
      else
        log Error "Study import failed completely"
          (bound study_path clinic_id ++ [("error_count", pretty (error_count t))]) ;;
        _move_to_failed study_path clinic_id
          ("All " +:+ pretty (error_count t) +:+ " files failed") (Some (errors t)) ;;
        emit (EImportsTotal clinic_id "failed") ;;
        ret false
  end.

(** The body of the [try] of [process_study_folder]. *)
Definition try_body (study_path : path) (clinic_id : string) : M bool :=
  dicom_files <- discover study_path ;;
  match dicom_files with
  | [] =>
      log Warning "No DICOM files found in study folder" (bound study_path clinic_id) ;;
      _move_to_failed study_path clinic_id "No DICOM files found" None ;;
      emit (EImportsTotal clinic_id "failed") ;;
      ret false
  | _ =>
      log Info ("Found " +:+ pretty (length dicom_files) +:+ " DICOM files")
        (bound study_path clinic_id) ;;
      t <- upload_loop study_path clinic_id dicom_files (Tally 0 0 []) ;;
      classify study_path clinic_id t
  end.

(** [except Exception as e] of [process_study_folder]. *)
Definition on_exception (study_path : path) (clinic_id : string) (e : exn) : M bool :=
  log Exception "Unexpected error processing study"
    (bound study_path clinic_id ++ [("exc_info", exn_msg e)]) ;;
  _move_to_failed study_path clinic_id (exn_msg e) None ;;
  emit (EImportsTotal clinic_id "error") ;;
  ret false.

Definition process_study_folder (study_path : path) (clinic_id : string) : M bool :=
  start_time <- time_time E ;;
  emit (EActiveImports 1) ;;
  try_finally
    (try_except (try_body study_path clinic_id) (on_exception study_path clinic_id))
    (t <- time_time E ;;
     emit (EImportDuration clinic_id (t - start_time)) ;;
     emit (EActiveImports (-1))).

End DicomProcessor.
End DicomProcessor.

(** ** File Watcher *)

(** The events the observer hands to the handler ([watchdog.events]):
    the creation or modification of a file or of a directory. *)
Inductive fs_event :=
| DirCreatedEvent (p : path)
| FileCreatedEvent (p : path)
| DirModifiedEvent (p : path)
| FileModifiedEvent (p : path).

(** [event.src_path] *)
Definition src_path (event : fs_event) : path :=
  match event with
  | DirCreatedEvent p | FileCreatedEvent p | DirModifiedEvent p | FileModifiedEvent p => p
  end.

(** [event.is_directory] *)
Definition is_directory (event : fs_event) : bool :=
  match event with
  | DirCreatedEvent _ | DirModifiedEvent _ => true
  | FileCreatedEvent _ | FileModifiedEvent _ => false
  end.

Module InboxHandler.
Section InboxHandler.
Context (E : Env) (cfg : Config).

Definition _handle_new_folder (folder_path : path) : M unit :=
  match PathLib.relative_to folder_path (inbox_path cfg) with
  | None => ret tt                       (* except ValueError: return *)
  | Some (clinic_id :: seg1 :: _) =>
      let study_folder := inbox_path cfg // clinic_id // seg1 in
      let folder_key := study_folder in
      t <- time_time E ;;
      s <- get ;;
      modify (with_pending (<[folder_key := t]> (pending_folders s))) ;;
      emit (EPendingImports (size (<[folder_key := t]> (pending_folders s)))) ;;
      log Debug "Folder added to pending"
        [("folder", PathLib.str folder_key); ("clinic_id", clinic_id)]
  | Some _ => ret tt                     (* len(parts) < 2 *)
  end.

(** One turn of the loop over [list(self.pending_folders.items())]. *)
Definition expire (t : Z) (acc : list path * gmap path Z) (item : path * Z)
  : list path * gmap path Z :=
  if cooldown_seconds cfg <=? t - item.2
  then (acc.1 ++ [item.1], delete item.1 acc.2)
  else acc.

(** One turn of the loop over [folders_to_process]. *)
Definition dispatch (folder_key : path) : M unit :=
  let folder_path := folder_key in
  s <- get ;;
  if negb (path_exists (fs s) folder_path)
  then log Debug "Folder no longer exists" [("folder", PathLib.str folder_key)]
  else
    match PathLib.relative_to folder_path (inbox_path cfg) with
    | None => ret tt                     (* except ValueError: continue *)
    | Some [] => ret tt                  (* except IndexError: continue *)
    | Some (clinic_id :: _) =>
        log Info "Processing study folder"
          [("folder", PathLib.str folder_key); ("clinic_id", clinic_id)] ;;
        emit (ESubmit folder_path clinic_id)
    end.

Definition check_pending_folders : M unit :=
  t <- time_time E ;;
  s <- get ;;
  let r := foldl (expire t) ([], pending_folders s) (map_to_list (pending_folders s)) in
  modify (with_pending r.2) ;;
  emit (EPendingImports (size r.2)) ;;
  for_each r.1 dispatch.

Definition on_created (event : fs_event) : M unit :=
  match event with
  | DirCreatedEvent p => _handle_new_folder p
  | FileCreatedEvent p => _handle_new_folder (PathLib.parent p)
  | _ => ret tt
  end.

Definition on_modified (event : fs_event) : M unit :=
  if negb (is_directory event)
  then _handle_new_folder (PathLib.parent (src_path event))
  else ret tt.

End InboxHandler.
End InboxHandler.

(** ** Main application *)

Module Main.
Section Main.
Context (E : Env) (cfg : Config).

(** [p.iterdir()]: the entries directly below the directory [p]. *)
Definition is_child (p q : path) : bool :=
  bool_decide (q <> [] /\ PathLib.parent q = p).

Definition iterdir (p : path) : M (list path) :=
  io_step E ;;
  s <- get ;;
  match fs s !! p with
  | Some Dir => ret (List.filter (is_child p) (map_to_list (fs s)).*1)
  | Some (File _) => raise (Exn OSError "Not a directory")
  | None => raise (Exn FileNotFoundError "No such file or directory")
  end.

(** The inner loop of the scan: the study folders of one clinic. *)
Definition scan_study (study_dir : path) : M unit :=
  s <- get ;;
  if is_dir (fs s) study_dir
  then InboxHandler._handle_new_folder E cfg study_dir
  else ret tt.

Definition scan_clinic (clinic_dir : path) : M unit :=
  s <- get ;;
  if is_dir (fs s) clinic_dir
  then
    studies <- iterdir clinic_dir ;;
    for_each studies scan_study
  else ret tt.

(** "Scan for existing files on startup" *)
Definition startup_scan : M unit :=
  clinics <- iterdir (inbox_path cfg) ;;
  for_each clinics scan_clinic.

End Main.
End Main.

(** [n] calls of the same action, one after the other. *)
Fixpoint repeat_m (n : nat) (m : M unit) : M unit :=
  match n with
  | O => ret tt
  | S k => m ;; repeat_m k m
  end.

(** ** Concrete scenarios

    Small worlds on which the definitions above can be run. *)

Module Scenario.

Definition cfg : Config :=
  {| inbox_path := ["/"; "inbox"];
     processed_path := ["/"; "processed"];
     failed_path := ["/"; "failed"];
     orthanc_url := "http://orthanc:8042";
     keycloak_url := "http://keycloak:8080";
     keycloak_realm := "dicom";
     keycloak_client_id := "orthanc-api";
     keycloak_client_secret := "s3cret";
     cooldown_seconds := 60;
     max_concurrent := 3;
     max_retries := 3;
     retry_delay := 10 |}.

(** The same service without a client secret (anonymous mode). *)
Definition cfg_anonymous : Config :=
  {| inbox_path := inbox_path cfg;
     processed_path := processed_path cfg;
     failed_path := failed_path cfg;
     orthanc_url := orthanc_url cfg;
     keycloak_url := keycloak_url cfg;
     keycloak_realm := keycloak_realm cfg;
     keycloak_client_id := keycloak_client_id cfg;
     keycloak_client_secret := "";
     cooldown_seconds := 60;
     max_concurrent := 3;
     max_retries := 3;
     retry_delay := 10 |}.

Definition today : DateTime :=
  {| dt_ymd := "2024-01-01"; dt_hms := "120000"; dt_iso := "2024-01-01T12:00:00" |}.

(** A state with nothing on disk, nothing cached and nothing pending. *)
Definition empty_state : State :=
  {| fs := ∅; token := None; token_expires := 0; pending_folders := ∅;
     ticks := 0; io_ops := 0; token_calls := 0; stow_calls := 0 |}.


(** A world whose clock stands at 100, whose identity provider answers
    as given, whose DICOM server accepts everything and whose disk never
    fails; the study folder holds the entries [entries], all of them
    regular files with the given contents. *)
Definition world (idp : http_outcome token_body) (entries : list path)
    (bytes : path -> Res (list byte)) : Env :=
  {| clock := fun _ => 100;
     datetime_now := fun _ => today;
     fs_fault := fun _ => None;
     token_reply := fun _ => idp;
     stow_reply := fun _ => Responded 200 "" tt;
     walk := fun _ => entries;
     is_file := fun _ => true;
     file_bytes := bytes |}.

Definition idp_down : http_outcome token_body :=
  ConnectionFailed (Exn RequestException "Connection refused").

Definition no_files : path -> Res (list byte) :=
  fun _ => Raise (Exn FileNotFoundError "No such file or directory").

(** A study folder of clinic [clinicA], with one instance. *)
Definition study : path := ["/"; "inbox"; "clinicA"; "study1"].
Definition img : path := study ++ ["img.dcm"].

(** A disk that holds the study folder and nothing else. *)
Definition inbox_state : State := with_fs {[ study := Dir ]} empty_state.

(** The dataset of the test suite: Explicit VR Little Endian, a patient
    and the institution the file came from. *)
Definition original : FileDataset :=
  {| preamble := Some [x00];
     file_meta := {[ (2%N, 16%N) := Element "UI" "1.2.840.10008.1.2.1" ]};
     dataset := <[ (16%N, 16%N) := Element "PN" "Test^Patient" ]>
                  {[ InstitutionName := Element "LO" "Original Hospital" ]} |}.

Definition original_bytes : list byte := [x44; x49; x43; x4d; x00].
Definition tagged_bytes : list byte := [x44; x49; x43; x4d; x01].
Definition broken_bytes : list byte := [xff].

Definition same_bytes (a b : list byte) : bool :=
  String.eqb (string_of_list_byte a) (string_of_list_byte b).

(** Stand-ins for the libraries, on a universe of two byte strings: the
    original file and the file as it is after tagging for [clinicA]. *)
Definition lib : Lib :=
  {| float_str := fun t => list_byte_of_string (pretty t +:+ ".0");
     md5 := fun b => match Byte.of_nat (length b) with
                     | Some x => [x]
                     | None => []
                     end;
     dcm_decode := fun _ b =>
       if same_bytes b original_bytes then Ok original
       else if same_bytes b tagged_bytes
            then Ok (set_InstitutionName "clinicA" original)
            else Raise (Exn InvalidDicomError "File is missing DICOM File Meta Information");
     dcm_encode := fun ds =>
       match dataset ds !! InstitutionName with
       | Some (Element _ "clinicA") => Ok tagged_bytes
       | _ => Ok original_bytes
       end |}.

(** Every file of the folder holds the original dataset, but those named
    in [broken]. *)
Definition contents (broken : list path) : path -> Res (list byte) :=
  fun p => if bool_decide (p ∈ broken) then Ok broken_bytes else Ok original_bytes.

(** The world of [world] with a disk whose [n]-th operation fails. *)
Definition failing_at (n : nat) (E : Env) : Env :=
  {| clock := clock E;
     datetime_now := datetime_now E;
     fs_fault := fun k => if (k =? n)%nat then Some (Exn OSError "Permission denied")
                          else None;
     token_reply := token_reply E;
     stow_reply := stow_reply E;
     walk := walk E;
     is_file := is_file E;
     file_bytes := file_bytes E |}.

(** The same with a disk on which every operation from the [n]-th on
    fails. *)
Definition failing_from (n : nat) (E : Env) : Env :=
  {| clock := clock E;
     datetime_now := datetime_now E;
     fs_fault := fun k => if (n <=? k)%nat then Some (Exn OSError "Read-only file system")
                          else None;
     token_reply := token_reply E;
     stow_reply := stow_reply E;
     walk := walk E;
     is_file := is_file E;
     file_bytes := file_bytes E |}.

(** A world whose clock shows the given readings, one after the other. *)
Definition timeline (readings : list Z) (E : Env) : Env :=
  {| clock := fun n => nth n readings 0;
     datetime_now := datetime_now E;
     fs_fault := fs_fault E;
     token_reply := token_reply E;
     stow_reply := stow_reply E;
     walk := walk E;
     is_file := is_file E;
     file_bytes := file_bytes E |}.

Definition idp_up : http_outcome token_body :=
  Responded 200 "" (BodyToken "test-token-123" (ExpNum 300)).

End Scenario.

(** ** Observations on runs *)

Definition is_token_post (e : event) : bool :=
  match e with ETokenPost _ _ => true | _ => false end.



(** The requests sent to the DICOM server, oldest first: body and headers. *)
Definition stow_posts (evs : list event) : list (list byte * list (string * string)) :=
  omap (fun e => match e with
                 | EStowPost _ body headers => Some (body, headers)
                 | _ => None
                 end) evs.

(** The outer [Content-Type] header of each request; it ends in the
    boundary of the request. *)
Definition content_types (evs : list event) : list (option (string * string)) :=
  List.map (fun r => head r.2) (stow_posts evs).

(** The [Content-Type] header for a boundary. *)
Definition content_type (boundary : string) : string * string :=
  ("Content-Type",
   "multipart/related; type=" +:+ DicomProcessor.DQUOTE +:+ "application/dicom"
   +:+ DicomProcessor.DQUOTE +:+ "; boundary=" +:+ boundary).

(** The labels of the [IMPORTS_TOTAL] increments, oldest first. *)
Definition outcomes (evs : list event) : list (string * string) :=
  omap (fun e => match e with
                 | EImportsTotal clinic_id status => Some (clinic_id, status)
                 | _ => None
                 end) evs.


(** The files the second pass of discovery adds: regular files whose
    lowered extension is not one of [not_tried] and that parse as DICOM
    with the pixel data left out. *)
Definition parses_untried (L : Lib) (E : Env) (p : path) : Prop :=
  is_file E p = true
  /\ DicomProcessor.str_in (Str.lower (PathLib.suffix p)) DicomProcessor.not_tried = false
  /\ exists ds, DicomProcessor.dcmread L E true p = Ok ds.


(** What a completed [shutil.move] has done, unless source and destination
    are the same path: the entry is gone from [src] and sits at [dst], or
    below it when [dst] was a directory. *)
Definition moved (src dst : path) (before after : FS) : Prop :=
  exists (n : node) (real_dst : path),
    before !! src = Some n
    /\ (real_dst = dst \/ real_dst = dst // PathLib.name src)
    /\ real_dst <> src
    /\ ~ src `prefix_of` real_dst
    /\ after = <[real_dst := n]> (delete src before).


(** The destination both moves compute below [root]: the dated directory
    and the name of the folder, with a time suffix when the name is taken. *)
Definition dated (root study_path : path) (clinic_id ymd : string) (dest_path : path) : Prop :=
  dest_path = root // clinic_id // ymd // PathLib.name study_path
  \/ exists hms,
       dest_path = root // clinic_id // ymd // (PathLib.name study_path +:+ "_" +:+ hms).

(** The folder has left [study_path] and sits in the dated tree below
    [root]: at [dest_path], or inside it when that was a directory. *)
Definition relocated (root study_path : path) (clinic_id : string)
    (before after : FS) (dest_path : path) : Prop :=
  exists ymd real_dst,
    dated root study_path clinic_id ymd dest_path
    /\ (real_dst = dest_path \/ real_dst = dest_path // PathLib.name study_path)
    /\ is_Some (before !! study_path)
    /\ after !! real_dst = before !! study_path
    /\ after !! study_path = None.

(** No file has been written: every file of [after] was there before, or
    is the entry that moved. *)
Definition no_file_written (study_path : path) (before after : FS) : Prop :=
  forall q c, after !! q = Some (File c) ->
    before !! q = Some (File c) \/ before !! study_path = Some (File c).

(** The folder is in the processed tree. *)
Definition archived (cfg : Config) (study_path : path) (clinic_id : string)
    (before after : FS) : Prop :=
  (exists dest_path, relocated (processed_path cfg) study_path clinic_id before after dest_path)
  /\ no_file_written study_path before after.

(** The folder is in the failed tree, and next to it lies the error record
    with the given reason and per-file errors. *)
Definition quarantined (cfg : Config) (study_path : path) (clinic_id reason : string)
    (errs : list file_error) (before after : FS) : Prop :=
  exists dest_path ts,
    relocated (failed_path cfg) study_path clinic_id before after dest_path
    /\ after !! (PathLib.parent dest_path // (PathLib.name dest_path +:+ ".error.json"))
       = Some (File (ErrorJson {| el_timestamp := ts;
                                  el_study_folder := PathLib.name study_path;
                                  el_clinic_id := clinic_id;
                                  el_reason := reason;
                                  el_errors := errs |})).


(** What a branch of the processor returns and records once its move has
    run: its boolean and status label when the move completed, the
    exception of the move and no label when it raised. *)
Definition branch_result (clinic_id status : string) (b : bool) (rm : Res unit)
    (r : Res bool) (ev : list event) : Prop :=
  match rm with
  | Ok _ => r = Ok b /\ outcomes ev = [(clinic_id, status)]
  | Raise e => r = Raise e /\ outcomes ev = []
  end.

(** What the reply to an upload makes of it: [response.status_code not in
    (200, 202)] raises. *)
Definition upload_result (reply : http_outcome unit) : Res unit :=
  match reply with
  | ConnectionFailed e => Raise e
  | Responded status text _ =>
      if (Z.eqb status 200 || Z.eqb status 202)%bool then Ok tt
      else Raise (Exn PlainException
                    ("STOW-RS failed: " +:+ pretty status +:+ " - " +:+ Str.take 500 text))
  end.

(** The header an upload adds for the token it was given. *)
Definition authorization (tok : option string) : list (string * string) :=
  match tok with
  | Some (String c r) => [("Authorization", "Bearer " +:+ String c r)]
  | _ => []
  end.

(** The labels of the [INSTANCES_UPLOADED] increments, oldest first. *)
Definition uploaded (evs : list event) : list string :=
  omap (fun e => match e with
                 | EInstancesUploaded clinic_id => Some clinic_id
                 | _ => None
                 end) evs.

(** The steps of the [ACTIVE_IMPORTS] gauge, oldest first. *)
Definition active_imports (evs : list event) : list Z :=
  omap (fun e => match e with
                 | EActiveImports delta => Some delta
                 | _ => None
                 end) evs.

(** The observations of [IMPORT_DURATION], oldest first. *)
Definition import_durations (evs : list event) : list (string * Z) :=
  omap (fun e => match e with
                 | EImportDuration clinic_id d => Some (clinic_id, d)
                 | _ => None
                 end) evs.

(** The message recorded for a file that could not be read: [dcmread]'s
    [InvalidDicomError] is re-raised as a [ValueError]. *)
Definition read_error (e : exn) : exn :=
  if is_invalid_dicom e then Exn ValueError ("Invalid DICOM file: " +:+ exn_msg e) else e.

(** [parses_untried] as a test: the second pass of discovery takes a
    regular file whose lowered extension is not one of [not_tried] and
    that parses with the pixel data left out. *)
Definition second_pass (L : Lib) (E : Env) (p : path) : bool :=
  (is_file E p
   && negb (DicomProcessor.str_in (Str.lower (PathLib.suffix p)) DicomProcessor.not_tried)
   && match DicomProcessor.dcmread L E true p with
      | Ok _ => true
      | Raise _ => false
      end)%bool.

(** Does either glob of discovery match? *)
Definition globbed (p : path) : bool :=
  (PathLib.glob_match ".dcm" p || PathLib.glob_match ".DCM" p)%bool.

(** The folders handed to the executor, oldest first, each with the
    tenant it was submitted for. *)
Definition submissions (evs : list event) : list (path * string) :=
  omap (fun e => match e with
                 | ESubmit folder clinic_id => Some (folder, clinic_id)
                 | _ => None
                 end) evs.

(** What the submission loop makes of a promoted key: nothing when the
    folder is gone or the key names no tenant below the inbox. *)
Definition submission (cfg : Config) (disk : FS) (folder_key : path) : option (path * string) :=
  if path_exists disk folder_key
  then match PathLib.relative_to folder_key (inbox_path cfg) with
       | Some (clinic_id :: _) => Some (folder_key, clinic_id)
       | _ => None
       end
  else None.

(** How the startup scan may have changed the pending folders between two
    states over the disk [disk]: an entry is as it was, or it is the entry
    of a study directory of a clinic directory, stamped with a clock
    reading taken in between. *)
Definition scanned (E : Env) (cfg : Config) (disk : FS) (st st' : State) : Prop :=
  fs st' = fs st
  /\ (ticks st <= ticks st')%nat
  /\ forall k,
       pending_folders st' !! k = pending_folders st !! k
       \/ exists c s n,
            k = inbox_path cfg // c // s
            /\ is_dir disk (inbox_path cfg ++ [c]) = true
            /\ is_dir disk (inbox_path cfg ++ [c; s]) = true
            /\ (ticks st <= n < ticks st')%nat
            /\ pending_folders st' !! k = Some (clock E n).

(** The study folder [{inbox}/{c}/{s}] is pending in [st'], stamped with a
    clock reading taken since the [t0]-th. *)
Definition noted_since (E : Env) (cfg : Config) (t0 : nat) (c s : string) (st' : State) : Prop :=
  exists n, (t0 <= n < ticks st')%nat
    /\ pending_folders st' !! (inbox_path cfg // c // s) = Some (clock E n).

(** The values the [PENDING_IMPORTS] gauge was set to, oldest first. *)
Definition pending_gauge (evs : list event) : list nat :=
  omap (fun e => match e with
                 | EPendingImports n => Some n
                 | _ => None
                 end) evs.


(* ===================================================================== *)
(** * Properties *)
(* ===================================================================== *)

(** ** Running the monad *)

Lemma bind_inv {A B : Type} (m : M A) (k : A -> M B)
    (st s' : State) (r : Res B) (ev : list event) :
  bind m k st = (r, s', ev) ->
  (exists a s1 e1 e2, m st = (Ok a, s1, e1) /\ k a s1 = (r, s', e2) /\ ev = e1 ++ e2)
  \/ (exists e, m st = (Raise e, s', ev) /\ r = Raise e).
Proof.
  unfold bind. destruct (m st) as [[[a|e] s1] e1].
  - destruct (k a s1) as [[r2 s2] e2] eqn:Hk. intros [= <- <- <-].
    left. by exists a, s1, e1, e2.
  - intros [= <- <- <-]. right. by exists e.
Qed.

Lemma try_except_inv {A : Type} (m : M A) (h : exn -> M A)
    (st s' : State) (r : Res A) (ev : list event) :
  try_except m h st = (r, s', ev) ->
  (exists a, m st = (Ok a, s', ev) /\ r = Ok a)
  \/ (exists e s1 e1 e2, m st = (Raise e, s1, e1) /\ h e s1 = (r, s', e2) /\ ev = e1 ++ e2).
Proof.
  unfold try_except. destruct (m st) as [[[a|e] s1] e1].
  - intros [= <- <- <-]. left. by exists a.
  - destruct (h e s1) as [[r2 s2] e2] eqn:Hh. intros [= <- <- <-].
    right. by exists e, s1, e1, e2.
Qed.

(** ** pathlib and strings *)

Lemma relative_to_app (b r : path) : PathLib.relative_to (b ++ r) b = Some r.
Proof.
  induction b as [|x b IH]; simpl; [done|].
  by rewrite String.eqb_refl.
Qed.

Lemma relative_to_Some (p b r : path) :
  PathLib.relative_to p b = Some r -> p = b ++ r.
Proof.
  revert p; induction b as [|x b IH]; intros p; simpl.
  - by intros [= ->].
  - destruct p as [|y p]; [done|].
    destruct (String.eqb y x) eqn:Hxy; [|done].
    apply String.eqb_eq in Hxy as ->.
    intros H. by rewrite (IH _ H).
Qed.

(** ** File watcher *)

Section InboxHandlerProps.
Context (E : Env) (cfg : Config).

Lemma handle_new_folder_study (seg0 seg1 : string) (rest : path) (st : State) :
  InboxHandler._handle_new_folder E cfg (inbox_path cfg ++ seg0 :: seg1 :: rest) st =
    let key := inbox_path cfg // seg0 // seg1 in
    let pend := <[key := clock E (ticks st)]> (pending_folders st) in
    (Ok tt, with_pending pend (with_ticks (S (ticks st)) st),
     [EPendingImports (size pend);
      ELog Debug "Folder added to pending"
        [("folder", PathLib.str key); ("clinic_id", seg0)]]).
Proof.
  unfold InboxHandler._handle_new_folder. rewrite relative_to_app. reflexivity.
Qed.

Lemma handle_new_folder_ignored (p : path) (st : State) :
  (exists seg0 seg1 rest, p = inbox_path cfg ++ seg0 :: seg1 :: rest)
  \/ InboxHandler._handle_new_folder E cfg p st = (Ok tt, st, []).
Proof.
  unfold InboxHandler._handle_new_folder.
  destruct (PathLib.relative_to p (inbox_path cfg)) as [[|c [|s1 r]]|] eqn:Hr;
    [by right | by right | | by right].
  left. exists c, s1, r. by apply relative_to_Some.
Qed.

Lemma repeat_handle_new_folder (seg0 seg1 : string) (rest : path) (n : nat) :
  forall st : State,
    let o := repeat_m (S n)
               (InboxHandler._handle_new_folder E cfg
                  (inbox_path cfg ++ seg0 :: seg1 :: rest)) st in
    res_of o = Ok tt
    /\ pending_folders (state_of o) =
         <[inbox_path cfg // seg0 // seg1 := clock E (ticks st + n)]> (pending_folders st)
    /\ ticks (state_of o) = (ticks st + S n)%nat.
Proof.
  induction n as [|n IH]; intros st.
  - simpl. unfold bind. rewrite handle_new_folder_study. simpl.
    rewrite Nat.add_0_r. repeat split; lia.
  - remember (S n) as m. simpl. unfold bind. rewrite handle_new_folder_study.
    cbv zeta.
    set (st1 := with_pending _ _).
    specialize (IH st1). subst m. cbv zeta in IH.
    destruct (repeat_m (S n) _ st1) as [[r s'] ev]. unfold res_of, state_of in *.
    simpl in *. destruct IH as (-> & -> & ->).
    repeat split; [|lia].
    rewrite insert_insert_eq. do 2 f_equal. lia.
Qed.

(** C8.  Noting a path below a study folder any number of times leaves
    one pending entry for [{inbox}/{seg0}/{seg1}], holding the clock
    reading of the last call, and changes no other entry; a path that is
    not of that form changes nothing at all. *)
Theorem handle_new_folder_upsert :
  (forall (seg0 seg1 : string) (rest : path) (n : nat) (st : State),
      let key := inbox_path cfg // seg0 // seg1 in
      let o := repeat_m (S n)
                 (InboxHandler._handle_new_folder E cfg
                    (inbox_path cfg ++ seg0 :: seg1 :: rest)) st in
      res_of o = Ok tt
      /\ pending_folders (state_of o) !! key = Some (clock E (ticks st + n))
      /\ (forall k, k <> key ->
            pending_folders (state_of o) !! k = pending_folders st !! k)
      /\ size (pending_folders (state_of o)) = size (<[key := 0]> (pending_folders st)))
  /\ (forall (p : path) (st : State),
        (exists seg0 seg1 rest, p = inbox_path cfg ++ seg0 :: seg1 :: rest)
        \/ InboxHandler._handle_new_folder E cfg p st = (Ok tt, st, [])).
Proof.
  split; [|apply handle_new_folder_ignored].
  intros seg0 seg1 rest n st key o.
  destruct (repeat_handle_new_folder seg0 seg1 rest n st) as (Hr & Hp & _).
  fold o in Hr, Hp. fold key in Hp.
  split; [done|]. rewrite Hp.
  split; [by rewrite lookup_insert_eq|].
  split; [by intros k Hk; rewrite lookup_insert_ne|].
  rewrite !map_size_insert. done.
Qed.

End InboxHandlerProps.

Section DrainProps.
Context (E : Env) (cfg : Config).

Lemma classic_list (l : list (path * Z)) (k : path) (t : Z) :
  (exists ts, (k, ts) ∈ l /\ cooldown_seconds cfg <= t - ts)
  \/ ~ (exists ts, (k, ts) ∈ l /\ cooldown_seconds cfg <= t - ts).
Proof.
  induction l as [|[k0 ts0] l [(ts & H & Hts)|IH]].
  - right. intros (ts & H & _). by apply elem_of_nil in H.
  - left. exists ts. split; [by right|done].
  - destruct (decide (k = k0)) as [->|Hne].
    + destruct (Z.le_gt_cases (cooldown_seconds cfg) (t - ts0)) as [Hle|Hgt].
      * left. exists ts0. split; [left|done].
      * right. intros (ts & H & Hts).
        apply elem_of_cons in H as [[= ->]|H]; [lia|]. apply IH. by exists ts.
    + right. intros (ts & H & Hts).
      apply elem_of_cons in H as [[= -> ->]|H]; [done|]. apply IH. by exists ts.
Qed.

Lemma expire_fold_keys (t : Z) (l : list (path * Z)) :
  forall (acc : list path) (m : gmap path Z) (k : path),
    k ∈ (foldl (InboxHandler.expire cfg t) (acc, m) l).1 <->
    k ∈ acc \/ exists ts, (k, ts) ∈ l /\ cooldown_seconds cfg <= t - ts.
Proof.
  induction l as [|[k0 ts0] l IH]; intros acc m k; simpl.
  - split; [by left|]. intros [H|(ts & H & _)]; [done|]. by apply elem_of_nil in H.
  - unfold InboxHandler.expire at 2. simpl.
    destruct (Z.leb_spec (cooldown_seconds cfg) (t - ts0)) as [Hle|Hlt]; rewrite IH.
    + rewrite elem_of_app, list_elem_of_singleton. split.
      * intros [[H| ->]|(ts & H & Hts)]; [by left| |].
        -- right. exists ts0. split; [left|done].
        -- right. exists ts. split; [by right|done].
      * intros [H|(ts & H & Hts)]; [by left; left|].
        apply elem_of_cons in H as [[= -> ->]|H]; [by left; right|].
        right. by exists ts.
    + split.
      * intros [H|(ts & H & Hts)]; [by left|]. right. exists ts. split; [by right|done].
      * intros [H|(ts & H & Hts)]; [by left|].
        apply elem_of_cons in H as [[= -> ->]|H]; [lia|].
        right. by exists ts.
Qed.

Lemma expire_fold_map (t : Z) (l : list (path * Z)) :
  forall (acc : list path) (m : gmap path Z) (k : path),
    ((exists ts, (k, ts) ∈ l /\ cooldown_seconds cfg <= t - ts) ->
       (foldl (InboxHandler.expire cfg t) (acc, m) l).2 !! k = None)
    /\ (~ (exists ts, (k, ts) ∈ l /\ cooldown_seconds cfg <= t - ts) ->
       (foldl (InboxHandler.expire cfg t) (acc, m) l).2 !! k = m !! k).
Proof.
  induction l as [|[k0 ts0] l IH]; intros acc m k; simpl.
  - split; [|done]. intros (ts & H & _). by apply elem_of_nil in H.
  - unfold InboxHandler.expire at 2 4. simpl.
    destruct (Z.leb_spec (cooldown_seconds cfg) (t - ts0)) as [Hle|Hlt].
    + destruct (IH (acc ++ [k0]) (delete k0 m) k) as [IH1 IH2]. split.
      * intros (ts & H & Hts).
        destruct (classic_list l k t) as [Hin|Hout].
        -- by apply IH1.
        -- rewrite (IH2 Hout).
           apply elem_of_cons in H as [[= -> ->]|H]; [by rewrite lookup_delete_eq|].
           exfalso. apply Hout. by exists ts.
      * intros Hno. rewrite IH2.
        -- rewrite lookup_delete_ne; [done|]. intros ->. apply Hno.
           exists ts0. split; [left|done].
        -- intros (ts & H & Hts). apply Hno. exists ts. split; [by right|done].
    + destruct (IH acc m k) as [IH1 IH2]. split.
      * intros (ts & H & Hts). apply IH1.
        apply elem_of_cons in H as [[= -> ->]|H]; [lia|]. by exists ts.
      * intros Hno. apply IH2.
        intros (ts & H & Hts). apply Hno. exists ts. split; [by right|done].
Qed.

(** What one turn of the submission loop emits; it changes no state. *)
Lemma dispatch_run (k : path) (st : State) :
  exists ev, InboxHandler.dispatch cfg k st = (Ok tt, st, ev)
    /\ (forall k' c, ESubmit k' c ∈ ev <->
          k' = k /\ path_exists (fs st) k = true
          /\ exists rest, PathLib.relative_to k (inbox_path cfg) = Some (c :: rest))
    /\ (path_exists (fs st) k = false ->
          ev = [ELog Debug "Folder no longer exists" [("folder", PathLib.str k)]]).
Proof.
  unfold InboxHandler.dispatch, bind, get, log, emit. simpl.
  destruct (path_exists (fs st) k) eqn:Hex; simpl.
  - destruct (PathLib.relative_to k (inbox_path cfg)) as [[|c r]|] eqn:Hrel; simpl.
    + eexists; split; [done|]. split; [|done]. intros k' c'. split.
      * intros H. by apply elem_of_nil in H.
      * by intros (_ & _ & r & [=]).
    + eexists; split; [done|]. split; [|done]. intros k' c'.
      rewrite elem_of_cons, list_elem_of_singleton. split.
      * intros [[=]|[= -> ->]]. split; [done|]. split; [done|]. by exists r.
      * intros (-> & _ & r' & [= -> ->]). by right.
    + eexists; split; [done|]. split; [|done]. intros k' c'. split.
      * intros H. by apply elem_of_nil in H.
      * by intros (_ & _ & r & [=]).
  - eexists; split; [done|]. split; [|done]. intros k' c'.
    rewrite list_elem_of_singleton. split; [done|]. by intros (_ & [=] & _).
Qed.

Lemma for_each_dispatch (l : list path) (st : State) :
  exists ev, for_each l (InboxHandler.dispatch cfg) st = (Ok tt, st, ev)
    /\ (forall k c, ESubmit k c ∈ ev <->
          k ∈ l /\ path_exists (fs st) k = true
          /\ exists rest, PathLib.relative_to k (inbox_path cfg) = Some (c :: rest))
    /\ (forall k, k ∈ l -> path_exists (fs st) k = false ->
          ELog Debug "Folder no longer exists" [("folder", PathLib.str k)] ∈ ev).
Proof.
  induction l as [|k0 l (ev & Hrun & Hsub & Hskip)]; simpl.
  - exists []. split; [done|]. split.
    + intros k c. split; intros H; [by apply elem_of_nil in H|].
      destruct H as (H & _). by apply elem_of_nil in H.
    + intros k H. by apply elem_of_nil in H.
  - destruct (dispatch_run k0 st) as (ev0 & Hrun0 & Hsub0 & Hskip0).
    exists (ev0 ++ ev). unfold bind. rewrite Hrun0, Hrun. split; [done|]. split.
    + intros k c. rewrite elem_of_app, Hsub0, Hsub, elem_of_cons. naive_solver.
    + intros k Hk Hno. rewrite elem_of_app.
      apply elem_of_cons in Hk as [->|Hk].
      * left. rewrite (Hskip0 Hno). left.
      * right. by apply Hskip.
Qed.

(** C7.  A drain at clock reading [t] keeps exactly the entries with
    [t - ts < cooldown_seconds], with their timestamps; every other entry
    is removed and promoted, and a promoted folder is submitted, with the
    first segment of its key below the inbox as tenant, exactly when it
    still exists; one that is gone is logged and skipped. *)
Theorem check_pending_folders_drain (st : State) :
  let t := clock E (ticks st) in
  let o := InboxHandler.check_pending_folders E cfg st in
  res_of o = Ok tt
  /\ (forall k ts,
        pending_folders (state_of o) !! k = Some ts <->
        pending_folders st !! k = Some ts /\ t - ts < cooldown_seconds cfg)
  /\ (forall k c,
        ESubmit k c ∈ events_of o <->
        exists ts rest,
          pending_folders st !! k = Some ts /\ cooldown_seconds cfg <= t - ts
          /\ path_exists (fs st) k = true
          /\ PathLib.relative_to k (inbox_path cfg) = Some (c :: rest))
  /\ (forall k ts,
        pending_folders st !! k = Some ts -> cooldown_seconds cfg <= t - ts ->
        path_exists (fs st) k = false ->
        ELog Debug "Folder no longer exists" [("folder", PathLib.str k)] ∈ events_of o
        /\ forall c, ESubmit k c ∉ events_of o).
Proof.
  intros t o. subst o.
  unfold InboxHandler.check_pending_folders, bind, time_time, get, modify, emit.
  cbn [ticks with_ticks pending_folders fst snd]. fold t.
  set (r := foldl (InboxHandler.expire cfg t) ([], pending_folders st)
              (map_to_list (pending_folders st))).
  set (st2 := with_pending r.2 (with_ticks (S (ticks st)) st)).
  destruct (for_each_dispatch r.1 st2) as (ev & Hrun & Hsub & Hskip).
  rewrite Hrun. unfold res_of, state_of, events_of. cbn [fst snd].
  assert (Hkeys : forall k, k ∈ r.1 <->
            exists ts, pending_folders st !! k = Some ts /\ cooldown_seconds cfg <= t - ts).
  { intros k. unfold r. rewrite expire_fold_keys. split.
    - intros [H|(ts & H & Hts)]; [by apply elem_of_nil in H|].
      exists ts. by rewrite <- elem_of_map_to_list.
    - intros (ts & H & Hts). right. exists ts. by rewrite elem_of_map_to_list. }
  assert (Hsub' : forall k c, ESubmit k c ∈ EPendingImports (size r.2) :: ev <->
            ESubmit k c ∈ ev).
  { intros k c. rewrite elem_of_cons. naive_solver. }
  split; [done|]. split; [|split].
  - intros k ts. unfold st2. cbn [pending_folders with_pending]. unfold r.
    destruct (expire_fold_map t (map_to_list (pending_folders st)) []
                (pending_folders st) k) as [Hgone Hkept].
    destruct (classic_list (map_to_list (pending_folders st)) k t) as [Hd|Hd].
    + rewrite (Hgone Hd). split; [done|]. intros (Hk & Hlt).
      destruct Hd as (ts' & Hin & Hle).
      apply elem_of_map_to_list in Hin. rewrite Hk in Hin. injection Hin as <-. lia.
    + rewrite (Hkept Hd). split.
      * intros Hk. split; [done|].
        destruct (Z.lt_ge_cases (t - ts) (cooldown_seconds cfg)) as [?|Hge]; [done|].
        exfalso. apply Hd. exists ts. by rewrite elem_of_map_to_list.
      * by intros (Hk & _).
  - intros k c. rewrite Hsub', Hsub, Hkeys. unfold st2. cbn [fs with_pending with_ticks].
    naive_solver.
  - intros k ts Hk Hle Hno. split.
    + apply elem_of_cons. right. apply Hskip; [|done]. apply Hkeys. by exists ts.
    + intros c. rewrite Hsub', Hsub. unfold st2. cbn [fs with_pending with_ticks].
      rewrite Hno. naive_solver.
Qed.

End DrainProps.

(** ** Token cache *)

Section TokenManagerProps.
Context (E : Env) (cfg : Config).

(** The refresh in full, by the answer of the identity provider. *)
Lemma refresh_token_run (st : State) :
  let o := TokenManager._refresh_token E cfg st in
  let asked := with_token_calls (S (token_calls st)) st in
  match keycloak_client_secret cfg with
  | EmptyString =>
      o = (Ok None, st,
           [ELog Debug "No client secret configured, skipping token refresh" []])
  | _ =>
      match token_reply E (token_calls st) with
      | ConnectionFailed e => res_of o = Ok None /\ state_of o = asked
      | Responded status _ body =>
          if ((400 <=? status) && (status <? 600))%bool
          then res_of o = Ok None /\ state_of o = asked
          else
            match body with
            | BodyInvalid e => res_of o = Ok None /\ state_of o = asked
            | BodyToken tok ex =>
                let stored lifetime :=
                  with_token_expires (clock E (ticks st) + lifetime)
                    (with_ticks (S (ticks st)) (with_token (Some tok) asked)) in
                let slipped :=
                  res_of o = Ok None
                  /\ state_of o = with_ticks (S (ticks st)) (with_token (Some tok) asked) in
                match ex with
                | ExpAbsent => res_of o = Ok (Some tok) /\ state_of o = stored 300
                | ExpNum n =>
                    if float_of_int_overflows n then slipped
                    else res_of o = Ok (Some tok) /\ state_of o = stored n
                | ExpNotNum => slipped
                end
            end
      end
  end.
Proof.
  unfold TokenManager._refresh_token.
  destruct (keycloak_client_secret cfg) as [|c r]; [reflexivity|].
  cbv beta iota zeta delta
    [try_except bind TokenManager.requests_post TokenManager.raise_for_status
     emit get modify log time_time raise ret res_of state_of].
  destruct (token_reply E (token_calls st)) as [e|status text body]; simpl; [done|].
  destruct ((400 <=? status) && (status <? 600))%bool; simpl; [done|].
  destruct body as [e|tok [| n|]]; simpl; try done.
  destruct (float_of_int_overflows n); simpl; done.
Qed.

(** Where [get_token] falls through to the refresh, and in which state. *)
Lemma get_token_run (st : State) :
  match token st with
  | Some (String c r) =>
      if clock E (ticks st) <? token_expires st - 60
      then TokenManager.get_token E cfg st
           = (Ok (Some (String c r)), with_ticks (S (ticks st)) st, [])
      else TokenManager.get_token E cfg st
           = TokenManager._refresh_token E cfg (with_ticks (S (ticks st)) st)
  | _ => TokenManager.get_token E cfg st = TokenManager._refresh_token E cfg st
  end.
Proof.
  unfold TokenManager.get_token, bind, get, time_time, ret. simpl.
  destruct (token st) as [[|c r]|] eqn:Ht; simpl.
  - by destruct (TokenManager._refresh_token E cfg st) as [[? ?] ?].
  - destruct (clock E (ticks st) <? token_expires st - 60); simpl.
    + done.
    + by destruct (TokenManager._refresh_token E cfg _) as [[? ?] ?].
  - by destruct (TokenManager._refresh_token E cfg st) as [[? ?] ?].
Qed.


End TokenManagerProps.


(** ** Text and its encoding *)

Lemma append_cons (c : ascii) (a b : string) : String c a +:+ b = String c (a +:+ b).
Proof. reflexivity. Qed.

Lemma utf8_run_app (a b : string) :
  forall st, Str.utf8_run st (a +:+ b)
             = match Str.utf8_run st a with
               | Some st' => Str.utf8_run st' b
               | None => None
               end.
Proof.
  induction a as [|c a IH]; intros st; [reflexivity|].
  rewrite append_cons. cbn [Str.utf8_run].
  destruct (Str.utf8_step st c); [apply IH|reflexivity].
Qed.

Lemma utf8_run_ascii (a : string) :
  Str.is_ascii_text a = true -> Str.utf8_run Str.Utf8Start a = Some Str.Utf8Start.
Proof.
  induction a as [|c a IH]; [reflexivity|]. cbn [Str.is_ascii_text Str.utf8_run].
  intros H. apply andb_true_iff in H as [Hc Ha].
  unfold Str.utf8_step. rewrite Hc. by apply IH.
Qed.

Lemma utf8_run_app_ascii (a b : string) :
  Str.is_ascii_text a = true ->
  Str.utf8_run Str.Utf8Start (a +:+ b) = Str.utf8_run Str.Utf8Start b.
Proof. intros Ha. by rewrite utf8_run_app, utf8_run_ascii. Qed.

Lemma hex_digit_ascii (k : nat) : (nat_of_ascii (Str.hex_digit k) <? 128)%nat = true.
Proof. unfold Str.hex_digit. do 17 (destruct k as [|k]; [reflexivity|]). reflexivity. Qed.

Lemma hex_ascii (d : list byte) : Str.is_ascii_text (Str.hex d) = true.
Proof.
  induction d as [|b d IH]; [reflexivity|].
  cbn [Str.hex Str.is_ascii_text]. by rewrite !hex_digit_ascii, IH.
Qed.

(** The body of an upload can be built exactly when the file name is
    well-formed UTF-8: the boundary is a hexadecimal digest and the rest
    of the frame is ASCII. *)
Lemma multipart_body_built (L : Lib) (t : Z) (filename : string) (dicom_bytes : list byte) :
  (Str.utf8_valid filename = true ->
   exists body,
     DicomProcessor.multipart_body (DicomProcessor.boundary_at L t) filename dicom_bytes
     = Ok body)
  /\ (Str.utf8_valid filename = false ->
      DicomProcessor.multipart_body (DicomProcessor.boundary_at L t) filename dicom_bytes
      = Raise (Exn UnicodeEncodeError
                 "'utf-8' codec can't encode character: surrogates not allowed")).
Proof.
  unfold DicomProcessor.multipart_body, DicomProcessor.encode, DicomProcessor.boundary_at.
  set (b := Str.hex (md5 L (float_str L t))).
  assert (Hb : Str.is_ascii_text b = true) by apply hex_ascii.
  assert (Htail : Str.utf8_valid (DicomProcessor.CRLF +:+ "--" +:+ b +:+ "--"
                                  +:+ DicomProcessor.CRLF) = true).
  { unfold Str.utf8_valid.
    rewrite (utf8_run_app_ascii DicomProcessor.CRLF) by reflexivity.
    rewrite (utf8_run_app_ascii "--") by reflexivity.
    rewrite (utf8_run_app_ascii b) by done.
    reflexivity. }
  assert (Hhead : Str.utf8_valid
                    ("--" +:+ b +:+ DicomProcessor.CRLF +:+
                     "Content-Type: application/dicom" +:+ DicomProcessor.CRLF +:+
                     "Content-Disposition: attachment; filename=" +:+ DicomProcessor.DQUOTE
                     +:+ filename +:+ DicomProcessor.DQUOTE +:+ DicomProcessor.CRLF
                     +:+ DicomProcessor.CRLF)
                  = Str.utf8_valid filename).
  { unfold Str.utf8_valid.
    rewrite (utf8_run_app_ascii "--") by reflexivity.
    rewrite (utf8_run_app_ascii b) by done.
    rewrite (utf8_run_app_ascii DicomProcessor.CRLF) by reflexivity.
    rewrite (utf8_run_app_ascii "Content-Type: application/dicom") by reflexivity.
    rewrite (utf8_run_app_ascii DicomProcessor.CRLF) by reflexivity.
    rewrite (utf8_run_app_ascii "Content-Disposition: attachment; filename=")
      by reflexivity.
    rewrite (utf8_run_app_ascii DicomProcessor.DQUOTE) by reflexivity.
    rewrite utf8_run_app.
    destruct (Str.utf8_run Str.Utf8Start filename) as [[]|]; reflexivity. }
  rewrite Hhead, Htail.
  split; intros ->; [by eexists|done].
Qed.

(** ** Uploader *)

Lemma stow_posts_app (a b : list event) : stow_posts (a ++ b) = stow_posts a ++ stow_posts b.
Proof. apply omap_app. Qed.

Lemma outcomes_app (a b : list event) : outcomes (a ++ b) = outcomes a ++ outcomes b.
Proof. apply omap_app. Qed.

Section UploaderProps.
Context (L : Lib) (E : Env) (cfg : Config).

(** Asking for a token sends nothing to the DICOM server and counts no
    study. *)
Lemma get_token_quiet (st : State) :
  stow_posts (events_of (TokenManager.get_token E cfg st)) = []
  /\ outcomes (events_of (TokenManager.get_token E cfg st)) = []
  /\ fs (state_of (TokenManager.get_token E cfg st)) = fs st
  /\ (exists tok, res_of (TokenManager.get_token E cfg st) = Ok tok).
Proof.
  cbv beta iota zeta delta
    [TokenManager.get_token TokenManager._refresh_token
     try_except bind TokenManager.requests_post TokenManager.raise_for_status
     emit get modify log time_time raise ret res_of state_of events_of].
  destruct (token st) as [[|c r]|]; simpl;
    try destruct (clock E (ticks st) <? token_expires st - 60); simpl;
    try (by eauto);
    destruct (keycloak_client_secret cfg); simpl; try (by eauto);
    destruct (token_reply E (token_calls st)) as [e|status text body]; simpl;
    try (by eauto);
    destruct ((400 <=? status) && (status <? 600))%bool; simpl; try (by eauto);
    destruct body as [e|tok [|n|]]; simpl; try (by eauto);
    destruct (float_of_int_overflows n); simpl; by eauto.
Qed.

Lemma get_token_keeps_stow_calls (st : State) :
  stow_calls (state_of (TokenManager.get_token E cfg st)) = stow_calls st.
Proof.
  cbv beta iota zeta delta
    [TokenManager.get_token TokenManager._refresh_token
     try_except bind TokenManager.requests_post TokenManager.raise_for_status
     emit get modify log time_time raise ret res_of state_of events_of].
  destruct (token st) as [[|c r]|] eqn:Htok; simpl;
    try destruct (clock E (ticks st) <? token_expires st - 60); simpl;
    try destruct (keycloak_client_secret cfg); simpl;
    try destruct (token_reply E (token_calls st)) as [e|status text [e'|tok [|n|]]]; simpl;
    try destruct ((400 <=? _) && (_ <? 600))%bool; simpl;
    try destruct (float_of_int_overflows n); simpl; done.
Qed.

(** The upload in full.  The body is built first: a file name that does
    not encode ends the call there.  Then the token is asked for, one
    request goes out, and the reply decides the result. *)
Lemma upload_stow_rs_exact (dicom_bytes : list byte) (filename : string) (st : State) :
  let st1 := with_ticks (S (ticks st)) st in
  let g := TokenManager.get_token E cfg st1 in
  let b := DicomProcessor.boundary_at L (clock E (ticks st)) in
  match DicomProcessor.multipart_body b filename dicom_bytes with
  | Raise e =>
      DicomProcessor._upload_stow_rs L E cfg dicom_bytes filename st = (Raise e, st1, [])
  | Ok body =>
      exists tok,
        res_of g = Ok tok
        /\ DicomProcessor._upload_stow_rs L E cfg dicom_bytes filename st =
             (upload_result (stow_reply E (stow_calls st)),
              with_stow_calls (S (stow_calls st)) (state_of g),
              events_of g
              ++ [EStowPost (DicomProcessor.stow_url cfg) body
                    ([content_type b; ("Accept", "application/dicom+json")]
                     ++ authorization tok)])
  end.
Proof.
  intros st1 g b. subst g b.
  destruct (DicomProcessor.multipart_body _ filename dicom_bytes) as [body|e] eqn:Hbody;
    unfold DicomProcessor._upload_stow_rs;
    unfold bind at 1; unfold time_time at 1; cbv beta iota; fold st1;
    unfold bind at 1; unfold lift at 1; rewrite Hbody; [|done].
  cbv beta iota. unfold bind at 1.
  destruct (get_token_quiet st1) as (_ & _ & _ & tok & Hres).
  pose proof (get_token_keeps_stow_calls st1) as Hcalls.
  destruct (TokenManager.get_token E cfg st1) as [[r s2] ev].
  unfold res_of, state_of, events_of in *. cbn [fst snd] in *. subst r.
  change (stow_calls st1) with (stow_calls st) in Hcalls.
  exists tok. split; [done|].
  cbv beta iota zeta delta
    [DicomProcessor.session_post bind emit get modify raise ret].
  rewrite Hcalls. unfold upload_result, authorization, content_type.
  destruct tok as [[|c r]|];
    destruct (stow_reply E (stow_calls st)) as [e|status text []]; cbn [fst snd];
    try destruct ((status =? 200) || (status =? 202))%bool; cbn [fst snd app];
    rewrite ?app_nil_r; reflexivity.
Qed.

(** An upload sends its one request exactly when its body could be
    built. *)
Lemma upload_stow_rs_posts (dicom_bytes : list byte) (filename : string) (st : State) :
  let b := DicomProcessor.boundary_at L (clock E (ticks st)) in
  let o := DicomProcessor._upload_stow_rs L E cfg dicom_bytes filename st in
  match DicomProcessor.multipart_body b filename dicom_bytes with
  | Raise e => o = (Raise e, with_ticks (S (ticks st)) st, [])
  | Ok body =>
      exists authorization,
        stow_posts (events_of o)
        = [(body, [content_type b; ("Accept", "application/dicom+json")] ++ authorization)]
  end.
Proof.
  intros b o. subst b o.
  pose proof (upload_stow_rs_exact dicom_bytes filename st) as Hex. cbv zeta in Hex.
  destruct (DicomProcessor.multipart_body _ filename dicom_bytes) as [body|e]; [|done].
  destruct Hex as (tok & _ & ->).
  destruct (get_token_quiet (with_ticks (S (ticks st)) st)) as (Hq & _).
  exists (authorization tok).
  unfold events_of in *. cbn [fst snd]. by rewrite stow_posts_app, Hq.
Qed.

(** C9, as the code has it.  An upload whose body can be built, which is
    when the file name encodes as UTF-8, sends one request; its boundary,
    in the outer header and around the part, is the MD5 digest of the
    rendering of the clock reading taken when the request is built, and
    nothing else enters it.  An upload whose file name does not encode
    sends no request. *)
Theorem upload_boundary_from_clock
    (dicom_bytes : list byte) (filename : string) (st : State) :
  let b := DicomProcessor.boundary_at L (clock E (ticks st)) in
  let o := DicomProcessor._upload_stow_rs L E cfg dicom_bytes filename st in
  (Str.utf8_valid filename = true ->
   exists body authorization,
     DicomProcessor.multipart_body b filename dicom_bytes = Ok body
     /\ stow_posts (events_of o)
        = [(body, [content_type b; ("Accept", "application/dicom+json")] ++ authorization)])
  /\ (Str.utf8_valid filename = false -> stow_posts (events_of o) = []).
Proof.
  intros b o. subst b o.
  pose proof (upload_stow_rs_posts dicom_bytes filename st) as Hposts. cbv zeta in Hposts.
  destruct (multipart_body_built L (clock E (ticks st)) filename dicom_bytes)
    as [Hbuilt Hnot].
  split.
  - intros Hvalid. destruct (Hbuilt Hvalid) as [body Hbody].
    rewrite Hbody in Hposts. destruct Hposts as [auth Hposts]. by exists body, auth.
  - intros Hinvalid. rewrite (Hnot Hinvalid) in Hposts. by rewrite Hposts.
Qed.

End UploaderProps.

(** C9 as written fails on the code, whatever the hash function is: two
    different instances uploaded one after the other while the clock shows
    the same reading go out under the same boundary. *)
Lemma upload_boundary_not_unique :
  ~ (exists L : Lib,
       forall (E : Env) (cfg : Config) (st : State)
              (b1 b2 : list byte) (f1 f2 : string),
         (b1, f1) <> (b2, f2) ->
         NoDup (content_types
                  (events_of ((DicomProcessor._upload_stow_rs L E cfg b1 f1 ;;
                               DicomProcessor._upload_stow_rs L E cfg b2 f2) st)))).
Proof.
  intros (L & H).
  specialize (H (Scenario.world Scenario.idp_down [] Scenario.no_files)
                Scenario.cfg_anonymous Scenario.empty_state
                [x01%byte] [x02%byte] "a.dcm" "b.dcm").
  assert (Hne : ([x01%byte], "a.dcm") <> ([x02%byte], "b.dcm")) by congruence.
  specialize (H Hne). clear Hne.
  assert (Hup : forall (bytes : list byte) (name : string) (st : State),
            Str.utf8_valid name = true ->
            exists s' ev,
              DicomProcessor._upload_stow_rs L
                (Scenario.world Scenario.idp_down [] Scenario.no_files)
                Scenario.cfg_anonymous bytes name st = (Ok tt, s', ev)
              /\ content_types ev = [Some (content_type (DicomProcessor.boundary_at L 100))]).
  { intros bytes name st Hvalid.
    pose proof (upload_stow_rs_exact L
                  (Scenario.world Scenario.idp_down [] Scenario.no_files)
                  Scenario.cfg_anonymous bytes name st) as Hex.
    cbv zeta in Hex.
    destruct (multipart_body_built L 100 name bytes) as [[body Hb] _]; [done|].
    change (clock (Scenario.world Scenario.idp_down [] Scenario.no_files) (ticks st))
      with 100 in Hex.
    rewrite Hb in Hex. destruct Hex as (tok & _ & ->).
    eexists _, _. split; [reflexivity|].
    destruct (get_token_quiet (Scenario.world Scenario.idp_down [] Scenario.no_files)
                Scenario.cfg_anonymous (with_ticks (S (ticks st)) st)) as (Hq & _).
    unfold content_types. by rewrite stow_posts_app, Hq. }
  destruct (Hup [x01%byte] "a.dcm" Scenario.empty_state eq_refl) as (s1 & ev1 & Hrun1 & Hc1).
  destruct (Hup [x02%byte] "b.dcm" s1 eq_refl) as (s2 & ev2 & Hrun2 & Hc2).
  unfold bind in H. rewrite Hrun1, Hrun2 in H. cbn [events_of snd] in H.
  unfold content_types in H, Hc1, Hc2.
  rewrite stow_posts_app, List.map_app, Hc1, Hc2 in H.
  apply NoDup_cons in H as [Hin _].
  apply Hin. left.
Qed.

(** ** Discovery *)

Lemma elem_of_List_filter {A : Type} (f : A -> bool) (l : list A) (x : A) :
  x ∈ List.filter f l <-> x ∈ l /\ f x = true.
Proof. rewrite !list_elem_of_In. apply filter_In. Qed.

Section DiscoveryProps.
Context (L : Lib) (E : Env).

Lemma try_other_file_elem (acc : list path) (q p : path) :
  p ∈ DicomProcessor.try_other_file L E acc q <->
  p ∈ acc \/ (p = q /\ parses_untried L E p).
Proof.
  unfold parses_untried, DicomProcessor.try_other_file.
  destruct (is_file E q) eqn:Hf; cbn [andb negb]; [|naive_solver congruence].
  destruct (DicomProcessor.str_in (Str.lower (PathLib.suffix q)) DicomProcessor.not_tried)
    eqn:Hs; cbn [andb negb]; [naive_solver congruence|].
  destruct (DicomProcessor.dcmread L E true q) as [ds|e] eqn:Hd;
    [|naive_solver congruence].
  unfold DicomProcessor.path_in. case_bool_decide as Hin.
  - naive_solver.
  - rewrite elem_of_app, list_elem_of_singleton. naive_solver.
Qed.

Lemma foldl_try_other_file (l : list path) :
  forall (acc : list path) (p : path),
    p ∈ foldl (DicomProcessor.try_other_file L E) acc l <->
    p ∈ acc \/ (p ∈ l /\ parses_untried L E p).
Proof.
  induction l as [|q l IH]; intros acc p; simpl.
  - split; [by left|]. intros [H|[H _]]; [done|]. by apply elem_of_nil in H.
  - rewrite IH, try_other_file_elem, elem_of_cons. naive_solver.
Qed.

(** Discovery reads the folder three times and changes nothing on disk. *)
Lemma discover_run (study_path : path) (st : State) :
  events_of (DicomProcessor.discover L E study_path st) = []
  /\ fs (state_of (DicomProcessor.discover L E study_path st)) = fs st
  /\ forall files, res_of (DicomProcessor.discover L E study_path st) = Ok files ->
       files = foldl (DicomProcessor.try_other_file L E)
                 (List.filter (PathLib.glob_match ".dcm") (walk E study_path)
                  ++ List.filter (PathLib.glob_match ".DCM") (walk E study_path))
                 (List.filter (fun _ => true) (walk E study_path)).
Proof.
  cbv beta iota zeta delta
    [DicomProcessor.discover glob bind io_step ret res_of state_of events_of].
  destruct (fs_fault E (io_ops st)); simpl; [done|].
  destruct (fs_fault E (S (io_ops st))); simpl; [done|].
  destruct (fs_fault E (S (S (io_ops st)))); simpl; [done|].
  split; [done|]. split; [done|]. by intros files [= <-].
Qed.

(** What discovery finds: the entries named [*.dcm] or [*.DCM], in these
    two spellings, and the regular files with another extension than
    .dcm, .json, .txt and .log (in any case) that parse as DICOM. *)
Lemma discover_finds (study_path : path) (st : State) (files : list path) :
  res_of (DicomProcessor.discover L E study_path st) = Ok files ->
  forall p, p ∈ files <->
    p ∈ walk E study_path
    /\ (PathLib.glob_match ".dcm" p = true \/ PathLib.glob_match ".DCM" p = true
        \/ parses_untried L E p).
Proof.
  intros Hres p. destruct (discover_run study_path st) as (_ & _ & Hf).
  rewrite (Hf _ Hres), foldl_try_other_file, elem_of_app, !elem_of_List_filter.
  naive_solver.
Qed.

(** A name that ends in [.dcm] or [.DCM] has that extension, or none when
    it is nothing but the extension. *)
Lemma endswith_app (ext n : string) :
  Str.endswith ext n = true -> exists pre, n = pre +:+ ext.
Proof.
  induction n as [|c n IH].
  - simpl. rewrite orb_false_r. destruct ext; [|done]. intros _. by exists "".
  - intros H.
    change (Str.endswith ext (String c n))
      with (String.eqb (String c n) ext || Str.endswith ext n)%bool in H.
    apply orb_true_iff in H as [H|H].
    + apply String.eqb_eq in H as <-. by exists "".
    + destruct (IH H) as [pre ->]. by exists (String c pre).
Qed.

Lemma from_last_dot_app (pre body : string) :
  Str.from_last_dot body = None ->
  Str.from_last_dot (pre +:+ String "." body) = Some (String "." body).
Proof.
  intros Hb. induction pre as [|c pre IH]; simpl.
  - by rewrite Hb.
  - by rewrite IH.
Qed.

Lemma suffix_of_globbed (ext n : string) :
  ext = ".dcm" \/ ext = ".DCM" ->
  Str.endswith ext n = true ->
  Str.lower (PathLib.suffix_of_name n) = "" \/ Str.lower (PathLib.suffix_of_name n) = ".dcm".
Proof.
  intros Hext H. apply endswith_app in H as [pre ->].
  destruct pre as [|c pre]; [left; by destruct Hext as [->| ->]|].
  right. simpl.
  destruct Hext as [->| ->]; by rewrite from_last_dot_app.
Qed.

(** The extension filter wins: an entry whose lowered extension is
    [.json], [.txt] or [.log] is never discovered, whatever it holds. *)
Lemma discover_skips_by_extension (study_path : path) (st : State)
    (files : list path) (p : path) :
  res_of (DicomProcessor.discover L E study_path st) = Ok files ->
  DicomProcessor.str_in (Str.lower (PathLib.suffix p)) [".json"; ".txt"; ".log"] = true ->
  p ∉ files.
Proof.
  intros Hres Hext Hin.
  apply (discover_finds study_path st files Hres) in Hin as [_ [Hg|[Hg|(_ & Hs & _)]]].
  - destruct (suffix_of_globbed ".dcm" (PathLib.name p)) as [Hl|Hl]; [by left|done| |];
      unfold PathLib.suffix in Hext; rewrite Hl in Hext; discriminate Hext.
  - destruct (suffix_of_globbed ".DCM" (PathLib.name p)) as [Hl|Hl]; [by right|done| |];
      unfold PathLib.suffix in Hext; rewrite Hl in Hext; discriminate Hext.
  - unfold DicomProcessor.not_tried in Hs. cbn [DicomProcessor.str_in existsb] in Hs, Hext.
    apply orb_false_iff in Hs as [_ Hs]. congruence.
Qed.

End DiscoveryProps.

(** ** Paths and the filesystem primitives *)

Lemma length_append (a b : string) :
  String.length (a +:+ b) = (String.length a + String.length b)%nat.
Proof. induction a as [|c a IH]; simpl; [done|]. by rewrite IH. Qed.

Lemma joinpath_nonempty (p : path) (s : string) :
  s <> "" -> p // s = p ++ [s].
Proof. by destruct s. Qed.

Lemma name_joinpath (p : path) (s : string) : s <> "" -> PathLib.name (p // s) = s.
Proof.
  intros Hs. rewrite joinpath_nonempty by done. unfold PathLib.name. apply last_last.
Qed.

Lemma parent_joinpath (p : path) (s : string) : s <> "" -> PathLib.parent (p // s) = p.
Proof.
  intros Hs. rewrite joinpath_nonempty by done. unfold PathLib.parent. apply removelast_last.
Qed.

Lemma joinpath_prefix (p : path) (s : string) : p `prefix_of` p // s.
Proof.
  destruct s as [|c s]; simpl; [done|]. by apply prefix_app_r.
Qed.

Lemma suffixed_nonempty (n t : string) : n +:+ "_" +:+ t <> "".
Proof.
  intros H. apply (f_equal String.length) in H. rewrite !length_append in H. simpl in H. lia.
Qed.

Lemma suffixed_longer (n t : string) :
  (String.length n < String.length (n +:+ "_" +:+ t))%nat.
Proof. rewrite !length_append. simpl. lia. Qed.

Lemma error_json_nonempty (n : string) : n +:+ ".error.json" <> "".
Proof.
  intros H. apply (f_equal String.length) in H. rewrite !length_append in H. simpl in H. lia.
Qed.

Lemma ancestors_prefix (d q : path) : q ∈ ancestors d -> q `prefix_of` d.
Proof.
  revert q. induction d as [|x d IH]; intros q; simpl.
  - intros H. by apply elem_of_nil in H.
  - rewrite elem_of_cons. intros [->|H].
    + by exists d.
    + apply list_elem_of_In, in_map_iff in H as (q' & <- & Hq').
      apply list_elem_of_In, IH in Hq' as [k ->]. by exists k.
Qed.

Lemma make_dir_lookup (d : path) (m : FS) (q : path) :
  make_dir d m !! q = m !! q
  \/ (m !! q = None /\ make_dir d m !! q = Some Dir /\ q = d).
Proof.
  unfold make_dir. destruct (m !! d) eqn:Hd; [by left|].
  destruct (decide (q = d)) as [->|Hne].
  - right. by rewrite lookup_insert_eq.
  - left. by rewrite lookup_insert_ne.
Qed.

(** [mkdir] adds directories and touches nothing that exists. *)
Lemma foldr_make_dir_lookup (l : list path) (m : FS) (q : path) :
  foldr make_dir m l !! q = m !! q
  \/ (m !! q = None /\ foldr make_dir m l !! q = Some Dir /\ q ∈ l).
Proof.
  induction l as [|d l IH]; simpl; [by left|].
  destruct (make_dir_lookup d (foldr make_dir m l) q) as [->|(Hn & -> & ->)].
  - destruct IH as [IH|(? & ? & ?)]; [by left|].
    right. split; [done|]. split; [done|]. by right.
  - right. destruct IH as [IH|(? & ? & ?)]; [|congruence].
    rewrite <- IH. split; [done|]. split; [done|]. left.
Qed.

Section PrimitiveProps.
Context (E : Env).

Lemma mkdir_parents_run (d : path) (st : State) :
  let o := mkdir_parents E d st in
  events_of o = []
  /\ match res_of o with
     | Ok _ => fs (state_of o) = foldr make_dir (fs st) (ancestors d)
     | Raise _ => fs (state_of o) = fs st
     end.
Proof.
  cbv beta iota zeta delta
    [mkdir_parents bind io_step get modify raise ret res_of state_of events_of].
  destruct (fs_fault E (io_ops st)); simpl; [done|].
  destruct (existsb _ (ancestors d)); simpl; done.
Qed.

Lemma rename_entry_run (src : path) (n : node) (real_dst : path) (st : State) :
  let o := rename_entry src n real_dst st in
  events_of o = []
  /\ match res_of o with
     | Ok _ =>
         ~ src `prefix_of` real_dst
         /\ fs (state_of o) = <[real_dst := n]> (delete src (fs st))
     | Raise _ => fs (state_of o) = fs st
     end.
Proof.
  cbv beta iota zeta delta
    [rename_entry bind get modify raise ret res_of state_of events_of].
  case_bool_decide as Hp; simpl; [done|].
  destruct (fs st !! real_dst) as [[|c]|]; simpl; [done| |done].
  destruct n; simpl; done.
Qed.

Lemma shutil_move_run (src dst : path) (st : State) :
  let o := shutil_move E src dst st in
  events_of o = []
  /\ match res_of o with
     | Ok _ => (src = dst /\ is_Some (fs st !! src) /\ fs (state_of o) = fs st)
               \/ moved src dst (fs st) (fs (state_of o))
     | Raise _ => fs (state_of o) = fs st
     end.
Proof.
  assert (Hgo : forall (n : node) (real : path) (s1 : State),
            fs s1 = fs st -> fs st !! src = Some n ->
            (real = dst \/ real = dst // PathLib.name src) -> real <> src ->
            let o := rename_entry src n real s1 in
            events_of o = []
            /\ match res_of o with
               | Ok _ => (src = dst /\ is_Some (fs st !! src) /\ fs (state_of o) = fs st)
                         \/ moved src dst (fs st) (fs (state_of o))
               | Raise _ => fs (state_of o) = fs st
               end).
  { intros n real s1 Hs1 Hsrc Hreal Hne o. subst o.
    pose proof (rename_entry_run src n real s1) as Hr.
    cbv zeta in Hr. destruct Hr as [Hev Hr]. split; [done|].
    destruct (res_of (rename_entry src n real s1)) as [[]|e]; [|congruence].
    destruct Hr as [Hnp Hfs]. right. exists n, real. rewrite Hfs, Hs1. done. }
  cbv beta iota zeta delta [shutil_move bind io_step get ret raise].
  destruct (fs_fault E (io_ops st)); [done|].
  set (st1 := with_io_ops (S (io_ops st)) st).
  change (fs st1) with (fs st).
  destruct (fs st !! src) as [n|] eqn:Hsrc; [|done].
  case_bool_decide as Heq.
  { subst dst. split; [done|]. left. done. }
  destruct (is_dir (fs st) dst) eqn:Hdir.
  - destruct (path_exists (fs st) (dst // PathLib.name src)) eqn:Hex; [done|].
    assert (Hne : dst // PathLib.name src <> src).
    { intros Hs. unfold path_exists in Hex. by rewrite Hs, Hsrc in Hex. }
    pose proof (Hgo n (dst // PathLib.name src) st1 eq_refl eq_refl (or_intror eq_refl) Hne)
      as H.
    cbv zeta in H.
    by destruct (rename_entry src n (dst // PathLib.name src) st1) as [[r s2] ev2].
  - assert (Hne : dst <> src) by congruence.
    pose proof (Hgo n dst st1 eq_refl eq_refl (or_introl eq_refl) Hne) as H.
    cbv zeta in H.
    by destruct (rename_entry src n dst st1) as [[r s2] ev2].
Qed.

Lemma write_json_run (p : path) (r : error_log) (st : State) :
  let o := write_json E p r st in
  events_of o = []
  /\ match res_of o with
     | Ok _ => fs (state_of o) = <[p := File (ErrorJson r)]> (fs st)
     | Raise _ => fs (state_of o) = fs st
     end.
Proof.
  cbv beta iota zeta delta
    [write_json bind io_step get modify raise ret res_of state_of events_of].
  destruct (fs_fault E (io_ops st)); simpl; [done|].
  destruct (is_dir (fs st) p); simpl; done.
Qed.

End PrimitiveProps.

(** ** The two moves *)

Lemma dated_name_length (root study_path : path) (clinic_id ymd : string) (dest : path) :
  dated root study_path clinic_id ymd dest ->
  (String.length (PathLib.name study_path) <= String.length (PathLib.name dest))%nat.
Proof.
  intros [->|[hms ->]].
  - destruct (PathLib.name study_path) as [|c r] eqn:Hn; [simpl; lia|].
    by rewrite name_joinpath.
  - rewrite name_joinpath by apply suffixed_nonempty.
    pose proof (suffixed_longer (PathLib.name study_path) hms). lia.
Qed.

Lemma dated_prefix (root study_path : path) (clinic_id ymd : string) (dest : path) :
  dated root study_path clinic_id ymd dest ->
  root // clinic_id // ymd `prefix_of` dest.
Proof. intros [->|[hms ->]]; apply joinpath_prefix. Qed.

(** The name of the error record is longer than the name of the folder
    and than the name of its destination. *)
Lemma error_file_apart (dest q : path) :
  (String.length (PathLib.name q) <= String.length (PathLib.name dest))%nat ->
  PathLib.parent dest // (PathLib.name dest +:+ ".error.json") <> q.
Proof.
  intros Hlen Heq. apply (f_equal PathLib.name) in Heq.
  rewrite name_joinpath in Heq by apply error_json_nonempty.
  rewrite <- Heq, length_append in Hlen. simpl in Hlen. lia.
Qed.

Section MoveProps.
Context (E : Env) (cfg : Config).

Lemma dated_destination_run (root study_path : path) (clinic_id : string)
    (st s' : State) (r : Res path) (ev : list event) :
  DicomProcessor.dated_destination E root study_path clinic_id st = (r, s', ev) ->
  ev = []
  /\ match r with
     | Ok dest =>
         exists ymd,
           fs s' = foldr make_dir (fs st) (ancestors (root // clinic_id // ymd))
           /\ ((dest = root // clinic_id // ymd // PathLib.name study_path
                /\ path_exists (fs s') dest = false)
               \/ exists hms,
                    dest = root // clinic_id // ymd
                           // (PathLib.name study_path +:+ "_" +:+ hms))
     | Raise _ => fs s' = fs st
     end.
Proof.
  unfold DicomProcessor.dated_destination. intros Hrun.
  apply bind_inv in Hrun as [(dt & s1 & e1 & e2 & H1 & Hrun & ->)|(e & H1 & _)];
    [|discriminate H1].
  injection H1 as <- <- <-.
  apply bind_inv in Hrun as [([] & s2 & e2' & e3 & H2 & Hrun & ->)|(e & H2 & ->)];
    pose proof (mkdir_parents_run E
                  (root // clinic_id // dt_ymd (datetime_now E (ticks st)))
                  (with_ticks (S (ticks st)) st)) as Hm;
    cbv zeta in Hm; rewrite H2 in Hm;
    unfold res_of, state_of, events_of in Hm; cbn [fst snd] in Hm;
    destruct Hm as [-> Hm]; change (fs (with_ticks _ st)) with (fs st) in Hm;
    [|done].
  apply bind_inv in Hrun as [(s2' & s3 & e3' & e4 & H3 & Hrun & ->)|(e & H3 & _)];
    [|discriminate H3].
  injection H3 as <- <- <-.
  destruct (path_exists (fs s2) _) eqn:Hex.
  - apply bind_inv in Hrun as [(dt' & s4 & e4' & e5 & H4 & Hrun & ->)|(e & H4 & _)];
      [|discriminate H4].
    injection H4 as <- <- <-. injection Hrun as <- <- <-.
    split; [done|]. eexists. split; [done|]. right. eauto.
  - injection Hrun as <- <- <-.
    split; [done|]. eexists. split; [done|]. left. done.
Qed.

(** A completed move out of [study_path] into a dated destination. *)
Lemma relocate (root study_path : path) (clinic_id ymd : string) (dest : path)
    (before made after : FS) :
  made = foldr make_dir before (ancestors (root // clinic_id // ymd)) ->
  (dest = root // clinic_id // ymd // PathLib.name study_path
     /\ path_exists made dest = false)
  \/ (exists hms, dest = root // clinic_id // ymd
                         // (PathLib.name study_path +:+ "_" +:+ hms)) ->
  (study_path = dest /\ is_Some (made !! study_path) /\ after = made)
  \/ moved study_path dest made after ->
  relocated root study_path clinic_id before after dest
  /\ no_file_written study_path before after
  /\ exists n real_dst,
       (real_dst = dest \/ real_dst = dest // PathLib.name study_path)
       /\ after = <[real_dst := n]> (delete study_path made).
Proof.
  intros Hmade Hdest Hmove.
  assert (Hdated : dated root study_path clinic_id ymd dest).
  { destruct Hdest as [[-> _]|[hms ->]]; [by left|right; eauto]. }
  destruct Hmove as [(Heq & Hsome & _)|(n & real & Hsrc & Hreal & Hne & Hnp & ->)].
  { exfalso. subst dest. destruct Hdest as [[_ Hex]|[hms Hd]].
    - unfold path_exists in Hex. destruct Hsome as [x Hx]. by rewrite Hx in Hex.
    - apply (f_equal PathLib.name) in Hd.
      rewrite name_joinpath in Hd by apply suffixed_nonempty.
      pose proof (suffixed_longer (PathLib.name study_path) hms) as Hl.
      rewrite <- Hd in Hl. lia. }
  assert (Hdp : root // clinic_id // ymd `prefix_of` real).
  { etrans; [by apply (dated_prefix root study_path clinic_id ymd dest)|].
    destruct Hreal as [->| ->]; [done|apply joinpath_prefix]. }
  assert (Hbefore : before !! study_path = Some n).
  { destruct (foldr_make_dir_lookup (ancestors (root // clinic_id // ymd))
                before study_path) as [Hsame|(_ & _ & Hanc)].
    - by rewrite <- Hsame, <- Hmade.
    - exfalso. apply Hnp. etrans; [by apply ancestors_prefix|done]. }
  split; [|split].
  - exists ymd, real. split; [done|]. split; [done|].
    split; [by rewrite Hbefore|]. split.
    + by rewrite lookup_insert_eq.
    + rewrite lookup_insert_ne by done. apply lookup_delete_eq.
  - intros q c. destruct (decide (q = real)) as [->|Hq].
    + rewrite lookup_insert_eq. intros [= ->]. by right.
    + rewrite lookup_insert_ne by done.
      destruct (decide (q = study_path)) as [->|Hqs]; [by rewrite lookup_delete_eq|].
      rewrite lookup_delete_ne by done. intros Hf. left.
      destruct (foldr_make_dir_lookup (ancestors (root // clinic_id // ymd))
                  before q) as [Hsame|(_ & Hd & _)].
      * by rewrite <- Hsame, <- Hmade.
      * rewrite <- Hmade in Hd. congruence.
  - by exists n, real.
Qed.

Lemma move_to_processed_run (study_path : path) (clinic_id : string)
    (st s' : State) (r : Res unit) (ev : list event) :
  DicomProcessor._move_to_processed E cfg study_path clinic_id st = (r, s', ev) ->
  outcomes ev = [] /\ stow_posts ev = []
  /\ match r with
     | Ok _ => archived cfg study_path clinic_id (fs st) (fs s')
     | Raise _ => True
     end.
Proof.
  unfold DicomProcessor._move_to_processed. intros Hrun.
  apply bind_inv in Hrun as [(dest & s1 & e1 & e2 & H1 & Hrun & ->)|(e & H1 & ->)];
    apply dated_destination_run in H1 as [-> H1]; [|done].
  destruct H1 as (ymd & Hmade & Hdest).
  apply bind_inv in Hrun as [([] & s2 & e2' & e3 & H2 & Hrun & ->)|(e & H2 & ->)];
    pose proof (shutil_move_run E study_path dest s1) as Hm;
    cbv zeta in Hm; rewrite H2 in Hm;
    unfold res_of, state_of, events_of in Hm; cbn [fst snd] in Hm;
    destruct Hm as [-> Hm]; [|done].
  injection Hrun as <- <- <-. split; [done|]. split; [done|].
  destruct (relocate (processed_path cfg) study_path clinic_id ymd dest
              (fs st) (fs s1) (fs s2) Hmade) as (Hrel & Hnf & _).
  - destruct Hdest as [[-> Hex]|Hd]; [by left|by right].
  - destruct Hm as [(-> & Hs & ->)|Hm]; [by left|by right].
  - split; [by exists dest|done].
Qed.

Lemma move_to_failed_run (study_path : path) (clinic_id reason : string)
    (errs : option (list file_error))
    (st s' : State) (r : Res unit) (ev : list event) :
  DicomProcessor._move_to_failed E cfg study_path clinic_id reason errs st = (r, s', ev) ->
  outcomes ev = [] /\ stow_posts ev = []
  /\ match r with
     | Ok _ => quarantined cfg study_path clinic_id reason
                 (DicomProcessor.or_empty errs) (fs st) (fs s')
     | Raise _ => True
     end.
Proof.
  unfold DicomProcessor._move_to_failed. intros Hrun.
  apply bind_inv in Hrun as [(dest & s1 & e1 & e2 & H1 & Hrun & ->)|(e & H1 & ->)];
    apply dated_destination_run in H1 as [-> H1]; [|done].
  destruct H1 as (ymd & Hmade & Hdest).
  apply bind_inv in Hrun as [([] & s2 & e2' & e3 & H2 & Hrun & ->)|(e & H2 & ->)];
    pose proof (shutil_move_run E study_path dest s1) as Hm;
    cbv zeta in Hm; rewrite H2 in Hm;
    unfold res_of, state_of, events_of in Hm; cbn [fst snd] in Hm;
    destruct Hm as [-> Hm]; [|done].
  apply bind_inv in Hrun as [(dt & s3 & e3' & e4 & H3 & Hrun & ->)|(e & H3 & _)];
    [|discriminate H3].
  injection H3 as <- <- <-.
  apply bind_inv in Hrun as [([] & s4 & e4' & e5 & H4 & Hrun & ->)|(e & H4 & ->)];
    match type of H4 with
    | write_json E ?p ?rec ?s = _ =>
        pose proof (write_json_run E p rec s) as Hw
    end;
    cbv zeta in Hw; rewrite H4 in Hw;
    unfold res_of, state_of, events_of in Hw; cbn [fst snd] in Hw;
    destruct Hw as [-> Hw]; [|done].
  injection Hrun as <- <- <-. split; [done|]. split; [done|].
  change (fs (with_ticks (S (ticks s2)) s2)) with (fs s2) in Hw.
  destruct (relocate (failed_path cfg) study_path clinic_id ymd dest
              (fs st) (fs s1) (fs s2) Hmade) as (Hrel & _ & _).
  - destruct Hdest as [[-> Hex]|Hd]; [by left|by right].
  - destruct Hm as [(-> & Hs & ->)|Hm]; [by left|by right].
  - destruct Hrel as (ymd' & real & Hdated & Hreal & Hsome & Hat & Hgone).
    pose proof (dated_name_length _ _ _ _ _ Hdated) as Hlen.
    exists dest, (dt_iso (datetime_now E (ticks s2))). split.
    + exists ymd', real. split; [done|]. split; [done|]. split; [done|].
      rewrite Hw. split.
      * rewrite lookup_insert_ne; [done|]. apply error_file_apart.
        destruct Hreal as [->| ->]; [done|].
        destruct (PathLib.name study_path) as [|c n] eqn:Hn; [done|].
        rewrite name_joinpath by done. exact Hlen.
      * rewrite lookup_insert_ne; [done|]. by apply error_file_apart.
    + rewrite Hw. apply lookup_insert_eq.
Qed.



End MoveProps.

(** ** The instance loop *)

Section LoopProps.
Context (L : Lib) (E : Env) (cfg : Config).

Lemma session_post_run (body : list byte) (headers : list (string * string))
    (st : State) :
  exists r,
    DicomProcessor.session_post E cfg body headers st =
      (r, with_stow_calls (S (stow_calls st)) st,
       [EStowPost (DicomProcessor.stow_url cfg) body headers]).
Proof.
  cbv beta iota zeta delta [DicomProcessor.session_post bind emit get modify raise ret].
  destruct (stow_reply E (stow_calls st)) as [e|status text []]; eauto.
Qed.

Lemma upload_stow_rs_run (dicom_bytes : list byte) (filename : string)
    (st s' : State) (r : Res unit) (ev : list event) :
  DicomProcessor._upload_stow_rs L E cfg dicom_bytes filename st = (r, s', ev) ->
  outcomes ev = [] /\ fs s' = fs st
  /\ ((exists body authorization,
         DicomProcessor.multipart_body
           (DicomProcessor.boundary_at L (clock E (ticks st))) filename dicom_bytes
         = Ok body
         /\ stow_posts ev =
              [(body,
                [content_type (DicomProcessor.boundary_at L (clock E (ticks st)));
                 ("Accept", "application/dicom+json")] ++ authorization)])
      \/ (stow_posts ev = [] /\ exists e, r = Raise e)).
Proof.
  intros Hrun.
  pose proof (upload_stow_rs_exact L E cfg dicom_bytes filename st) as Hex.
  cbv zeta in Hex.
  destruct (DicomProcessor.multipart_body _ filename dicom_bytes) as [body|e].
  - destruct Hex as (tok & _ & Hex). rewrite Hex in Hrun.
    injection Hrun as _ <- <-.
    destruct (get_token_quiet E cfg (with_ticks (S (ticks st)) st))
      as (Hq & Ho & Hfs & _).
    change (fs (with_ticks _ st)) with (fs st) in Hfs.
    rewrite outcomes_app, stow_posts_app, Ho, Hq.
    split; [done|]. split; [done|]. left. by exists body, (authorization tok).
  - rewrite Hex in Hrun. injection Hrun as <- <- <-.
    split; [done|]. split; [done|]. right. split; [done|]. by exists e.
Qed.

(** What one instance does: nothing on disk, no study outcome, and on
    success exactly one request, whose part is the re-encoded dataset
    with [InstitutionName] set. *)
Lemma process_single_file_run (file_path : path) (clinic_id : string)
    (st s' : State) (r : Res unit) (ev : list event) :
  DicomProcessor._process_single_file L E cfg file_path clinic_id st = (r, s', ev) ->
  outcomes ev = [] /\ fs s' = fs st
  /\ (r = Ok tt ->
      exists ds dicom_bytes boundary body headers,
        DicomProcessor.dcmread L E false file_path = Ok ds
        /\ dcm_encode L (set_InstitutionName clinic_id ds) = Ok dicom_bytes
        /\ DicomProcessor.multipart_body boundary (PathLib.name file_path) dicom_bytes
           = Ok body
        /\ stow_posts ev = [(body, headers)]).
Proof.
  unfold DicomProcessor._process_single_file. intros Hrun.
  apply bind_inv in Hrun as [(t0 & s1 & e1 & e2 & H1 & Hrun & ->)|(e & H1 & _)];
    [|discriminate H1].
  injection H1 as <- <- <-.
  apply bind_inv in Hrun as [(ds & s2 & e2' & e3 & H2 & Hrun & ->)|(e & H2 & ->)].
  2:{ destruct (DicomProcessor.dcmread L E false file_path) as [ds|e'];
        [discriminate H2|].
      destruct (is_invalid_dicom e'); by injection H2 as <- <- <-. }
  destruct (DicomProcessor.dcmread L E false file_path) as [ds'|e'] eqn:Hread.
  2:{ destruct (is_invalid_dicom e'); discriminate H2. }
  injection H2 as <- <- <-. cbv zeta in Hrun.
  apply bind_inv in Hrun as [(b & s3 & e3' & e4 & H3 & Hrun & ->)|(e & H3 & ->)].
  2:{ unfold lift in H3. by injection H3 as _ <- <-. }
  unfold lift in H3. injection H3 as Henc <- <-.
  apply bind_inv in Hrun as [([] & s4 & e4' & e5 & H4 & Hrun & ->)|(e & H4 & ->)];
    apply upload_stow_rs_run in H4 as (Ho & Hfs & Hp).
  2:{ split; [done|]. split; [done|]. intros [=]. }
  apply bind_inv in Hrun as [(t1 & s5 & e5' & e6 & H5 & Hrun & ->)|(e & H5 & _)];
    [|discriminate H5].
  injection H5 as <- <- <-. injection Hrun as <- <- <-.
  rewrite !outcomes_app, !stow_posts_app, Ho.
  split; [done|]. split; [done|]. intros _.
  destruct Hp as [(body & auth & Hbody & Hp)|(_ & e & [=])].
  rewrite Hp.
  exists ds', b. eexists _, body, _. split; [done|]. split; [done|].
  split; [exact Hbody|reflexivity].
Qed.

Lemma process_one_run (study_path : path) (clinic_id : string)
    (acc : DicomProcessor.tally) (dicom_file : path)
    (st s' : State) (r : Res DicomProcessor.tally) (ev : list event) :
  DicomProcessor.process_one L E cfg study_path clinic_id acc dicom_file st = (r, s', ev) ->
  outcomes ev = [] /\ fs s' = fs st
  /\ forall t, r = Ok t ->
       (DicomProcessor.success_count t + DicomProcessor.error_count t
        = S (DicomProcessor.success_count acc + DicomProcessor.error_count acc))%nat
       /\ (DicomProcessor.success_count acc <= DicomProcessor.success_count t)%nat
       /\ (DicomProcessor.error_count acc <= DicomProcessor.error_count t)%nat
       /\ (length (DicomProcessor.errors t) + DicomProcessor.error_count acc
           = length (DicomProcessor.errors acc) + DicomProcessor.error_count t)%nat.
Proof.
  unfold DicomProcessor.process_one. intros Hrun.
  apply try_except_inv in Hrun
    as [(t & Hrun & ->)|(e & s1 & e1 & e2 & Hrun & Hh & ->)].
  - apply bind_inv in Hrun as [([] & s2 & e1 & e2 & H1 & Hrun & ->)|(e & H1 & [=])].
    apply process_single_file_run in H1 as (Ho & Hfs & _).
    cbv beta iota zeta delta [bind emit ret] in Hrun.
    injection Hrun as <- <- <-. rewrite outcomes_app, Ho.
    split; [done|]. split; [done|]. intros t [= <-]. simpl. lia.
  - apply bind_inv in Hrun as [([] & s2 & e1' & e2' & H1 & Hrun & ->)|(e' & H1 & [= <-])].
    { cbv beta iota zeta delta [bind emit ret] in Hrun. discriminate Hrun. }
    apply process_single_file_run in H1 as (Ho & Hfs & _).
    destruct (PathLib.relative_to dicom_file study_path) as [rel|];
      cbv beta iota zeta delta [bind log emit ret raise] in Hh;
      injection Hh as <- <- <-; rewrite outcomes_app, Ho;
      (split; [done|]); (split; [done|]).
    + intros t [= <-]. simpl. rewrite length_app. simpl. lia.
    + intros t [=].
Qed.

Lemma upload_loop_run (study_path : path) (clinic_id : string) (files : list path) :
  forall (acc : DicomProcessor.tally)
         (st s' : State) (r : Res DicomProcessor.tally) (ev : list event),
    DicomProcessor.upload_loop L E cfg study_path clinic_id files acc st = (r, s', ev) ->
    outcomes ev = [] /\ fs s' = fs st
    /\ forall t, r = Ok t ->
         (DicomProcessor.success_count t + DicomProcessor.error_count t
          = DicomProcessor.success_count acc + DicomProcessor.error_count acc
            + length files)%nat
         /\ (DicomProcessor.success_count acc <= DicomProcessor.success_count t)%nat
         /\ (DicomProcessor.error_count acc <= DicomProcessor.error_count t)%nat
         /\ (length (DicomProcessor.errors t) + DicomProcessor.error_count acc
             = length (DicomProcessor.errors acc) + DicomProcessor.error_count t)%nat.
Proof.
  induction files as [|f files IH]; intros acc st s' r ev; simpl.
  - intros [= <- <- <-]. split; [done|]. split; [done|]. intros t [= <-]. lia.
  - intros Hrun.
    apply bind_inv in Hrun as [(acc' & s1 & e1 & e2 & H1 & Hrun & ->)|(e & H1 & ->)];
      apply process_one_run in H1 as (Ho & Hfs & Hc); [|done].
    apply IH in Hrun as (Ho2 & Hfs2 & Hc2).
    rewrite outcomes_app, Ho, Ho2, Hfs2, Hfs.
    split; [done|]. split; [done|]. intros t Ht.
    destruct (Hc acc' eq_refl) as (? & ? & ? & ?).
    destruct (Hc2 t Ht) as (? & ? & ? & ?). lia.
Qed.

End LoopProps.

(** ** The study processor *)

Section ProcessorProps.
Context (L : Lib) (E : Env) (cfg : Config).
Context (study_path : path) (clinic_id : string).

Lemma classify_inv (t : DicomProcessor.tally)
    (st s' : State) (r : Res bool) (ev : list event) :
  DicomProcessor.classify E cfg study_path clinic_id t st = (r, s', ev) ->
  stow_posts ev = []
  /\ match DicomProcessor.error_count t with
     | O =>
         exists rm evm,
           DicomProcessor._move_to_processed E cfg study_path clinic_id st = (rm, s', evm)
           /\ branch_result clinic_id "success" true rm r ev
     | S _ =>
         if (0 <? DicomProcessor.success_count t)%nat
         then
           exists rm evm,
             DicomProcessor._move_to_processed E cfg study_path clinic_id st = (rm, s', evm)
             /\ branch_result clinic_id "partial" true rm r ev
         else
           exists rm evm,
             DicomProcessor._move_to_failed E cfg study_path clinic_id
               ("All " +:+ pretty (DicomProcessor.error_count t) +:+ " files failed")
               (Some (DicomProcessor.errors t)) st = (rm, s', evm)
             /\ branch_result clinic_id "failed" false rm r ev
     end.
Proof.
  unfold DicomProcessor.classify, branch_result. intros Hrun.
  destruct (DicomProcessor.error_count t) as [|n];
    [|destruct (0 <? DicomProcessor.success_count t)%nat];
    (apply bind_inv in Hrun as [([] & s1 & e1 & e2 & H1 & Hrun & ->)|(e & H1 & _)];
       [|discriminate H1]);
    injection H1 as <- <-;
    (apply bind_inv in Hrun as [([] & s2 & e2' & e3 & H2 & Hrun & ->)|(e & H2 & ->)]);
    try (cbv beta iota zeta delta [bind emit ret] in Hrun; injection Hrun as <- <- <-).
  all: try (pose proof (move_to_processed_run E cfg _ _ _ _ _ _ H2) as (Ho & Hp & _)).
  all: try (pose proof (move_to_failed_run E cfg _ _ _ _ _ _ _ _ H2) as (Ho & Hp & _)).
  all: rewrite ?stow_posts_app, ?outcomes_app, ?Ho, ?Hp; split; [done|].
  all: eexists _, _; split; [exact H2|done].
Qed.

Lemma try_body_inv (st s' : State) (r : Res bool) (ev : list event) :
  DicomProcessor.try_body L E cfg study_path clinic_id st = (r, s', ev) ->
  exists rd sd,
    DicomProcessor.discover L E study_path st = (rd, sd, [])
    /\ fs sd = fs st
    /\ match rd with
       | Raise e => r = Raise e /\ s' = sd /\ ev = []
       | Ok [] =>
           stow_posts ev = []
           /\ exists rm evm,
                DicomProcessor._move_to_failed E cfg study_path clinic_id
                  "No DICOM files found" None sd = (rm, s', evm)
                /\ branch_result clinic_id "failed" false rm r ev
       | Ok files =>
           exists rl sl evl,
             DicomProcessor.upload_loop L E cfg study_path clinic_id files
               (DicomProcessor.Tally 0 0 []) sd = (rl, sl, evl)
             /\ fs sl = fs st
             /\ match rl with
                | Raise e => r = Raise e /\ s' = sl /\ outcomes ev = []
                | Ok t =>
                    exists evc,
                      DicomProcessor.classify E cfg study_path clinic_id t sl = (r, s', evc)
                      /\ outcomes ev = outcomes evc
                end
       end.
Proof.
  unfold DicomProcessor.try_body, branch_result. intros Hrun.
  pose proof (discover_run L E study_path st) as (Hdev & Hdfs & _).
  apply bind_inv in Hrun as [(files & sd & e1 & e2 & H1 & Hrun & ->)|(e & H1 & ->)];
    rewrite H1 in Hdev, Hdfs; unfold events_of, state_of in Hdev, Hdfs;
    cbn [fst snd] in Hdev, Hdfs; subst.
  2:{ exists (Raise e), s'. done. }
  exists (Ok files), sd. split; [done|]. split; [done|].
  destruct files as [|f files].
  - apply bind_inv in Hrun as [([] & s1 & e1 & e2' & H2 & Hrun & ->)|(e & H2 & _)];
      [|discriminate H2].
    injection H2 as <- <-.
    apply bind_inv in Hrun as [([] & s2 & e2 & e3 & H3 & Hrun & ->)|(e & H3 & ->)];
      try (cbv beta iota zeta delta [bind emit ret] in Hrun; injection Hrun as <- <- <-);
      pose proof (move_to_failed_run E cfg _ _ _ _ _ _ _ _ H3) as (Ho & Hp & _);
      rewrite ?stow_posts_app, ?outcomes_app, ?Ho, ?Hp; (split; [done|]);
      eexists _, _; (split; [exact H3|done]).
  - apply bind_inv in Hrun as [([] & s1 & e1 & e2' & H2 & Hrun & ->)|(e & H2 & _)];
      [|discriminate H2].
    injection H2 as <- <-.
    apply bind_inv in Hrun as [(t & sl & evl & e3 & H3 & Hrun & ->)|(e & H3 & ->)];
      pose proof (upload_loop_run L E cfg _ _ _ _ _ _ _ _ H3) as (Ho & Hfs & _);
      rewrite Hdfs in Hfs.
    + exists (Ok t), sl, evl. split; [done|]. split; [done|].
      exists e3. split; [done|]. by rewrite !outcomes_app, Ho.
    + eexists (Raise e), s', _. split; [done|]. split; [done|].
      by rewrite !outcomes_app, Ho.
Qed.

Lemma on_exception_inv (e : exn) (st s' : State) (r : Res bool) (ev : list event) :
  DicomProcessor.on_exception E cfg study_path clinic_id e st = (r, s', ev) ->
  ELog Exception "Unexpected error processing study"
    (DicomProcessor.bound study_path clinic_id ++ [("exc_info", exn_msg e)]) ∈ ev
  /\ stow_posts ev = []
  /\ exists rm evm,
       DicomProcessor._move_to_failed E cfg study_path clinic_id (exn_msg e) None st
         = (rm, s', evm)
       /\ branch_result clinic_id "error" false rm r ev.
Proof.
  unfold DicomProcessor.on_exception, branch_result. intros Hrun.
  apply bind_inv in Hrun as [([] & s1 & e1 & e2' & H2 & Hrun & ->)|(e' & H2 & _)];
    [|discriminate H2].
  injection H2 as <- <-.
  split; [left|].
  apply bind_inv in Hrun as [([] & s2 & e2 & e3 & H3 & Hrun & ->)|(e' & H3 & ->)];
    try (cbv beta iota zeta delta [bind emit ret] in Hrun; injection Hrun as <- <- <-);
    pose proof (move_to_failed_run E cfg _ _ _ _ _ _ _ _ H3) as (Ho & Hp & _);
    rewrite ?stow_posts_app, ?outcomes_app, ?Ho, ?Hp; (split; [done|]);
    eexists _, _; (split; [exact H3|done]).
Qed.


(** The handled body, between the prologue and the [finally] clause. *)
Lemma process_study_folder_inv (st s' : State) (r : Res bool) (ev : list event) :
  DicomProcessor.process_study_folder L E cfg study_path clinic_id st = (r, s', ev) ->
  exists s1 ev1 d,
    try_except (DicomProcessor.try_body L E cfg study_path clinic_id)
      (DicomProcessor.on_exception E cfg study_path clinic_id)
      (with_ticks (S (ticks st)) st) = (r, s1, ev1)
    /\ fs s' = fs s1
    /\ ev = [EActiveImports 1] ++ ev1
            ++ [EImportDuration clinic_id d; EActiveImports (-1)].
Proof.
  unfold DicomProcessor.process_study_folder. intros Hrun.
  cbv beta iota zeta delta [bind time_time emit ret try_finally] in Hrun.
  destruct (try_except _ _ (with_ticks (S (ticks st)) st)) as [[r1 s1] ev1] eqn:Hin.
  injection Hrun as <- <- <-.
  exists s1, ev1. eexists. split; [done|]. split; [done|].
  reflexivity.
Qed.






(** C10.  A study counted as partial returned [True] after its move to
    the processed tree, and that is all that happened on disk: no file
    was written, so nothing is kept of the per-file error list, which the
    walk had filled with one entry for each of its failures. *)
Theorem partial_leaves_no_record (st : State) :
  let st0 := with_ticks (S (ticks st)) st in
  let d := DicomProcessor.discover L E study_path st0 in
  let o := DicomProcessor.process_study_folder L E cfg study_path clinic_id st in
  (clinic_id, "partial") ∈ outcomes (events_of o) ->
  res_of o = Ok true
  /\ outcomes (events_of o) = [(clinic_id, "partial")]
  /\ archived cfg study_path clinic_id (fs st) (fs (state_of o))
  /\ no_file_written study_path (fs st) (fs (state_of o))
  /\ exists files t,
       res_of d = Ok files
       /\ res_of (DicomProcessor.upload_loop L E cfg study_path clinic_id files
                    (DicomProcessor.Tally 0 0 []) (state_of d)) = Ok t
       /\ (0 < DicomProcessor.success_count t)%nat
       /\ (0 < DicomProcessor.error_count t)%nat
       /\ length (DicomProcessor.errors t) = DicomProcessor.error_count t.
Proof.
  intros st0 d o. subst d o.
  destruct (DicomProcessor.process_study_folder L E cfg study_path clinic_id st)
    as [[r s'] ev] eqn:Hrun.
  unfold res_of, state_of, events_of. cbn [fst snd].
  apply process_study_folder_inv in Hrun as (s1 & ev1 & d & Hin & Hfs & ->).
  rewrite Hfs, !outcomes_app. cbn [outcomes omap app]. rewrite app_nil_r.
  change (omap _ ev1) with (outcomes ev1). intros Hpartial. fold st0 in Hin.
  apply try_except_inv in Hin
    as [(b & Hb & ->)|(e & s2 & e1 & e2 & Hb & Hh & ->)].
  - apply try_body_inv in Hb as (rd & sd & Hd & Hfsd & Hb).
    destruct rd as [[|f files]|e].
    + destruct Hb as (_ & rm & evm & Hm & Hbr). exfalso.
      destruct rm as [[]|e]; destruct Hbr as [_ Ho]; rewrite Ho in Hpartial.
      * by apply list_elem_of_singleton in Hpartial.
      * by apply elem_of_nil in Hpartial.
    + destruct Hb as (rl & sl & evl & Hl & Hfsl & Hb).
      destruct rl as [t|e]; [|by destruct Hb].
      destruct Hb as (evc & Hc & Ho). rewrite Ho in Hpartial |- *.
      apply classify_inv in Hc as (_ & Hc).
      destruct (DicomProcessor.error_count t) as [|n] eqn:Hf;
        [|destruct (Nat.ltb_spec 0 (DicomProcessor.success_count t)) as [Hs|Hs]];
        destruct Hc as (rm & evm & Hm & Hbr);
        (destruct rm as [[]|e]; destruct Hbr as [Hr Ho'];
         rewrite Ho' in Hpartial |- *;
         [|by apply elem_of_nil in Hpartial]);
        try (exfalso; by apply list_elem_of_singleton in Hpartial).
      apply move_to_processed_run in Hm as (_ & _ & Hm).
      rewrite Hfsl in Hm. injection Hr as ->.
      split; [done|]. split; [done|]. split; [done|]. split; [by destruct Hm|].
      exists (f :: files), t. rewrite Hd. cbn [fst snd]. rewrite Hl. cbn [fst snd].
      apply upload_loop_run in Hl as (_ & _ & Hcount).
      destruct (Hcount t eq_refl) as (_ & _ & _ & Hlen). cbn in Hlen.
      repeat split; [done|lia|lia].
    + by destruct Hb.
  - exfalso.
    apply try_body_inv in Hb as (rd & sd & Hd & Hfsd & Hb).
    assert (Hoe1 : outcomes e1 = []).
    { destruct rd as [[|f files]|e'].
      - destruct Hb as (_ & rm & evm & Hm & Hbr).
        destruct rm as [[]|?]; by destruct Hbr.
      - destruct Hb as (rl & sl & evl & Hl & Hfsl & Hb).
        destruct rl as [t|e']; [|by destruct Hb as (_ & _ & ?)].
        destruct Hb as (evc & Hc & ->).
        apply classify_inv in Hc as (_ & Hc).
        destruct (DicomProcessor.error_count t) as [|n];
          [|destruct (0 <? DicomProcessor.success_count t)%nat];
          destruct Hc as (rm & evm & Hm & Hbr);
          destruct rm as [[]|?]; by destruct Hbr.
      - by destruct Hb as (_ & _ & ->). }
    apply on_exception_inv in Hh as (_ & _ & rm & evm & Hm & Hbr).
    rewrite outcomes_app, Hoe1 in Hpartial. cbn [app] in Hpartial.
    destruct rm as [[]|?]; destruct Hbr as [_ Ho]; rewrite Ho in Hpartial.
    + by apply list_elem_of_singleton in Hpartial.
    + by apply elem_of_nil in Hpartial.
Qed.

(** A body that raises has recorded no outcome. *)
Lemma try_body_raise (st s' : State) (e : exn) (ev : list event) :
  DicomProcessor.try_body L E cfg study_path clinic_id st = (Raise e, s', ev) ->
  outcomes ev = [].
Proof.
  intros Hb. apply try_body_inv in Hb as (rd & sd & Hd & Hfsd & Hb).
  destruct rd as [[|f files]|e'].
  - destruct Hb as (_ & rm & evm & Hm & Hbr).
    destruct rm as [[]|?]; by destruct Hbr.
  - destruct Hb as (rl & sl & evl & Hl & Hfsl & Hb).
    destruct rl as [t|e']; [|by destruct Hb as (_ & _ & ?)].
    destruct Hb as (evc & Hc & ->).
    apply classify_inv in Hc as (_ & Hc).
    destruct (DicomProcessor.error_count t) as [|n];
      [|destruct (0 <? DicomProcessor.success_count t)%nat];
      destruct Hc as (rm & evm & Hm & Hbr);
      destruct rm as [[]|?]; by destruct Hbr.
  - by destruct Hb as (_ & _ & ->).
Qed.

(** The events around the handled body add no outcome and no request. *)
Lemma around_body (ev1 : list event) (d : Z) :
  outcomes ([EActiveImports 1] ++ ev1
            ++ [EImportDuration clinic_id d; EActiveImports (-1)]) = outcomes ev1
  /\ stow_posts ([EActiveImports 1] ++ ev1
                 ++ [EImportDuration clinic_id d; EActiveImports (-1)]) = stow_posts ev1.
Proof.
  rewrite !outcomes_app, !stow_posts_app. cbn [outcomes stow_posts omap app].
  by rewrite !app_nil_r.
Qed.

(** C5.  When discovery finds nothing, no request goes to the DICOM
    server; and when the quarantine raises nothing, the study is counted as
    failed and [False] is returned, the folder is in the failed tree and
    next to it lies the error record with the reason
    ["No DICOM files found"] and an empty list of errors. *)
Theorem no_dicom_files_found (st : State) :
  let st0 := with_ticks (S (ticks st)) st in
  let d := DicomProcessor.discover L E study_path st0 in
  let o := DicomProcessor.process_study_folder L E cfg study_path clinic_id st in
  res_of d = Ok [] ->
  stow_posts (events_of o) = []
  /\ (res_of (DicomProcessor._move_to_failed E cfg study_path clinic_id
               "No DICOM files found" None (state_of d)) = Ok tt ->
      res_of o = Ok false
      /\ outcomes (events_of o) = [(clinic_id, "failed")]
      /\ quarantined cfg study_path clinic_id "No DICOM files found" []
           (fs st) (fs (state_of o))).
Proof.
  intros st0 d o Hd. subst d o.
  destruct (DicomProcessor.process_study_folder L E cfg study_path clinic_id st)
    as [[r s'] ev] eqn:Hrun.
  unfold res_of, state_of, events_of in *. cbn [fst snd] in *.
  apply process_study_folder_inv in Hrun as (s1 & ev1 & dur & Hin & Hfs & ->).
  destruct (around_body ev1 dur) as [-> ->]. rewrite Hfs. fold st0 in Hin.
  assert (Hbody : forall rb sb evb,
            DicomProcessor.try_body L E cfg study_path clinic_id st0 = (rb, sb, evb) ->
            stow_posts evb = []
            /\ (res_of (DicomProcessor._move_to_failed E cfg study_path clinic_id
                         "No DICOM files found" None
                         (state_of (DicomProcessor.discover L E study_path st0))) = Ok tt ->
                rb = Ok false /\ outcomes evb = [(clinic_id, "failed")]
                /\ quarantined cfg study_path clinic_id "No DICOM files found" []
                     (fs st) (fs sb))).
  { intros rb sb evb Hb.
    apply try_body_inv in Hb as (rd & sd & Hdr & Hfsd & Hb).
    rewrite Hdr in Hd |- *. unfold res_of, state_of. cbn [fst snd] in Hd |- *. subst rd.
    destruct Hb as (Hp & rm & evm & Hm & Hbr). split; [done|].
    rewrite Hm. cbn [fst snd]. intros ->. destruct Hbr as [-> ->].
    apply move_to_failed_run in Hm as (_ & _ & Hm). rewrite Hfsd in Hm. done. }
  apply try_except_inv in Hin
    as [(b & Hb & ->)|(e & s2 & e1 & e2 & Hb & Hh & ->)];
    apply Hbody in Hb as (Hp & Hrest).
  - split; [done|]. intros Hq. by destruct (Hrest Hq) as ([= ->] & ? & ?).
  - apply on_exception_inv in Hh as (_ & Hp2 & _).
    rewrite stow_posts_app, Hp, Hp2. split; [done|].
    intros Hq. by destruct (Hrest Hq) as ([=] & _).
Qed.

(** C1.  For a folder in which discovery found files: the walk ends with
    [s] successes and [f] failures, [s + f] being the number of files
    found; when the move that follows raises nothing, [s > 0] and [f = 0]
    give outcome success with the folder in the processed tree, [s > 0]
    and [f > 0] give outcome partial with the folder in the processed
    tree, and [s = 0] and [f > 0] give outcome failed with the folder in
    the failed tree next to an error record that lists the failures.
    When an exception leaves the body and the quarantine raises nothing,
    the outcome is error and the folder is in the failed tree next to an
    error record whose reason is the message of the exception. *)
Theorem study_outcome (st : State) (files : list path) :
  let st0 := with_ticks (S (ticks st)) st in
  let d := DicomProcessor.discover L E study_path st0 in
  let w := DicomProcessor.upload_loop L E cfg study_path clinic_id files
             (DicomProcessor.Tally 0 0 []) (state_of d) in
  let body := DicomProcessor.try_body L E cfg study_path clinic_id st0 in
  let o := DicomProcessor.process_study_folder L E cfg study_path clinic_id st in
  res_of d = Ok files -> files <> [] ->
  (forall t, res_of w = Ok t ->
     let s := DicomProcessor.success_count t in
     let f := DicomProcessor.error_count t in
     let all_failed := "All " +:+ pretty f +:+ " files failed" in
     (s + f = length files)%nat
     /\ ((0 < s)%nat -> f = 0%nat ->
         res_of (DicomProcessor._move_to_processed E cfg study_path clinic_id
                   (state_of w)) = Ok tt ->
         res_of o = Ok true
         /\ outcomes (events_of o) = [(clinic_id, "success")]
         /\ archived cfg study_path clinic_id (fs st) (fs (state_of o)))
     /\ ((0 < s)%nat -> (0 < f)%nat ->
         res_of (DicomProcessor._move_to_processed E cfg study_path clinic_id
                   (state_of w)) = Ok tt ->
         res_of o = Ok true
         /\ outcomes (events_of o) = [(clinic_id, "partial")]
         /\ archived cfg study_path clinic_id (fs st) (fs (state_of o)))
     /\ (s = 0%nat -> (0 < f)%nat ->
         res_of (DicomProcessor._move_to_failed E cfg study_path clinic_id
                   all_failed (Some (DicomProcessor.errors t)) (state_of w)) = Ok tt ->
         res_of o = Ok false
         /\ outcomes (events_of o) = [(clinic_id, "failed")]
         /\ quarantined cfg study_path clinic_id all_failed (DicomProcessor.errors t)
              (fs st) (fs (state_of o))))
  /\ (forall e, res_of body = Raise e ->
       res_of (DicomProcessor._move_to_failed E cfg study_path clinic_id
                 (exn_msg e) None (state_of body)) = Ok tt ->
       res_of o = Ok false
       /\ outcomes (events_of o) = [(clinic_id, "error")]
       /\ quarantined cfg study_path clinic_id (exn_msg e) []
            (fs (state_of body)) (fs (state_of o))).
Proof.
  intros st0 d w body o Hd Hne. subst d w body o.
  destruct (DicomProcessor.process_study_folder L E cfg study_path clinic_id st)
    as [[r s'] ev] eqn:Hrun.
  apply process_study_folder_inv in Hrun as (s1 & ev1 & dur & Hin & Hfs & ->).
  unfold res_of, state_of, events_of in *. cbn [fst snd] in *.
  destruct (around_body ev1 dur) as [-> _]. rewrite Hfs. fold st0 in Hin.
  destruct (DicomProcessor.try_body L E cfg study_path clinic_id st0)
    as [[rb sb] evb] eqn:Hbody. cbn [fst snd].
  assert (Hin' : (exists b, rb = Ok b /\ r = Ok b /\ s1 = sb /\ ev1 = evb)
                 \/ (exists e e2, rb = Raise e /\ ev1 = evb ++ e2
                      /\ DicomProcessor.on_exception E cfg study_path clinic_id e sb
                         = (r, s1, e2))).
  { unfold try_except in Hin. rewrite Hbody in Hin. destruct rb as [b|e].
    - injection Hin as <- <- <-. left. by exists b.
    - right. exists e.
      destruct (DicomProcessor.on_exception E cfg study_path clinic_id e sb)
        as [[r2 s2] e2]. injection Hin as <- <- <-. by exists e2. }
  clear Hin. split.
  - intros t Ht.
    apply try_body_inv in Hbody as (rd & sd & Hdr & Hfsd & Hb).
    rewrite Hdr in Hd, Ht |- *. cbn [fst snd] in Hd, Ht |- *. subst rd.
    destruct files as [|f0 files]; [done|].
    destruct Hb as (rl & sl & evl & Hl & Hfsl & Hb).
    rewrite Hl in Ht |- *. cbn [fst snd] in Ht |- *. subst rl.
    destruct Hb as (evc & Hc & Ho).
    apply upload_loop_run in Hl as (_ & _ & Hcount).
    destruct (Hcount t eq_refl) as (Hsum & _ & _ & _). cbn in Hsum.
    apply classify_inv in Hc as (_ & Hc).
    split; [done|].
    assert (Hfin : forall status b rm,
              branch_result clinic_id status b rm rb evc -> rm = Ok tt ->
              r = Ok b /\ outcomes ev1 = [(clinic_id, status)] /\ s1 = sb).
    { intros status b rm Hbr ->. destruct Hbr as [-> Hoc].
      destruct Hin' as [(b' & [= <-] & -> & -> & ->)|(e & e2 & [=] & _)].
      by rewrite Ho, Hoc. }
    destruct (DicomProcessor.error_count t) as [|n] eqn:Hf.
    + destruct Hc as (rm & evm & Hm & Hbr).
      split; [|split]; [|intros; lia|intros; lia].
      intros _ _ Hok. rewrite Hm in Hok. cbn [fst snd] in Hok.
      destruct (Hfin _ _ _ Hbr Hok) as (-> & -> & ->). subst rm.
      apply move_to_processed_run in Hm as (_ & _ & Hm). rewrite Hfsl in Hm. done.
    + destruct (Nat.ltb_spec 0 (DicomProcessor.success_count t)) as [Hs|Hs];
        destruct Hc as (rm & evm & Hm & Hbr).
      * split; [|split]; [intros; lia| |intros; lia].
        intros _ _ Hok. rewrite Hm in Hok. cbn [fst snd] in Hok.
        destruct (Hfin _ _ _ Hbr Hok) as (-> & -> & ->). subst rm.
        apply move_to_processed_run in Hm as (_ & _ & Hm). rewrite Hfsl in Hm. done.
      * split; [|split]; [intros; lia|intros; lia|].
        intros _ _ Hok. rewrite Hm in Hok. cbn [fst snd] in Hok.
        destruct (Hfin _ _ _ Hbr Hok) as (-> & -> & ->). subst rm.
        apply move_to_failed_run in Hm as (_ & _ & Hm). rewrite Hfsl in Hm. done.
  - intros e -> Hok.
    destruct Hin' as [(b' & [=] & _)|(e' & e2 & [= <-] & -> & Hh)].
    apply try_body_raise in Hbody.
    apply on_exception_inv in Hh as (_ & _ & rm & evm & Hm & Hbr).
    rewrite Hm in Hok. cbn [fst snd] in Hok. subst rm. destruct Hbr as [-> Ho].
    rewrite outcomes_app, Hbody, Ho.
    apply move_to_failed_run in Hm as (_ & _ & Hm). done.
Qed.

End ProcessorProps.

(** ** The instance that is uploaded *)

Section InstanceProps.
Context (L : Lib) (E : Env) (cfg : Config).

(** Setting [InstitutionName] changes that attribute and nothing else. *)
Lemma set_InstitutionName_spec (v : string) (ds : FileDataset) :
  value <$> dataset (set_InstitutionName v ds) !! InstitutionName = Some v
  /\ (forall t, t <> InstitutionName ->
        dataset (set_InstitutionName v ds) !! t = dataset ds !! t)
  /\ file_meta (set_InstitutionName v ds) = file_meta ds
  /\ preamble (set_InstitutionName v ds) = preamble ds.
Proof.
  unfold set_InstitutionName. cbn [dataset file_meta preamble].
  split; [|split; [|done]].
  - rewrite lookup_insert_eq. by destruct (dataset ds !! InstitutionName).
  - intros t Ht. by rewrite lookup_insert_ne.
Qed.

(** An instance is counted as a success exactly when its processing
    returned, and the counter of uploaded instances is then bumped. *)
Lemma process_one_success (study_path : path) (clinic_id : string)
    (acc t : DicomProcessor.tally) (dicom_file : path)
    (st s' : State) (ev : list event) :
  DicomProcessor.process_one L E cfg study_path clinic_id acc dicom_file st = (Ok t, s', ev) ->
  DicomProcessor.success_count t = S (DicomProcessor.success_count acc) ->
  exists e1,
    DicomProcessor._process_single_file L E cfg dicom_file clinic_id st = (Ok tt, s', e1)
    /\ ev = e1 ++ [EInstancesUploaded clinic_id].
Proof.
  unfold DicomProcessor.process_one. intros Hrun Hs.
  apply try_except_inv in Hrun
    as [(t' & Hrun & [= <-])|(e & s1 & e1 & e2 & Hrun & Hh & ->)].
  - apply bind_inv in Hrun as [([] & s2 & e1 & e2 & H1 & Hrun & ->)|(e & H1 & [=])].
    cbv beta iota zeta delta [bind emit ret] in Hrun.
    injection Hrun as Ht <- <-. by exists e1.
  - exfalso.
    destruct (PathLib.relative_to dicom_file study_path) as [rel|];
      cbv beta iota zeta delta [bind log emit ret raise] in Hh;
      injection Hh as Ht _ _; [|discriminate Ht].
    subst t. simpl in Hs. lia.
Qed.

(** C2.  For an instance counted as a success, one request went to the
    DICOM server; its part is the byte stream handed to the upload, which
    decodes (pydicom reading back what it wrote for this dataset) as a
    dataset whose [InstitutionName] is the tenant and whose other
    attributes, file meta information and preamble are those of the
    source file. *)
Theorem uploaded_instance_is_tagged (study_path : path) (clinic_id : string)
    (acc t : DicomProcessor.tally) (dicom_file : path) (st : State) :
  let o := DicomProcessor.process_one L E cfg study_path clinic_id acc dicom_file st in
  res_of o = Ok t ->
  DicomProcessor.success_count t = S (DicomProcessor.success_count acc) ->
  (forall ds b,
      DicomProcessor.dcmread L E false dicom_file = Ok ds ->
      dcm_encode L (set_InstitutionName clinic_id ds) = Ok b ->
      dcm_decode L false b = Ok (set_InstitutionName clinic_id ds)) ->
  exists source dicom_bytes sent boundary body headers,
    DicomProcessor.dcmread L E false dicom_file = Ok source
    /\ DicomProcessor.multipart_body boundary (PathLib.name dicom_file) dicom_bytes = Ok body
    /\ stow_posts (events_of o) = [(body, headers)]
    /\ dcm_decode L false dicom_bytes = Ok sent
    /\ value <$> dataset sent !! InstitutionName = Some clinic_id
    /\ (forall a, a <> InstitutionName -> dataset sent !! a = dataset source !! a)
    /\ file_meta sent = file_meta source
    /\ preamble sent = preamble source.
Proof.
  intros o Hres Hcount Hcodec. subst o.
  destruct (DicomProcessor.process_one L E cfg study_path clinic_id acc dicom_file st)
    as [[r s'] ev] eqn:Hrun.
  unfold res_of, events_of in *. cbn [fst snd] in *. subst r.
  apply process_one_success in Hrun as (e1 & Hrun & ->); [|done].
  apply process_single_file_run in Hrun as (_ & _ & Hrun).
  destruct (Hrun eq_refl) as (ds & b & boundary & body & headers & Hread & Henc & Hbody & Hposts).
  destruct (set_InstitutionName_spec clinic_id ds) as (Hv & Hothers & Hmeta & Hpre).
  exists ds, b, (set_InstitutionName clinic_id ds), boundary, body, headers.
  rewrite stow_posts_app, Hposts. cbn [stow_posts omap app].
  split; [done|]. split; [done|]. split; [done|]. split; [by apply Hcodec|]. done.
Qed.

End InstanceProps.

(** ** The scenarios, run *)

(** C3.  A regular file [img.Dcm] that holds a valid DICOM dataset is not
    discovered, whatever the DICOM library is: neither glob matches its
    name, and the second pass skips it because its lowered extension is
    [.dcm].  Its neighbours [a.dcm] and [b.DCM] are found. *)
Theorem discover_skips_mixed_case (L : Lib) (st : State) :
  let mixed := Scenario.study ++ ["img.Dcm"] in
  let a := Scenario.study ++ ["a.dcm"] in
  let b := Scenario.study ++ ["b.DCM"] in
  let E := Scenario.world Scenario.idp_down [a; mixed; b] (Scenario.contents []) in
  is_file E mixed = true
  /\ Str.lower (PathLib.suffix mixed) = ".dcm"
  /\ file_bytes E mixed = Ok Scenario.original_bytes
  /\ res_of (DicomProcessor.discover L E Scenario.study st) = Ok [a; b].
Proof.
  cbv zeta. repeat split.
Qed.


(** The rows of C1 on four small worlds: one good file; a good and a
    broken file; one broken file; one good file and a disk that refuses
    the first directory it is asked to create. *)
Lemma study_outcome_witness :
  let good := Scenario.img in
  let bad := Scenario.study ++ ["bad.dcm"] in
  let run E := DicomProcessor.process_study_folder Scenario.lib E Scenario.cfg_anonymous
                 Scenario.study "clinicA" Scenario.inbox_state in
  let E1 := Scenario.world Scenario.idp_down [good] (Scenario.contents []) in
  let E2 := Scenario.world Scenario.idp_down [good; bad] (Scenario.contents [bad]) in
  let E3 := Scenario.world Scenario.idp_down [bad] (Scenario.contents [bad]) in
  let E4 := Scenario.failing_at 3 E1 in
  (res_of (run E1) = Ok true /\ outcomes (events_of (run E1)) = [("clinicA", "success")])
  /\ (res_of (run E2) = Ok true /\ outcomes (events_of (run E2)) = [("clinicA", "partial")])
  /\ (res_of (run E3) = Ok false /\ outcomes (events_of (run E3)) = [("clinicA", "failed")])
  /\ (res_of (run E4) = Ok false /\ outcomes (events_of (run E4)) = [("clinicA", "error")]).
Proof.
  cbv zeta.
  set (bad := Scenario.study ++ ["bad.dcm"]).
  set (E1 := Scenario.world Scenario.idp_down [Scenario.img] (Scenario.contents [])).
  set (E2 := Scenario.world Scenario.idp_down [Scenario.img; bad] (Scenario.contents [bad])).
  set (E3 := Scenario.world Scenario.idp_down [bad] (Scenario.contents [bad])).
  split; [|split; [|split]].
  - destruct (study_outcome Scenario.lib E1 Scenario.cfg_anonymous Scenario.study "clinicA"
                Scenario.inbox_state [Scenario.img]) as [Hrows _];
      [vm_compute; reflexivity | discriminate |].
    destruct (Hrows (DicomProcessor.Tally 1 0 [])) as (_ & Hrow & _);
      [vm_compute; reflexivity|].
    destruct Hrow as (Hr & Ho & _);
      [vm_compute; lia | reflexivity | vm_compute; reflexivity |].
    by split.
  - destruct (study_outcome Scenario.lib E2 Scenario.cfg_anonymous Scenario.study "clinicA"
                Scenario.inbox_state [Scenario.img; bad]) as [Hrows _];
      [vm_compute; reflexivity | discriminate |].
    destruct (Hrows (DicomProcessor.Tally 1 1
                       [FileError "bad.dcm"
                          "Invalid DICOM file: File is missing DICOM File Meta Information"]))
      as (_ & _ & Hrow & _); [vm_compute; reflexivity|].
    destruct Hrow as (Hr & Ho & _);
      [vm_compute; lia | vm_compute; lia | vm_compute; reflexivity |].
    by split.
  - destruct (study_outcome Scenario.lib E3 Scenario.cfg_anonymous Scenario.study "clinicA"
                Scenario.inbox_state [bad]) as [Hrows _];
      [vm_compute; reflexivity | discriminate |].
    destruct (Hrows (DicomProcessor.Tally 0 1
                       [FileError "bad.dcm"
                          "Invalid DICOM file: File is missing DICOM File Meta Information"]))
      as (_ & _ & _ & Hrow); [vm_compute; reflexivity|].
    destruct Hrow as (Hr & Ho & _);
      [reflexivity | vm_compute; lia | vm_compute; reflexivity |].
    by split.
  - destruct (study_outcome Scenario.lib (Scenario.failing_at 3 E1) Scenario.cfg_anonymous
                Scenario.study "clinicA" Scenario.inbox_state [Scenario.img]) as [_ Herr];
      [vm_compute; reflexivity | discriminate |].
    destruct (Herr (Exn OSError "Permission denied")) as (Hr & Ho & _);
      [vm_compute; reflexivity | vm_compute; reflexivity |].
    by split.
Defined.

(** Scenario 3 of the specification: a folder that holds only [readme.txt]. *)
Lemma no_dicom_files_found_witness :
  let E := Scenario.world Scenario.idp_down [Scenario.study ++ ["readme.txt"]]
             (Scenario.contents []) in
  let o := DicomProcessor.process_study_folder Scenario.lib E Scenario.cfg
             Scenario.study "clinicA" Scenario.inbox_state in
  res_of o = Ok false
  /\ outcomes (events_of o) = [("clinicA", "failed")]
  /\ stow_posts (events_of o) = []
  /\ quarantined Scenario.cfg Scenario.study "clinicA" "No DICOM files found" []
       (fs Scenario.inbox_state) (fs (state_of o)).
Proof.
  cbv zeta.
  destruct (no_dicom_files_found Scenario.lib
              (Scenario.world Scenario.idp_down [Scenario.study ++ ["readme.txt"]]
                 (Scenario.contents []))
              Scenario.cfg Scenario.study "clinicA" Scenario.inbox_state)
    as [Hposts Hrest]; [vm_compute; reflexivity|].
  destruct Hrest as (Hres & Hout & Hquar); [vm_compute; reflexivity|].
  repeat split; assumption.
Defined.

(** Scenario 2 of the specification, with two files: one uploads, one
    does not parse. *)
Lemma partial_leaves_no_record_witness :
  let bad := Scenario.study ++ ["bad.dcm"] in
  let E := Scenario.world Scenario.idp_down [Scenario.img; bad] (Scenario.contents [bad]) in
  let o := DicomProcessor.process_study_folder Scenario.lib E Scenario.cfg_anonymous
             Scenario.study "clinicA" Scenario.inbox_state in
  res_of o = Ok true
  /\ outcomes (events_of o) = [("clinicA", "partial")]
  /\ archived Scenario.cfg_anonymous Scenario.study "clinicA"
       (fs Scenario.inbox_state) (fs (state_of o))
  /\ no_file_written Scenario.study (fs Scenario.inbox_state) (fs (state_of o)).
Proof.
  cbv zeta.
  destruct (partial_leaves_no_record Scenario.lib
           (Scenario.world Scenario.idp_down
              [Scenario.img; Scenario.study ++ ["bad.dcm"]]
              (Scenario.contents [Scenario.study ++ ["bad.dcm"]]))
           Scenario.cfg_anonymous Scenario.study "clinicA" Scenario.inbox_state)
    as (Hres & Hout & Harch & Hnf & _).
  { apply list_elem_of_In. vm_compute. left. reflexivity. }
  split; [exact Hres|]. split; [exact Hout|]. split; [exact Harch|exact Hnf].
Defined.

(** The test of the repository: a file of ["Original Hospital"] uploaded
    for [clinicA]. *)
Lemma uploaded_instance_is_tagged_witness :
  let E := Scenario.world Scenario.idp_down [Scenario.img] (Scenario.contents []) in
  let o := DicomProcessor.process_one Scenario.lib E Scenario.cfg_anonymous Scenario.study
             "clinicA" (DicomProcessor.Tally 0 0 []) Scenario.img Scenario.inbox_state in
  exists source dicom_bytes sent boundary body headers,
    DicomProcessor.dcmread Scenario.lib E false Scenario.img = Ok source
    /\ DicomProcessor.multipart_body boundary (PathLib.name Scenario.img) dicom_bytes
       = Ok body
    /\ stow_posts (events_of o) = [(body, headers)]
    /\ dcm_decode Scenario.lib false dicom_bytes = Ok sent
    /\ value <$> dataset sent !! InstitutionName = Some "clinicA"
    /\ (forall a, a <> InstitutionName -> dataset sent !! a = dataset source !! a)
    /\ file_meta sent = file_meta source
    /\ preamble sent = preamble source.
Proof.
  cbv zeta.
  apply (uploaded_instance_is_tagged Scenario.lib
           (Scenario.world Scenario.idp_down [Scenario.img] (Scenario.contents []))
           Scenario.cfg_anonymous Scenario.study "clinicA"
           (DicomProcessor.Tally 0 0 []) (DicomProcessor.Tally 1 0 [])
           Scenario.img Scenario.inbox_state).
  - vm_compute. reflexivity.
  - reflexivity.
  - intros ds b Hread Henc.
    vm_compute in Hread. injection Hread as <-.
    vm_compute in Henc. injection Henc as <-.
    vm_compute. reflexivity.
Defined.

(** Scenario 1 of the specification: one valid file; the posted part
    decodes with the tenant as institution and the folder is archived. *)
Example happy_path_single_file :
  let E := Scenario.world Scenario.idp_up [Scenario.img] (Scenario.contents []) in
  let o := DicomProcessor.process_study_folder Scenario.lib E Scenario.cfg
             Scenario.study "clinicA" Scenario.inbox_state in
  res_of o = Ok true
  /\ outcomes (events_of o) = [("clinicA", "success")]
  /\ List.map (fun r => List.last r.2 ("", "")) (stow_posts (events_of o))
     = [("Authorization", "Bearer test-token-123")]
  /\ fs (state_of o) !! Scenario.study = None
  /\ fs (state_of o) !! ["/"; "processed"; "clinicA"; "2024-01-01"; "study1"] = Some Dir.
Proof. cbv zeta. repeat split; vm_compute; reflexivity. Qed.

(** Scenario 4 of the specification: the name is taken in the processed
    tree, so the folder is archived under a name with the time appended. *)
Example destination_collision :
  let E := Scenario.world Scenario.idp_down [Scenario.img] (Scenario.contents []) in
  let taken := ["/"; "processed"; "clinicA"; "2024-01-01"; "study1"] in
  let st := with_fs (<[taken := Dir]> (fs Scenario.inbox_state)) Scenario.inbox_state in
  let o := DicomProcessor.process_study_folder Scenario.lib E Scenario.cfg_anonymous
             Scenario.study "clinicA" st in
  res_of o = Ok true
  /\ fs (state_of o) !! Scenario.study = None
  /\ fs (state_of o) !! ["/"; "processed"; "clinicA"; "2024-01-01"; "study1_120000"]
     = Some Dir.
Proof. cbv zeta. repeat split; vm_compute; reflexivity. Qed.

(** Scenario 5 of the specification: events at 0, 30 and 55 with a
    cooldown of 60; the drain at 60 promotes nothing, the drain at 115
    submits the folder. *)
Example debounce :
  let E := Scenario.timeline [0; 30; 55; 60; 115]
             (Scenario.world Scenario.idp_down [] Scenario.no_files) in
  let note := InboxHandler._handle_new_folder E Scenario.cfg Scenario.img in
  let drain := InboxHandler.check_pending_folders E Scenario.cfg in
  let at_60 := (note ;; note ;; note ;; drain) Scenario.inbox_state in
  let at_115 := drain (state_of at_60) in
  map_to_list (pending_folders (state_of at_60)) = [(Scenario.study, 55)]
  /\ List.filter (fun e => match e with ESubmit _ _ => true | _ => false end)
       (events_of at_60) = []
  /\ map_to_list (pending_folders (state_of at_115)) = []
  /\ List.filter (fun e => match e with ESubmit _ _ => true | _ => false end)
       (events_of at_115) = [ESubmit Scenario.study "clinicA"].
Proof. cbv zeta. repeat split; vm_compute; reflexivity. Qed.

(** The repository's test of the cache: the second call sends no request. *)
Example token_is_reused :
  let E := Scenario.world Scenario.idp_up [] Scenario.no_files in
  let o := (t1 <- TokenManager.get_token E Scenario.cfg ;;
            t2 <- TokenManager.get_token E Scenario.cfg ;;
            ret (t1, t2)) Scenario.empty_state in
  res_of o = Ok (Some "test-token-123", Some "test-token-123")
  /\ length (List.filter is_token_post (events_of o)) = 1%nat.
Proof. cbv zeta. repeat split; vm_compute; reflexivity. Qed.

(** A disk that turns read-only once discovery is over: the move to the
    processed tree raises, the quarantine raises too and its exception
    leaves [process_study_folder]; the folder is still in the inbox and the
    log holds the entry of the handler. *)
Example quarantine_fails :
  let E := Scenario.failing_from 3
             (Scenario.world Scenario.idp_down [Scenario.img] (Scenario.contents [])) in
  let o := DicomProcessor.process_study_folder Scenario.lib E Scenario.cfg_anonymous
             Scenario.study "clinicA" Scenario.inbox_state in
  res_of o = Raise (Exn OSError "Read-only file system")
  /\ fs (state_of o) !! Scenario.study = Some Dir
  /\ outcomes (events_of o) = []
  /\ List.filter (fun e => match e with ELog Exception _ _ => true | _ => false end)
       (events_of o)
     = [ELog Exception "Unexpected error processing study"
          [("study_path", "/inbox/clinicA/study1"); ("clinic_id", "clinicA");
           ("exc_info", "Read-only file system")]].
Proof. cbv zeta. repeat split; vm_compute; reflexivity. Qed.

(* ===================================================================== *)
(** * Further properties of the code *)
(* ===================================================================== *)

(** ** Token manager *)

Section TokenManagerMore.
Context (E : Env) (cfg : Config).

(** X1.  [get_token] never raises: every failure of the refresh ends as
    [None].  It sends at most one request to the identity provider, a
    token it returns is the token held in the cache afterwards, and it
    touches neither the disk nor the pending folders. *)
Theorem get_token_never_raises (st : State) :
  let o := TokenManager.get_token E cfg st in
  (exists r, res_of o = Ok r
     /\ forall tok, r = Some tok -> token (state_of o) = Some tok)
  /\ (length (List.filter is_token_post (events_of o)) <= 1)%nat
  /\ token_calls (state_of o)
     = (token_calls st + length (List.filter is_token_post (events_of o)))%nat
  /\ stow_calls (state_of o) = stow_calls st
  /\ fs (state_of o) = fs st
  /\ pending_folders (state_of o) = pending_folders st.
Proof.
  cbv beta iota zeta delta
    [TokenManager.get_token TokenManager._refresh_token
     try_except bind TokenManager.requests_post TokenManager.raise_for_status
     emit get modify log time_time raise ret res_of state_of events_of].
  destruct (token st) as [[|c r]|] eqn:Htok; simpl;
    try destruct (clock E (ticks st) <? token_expires st - 60); simpl;
    try destruct (keycloak_client_secret cfg); simpl;
    try destruct (token_reply E (token_calls st)) as [e|status text [e'|tok [|n|]]]; simpl;
    try destruct ((400 <=? _) && (_ <? 600))%bool; simpl;
    try destruct (float_of_int_overflows n); simpl;
    (split; [eexists; split; [reflexivity|intros ? ?; by simplify_eq]
            |repeat split; simpl; lia]).
Qed.

(** With a client secret every refresh sends one request. *)
Lemma refresh_token_asks (st : State) :
  keycloak_client_secret cfg <> "" ->
  List.filter is_token_post (events_of (TokenManager._refresh_token E cfg st)) <> []
  /\ token_calls (state_of (TokenManager._refresh_token E cfg st)) = S (token_calls st).
Proof.
  intros Hsecret.
  cbv beta iota zeta delta
    [TokenManager._refresh_token
     try_except bind TokenManager.requests_post TokenManager.raise_for_status
     emit get modify log time_time raise ret res_of state_of events_of].
  destruct (keycloak_client_secret cfg) as [|c0 r0]; [done|]. simpl.
  destruct (token_reply E (token_calls st)) as [e|status text [e'|tok [|n|]]]; simpl;
    try destruct ((400 <=? _) && (_ <? 600))%bool; simpl;
    try destruct (float_of_int_overflows n); simpl; done.
Qed.

(** X2.  A process that holds no token and gets one with a lifetime of
    [n] seconds (an integer that a float can hold, or 300 when the reply
    names none) at clock reading [t1] serves the next call from the cache,
    without a request, when the clock then reads less than [t1 + n - 60];
    from [t1 + n - 60] on the next call asks the identity provider
    again. *)
Theorem token_reused_until_expiry
    (st : State) (status : Z) (text tok : string) (ex : expires_field) (n : Z) :
  token st = None ->
  keycloak_client_secret cfg <> "" ->
  token_reply E (token_calls st) = Responded status text (BodyToken tok ex) ->
  ((400 <=? status) && (status <? 600))%bool = false ->
  (ex = ExpNum n /\ float_of_int_overflows n = false) \/ (ex = ExpAbsent /\ n = 300) ->
  tok <> "" ->
  let o1 := TokenManager.get_token E cfg st in
  let o2 := TokenManager.get_token E cfg (state_of o1) in
  let t1 := clock E (ticks st) in
  let t2 := clock E (S (ticks st)) in
  res_of o1 = Ok (Some tok)
  /\ token_calls (state_of o1) = S (token_calls st)
  /\ (t2 < t1 + n - 60 ->
      res_of o2 = Ok (Some tok) /\ events_of o2 = []
      /\ token_calls (state_of o2) = S (token_calls st))
  /\ (t1 + n - 60 <= t2 ->
      List.filter is_token_post (events_of o2) <> []
      /\ token_calls (state_of o2) = S (S (token_calls st))).
Proof.
  intros Hnone Hsecret Hreply Hstatus Hex Htok o1 o2 t1 t2. subst o1 o2 t1 t2.
  pose proof (get_token_run E cfg st) as Hrun. rewrite Hnone in Hrun.
  pose proof (refresh_token_run E cfg st) as Href. cbv zeta in Href.
  destruct (keycloak_client_secret cfg) as [|c0 r0] eqn:Hsec; [done|].
  rewrite Hreply, Hstatus in Href.
  set (s1 := with_token_expires (clock E (ticks st) + n)
               (with_ticks (S (ticks st))
                  (with_token (Some tok) (with_token_calls (S (token_calls st)) st)))).
  assert (H1 : res_of (TokenManager.get_token E cfg st) = Ok (Some tok)
               /\ state_of (TokenManager.get_token E cfg st) = s1).
  { rewrite Hrun. destruct Hex as [[-> Hfit]|[-> ->]]; [|done].
    by rewrite Hfit in Href. }
  destruct H1 as [Hr1 Hs1]. rewrite Hs1.
  split; [done|]. split; [done|].
  pose proof (get_token_run E cfg s1) as Hrun2.
  change (token s1) with (Some tok) in Hrun2.
  change (token_expires s1) with (clock E (ticks st) + n) in Hrun2.
  change (ticks s1) with (S (ticks st)) in Hrun2.
  destruct tok as [|c r]; [done|].
  destruct (Z.ltb_spec (clock E (S (ticks st))) (clock E (ticks st) + n - 60)) as [Hlt|Hge].
  - split; [|intros; lia]. intros _. by rewrite Hrun2.
  - split; [intros; lia|]. intros _. rewrite Hrun2.
    apply (refresh_token_asks (with_ticks (S (S (ticks st))) s1)).
    by rewrite Hsec.
Qed.


End TokenManagerMore.

(** ** Uploader, continued *)

Section UploaderMore.
Context (L : Lib) (E : Env) (cfg : Config).

(** X4.  An upload whose file name encodes as UTF-8 calls [session.post]
    exactly once, and the outcome of that call alone decides the result:
    status 200 or 202 returns; any other status raises
    ["STOW-RS failed: {status} - {text[:500]}"], with the first 500
    characters of the reply; a call that raises hands on its exception.
    Whether a token could be obtained plays no part.  An upload whose file
    name does not encode raises [UnicodeEncodeError] while the body is
    built: nothing is emitted, and neither the identity provider nor the
    DICOM server is called. *)
Theorem upload_result_by_status (dicom_bytes : list byte) (filename : string) (st : State) :
  let o := DicomProcessor._upload_stow_rs L E cfg dicom_bytes filename st in
  (Str.utf8_valid filename = true ->
   length (stow_posts (events_of o)) = 1%nat
   /\ stow_calls (state_of o) = S (stow_calls st)
   /\ res_of o =
        match stow_reply E (stow_calls st) with
        | ConnectionFailed e => Raise e
        | Responded status text _ =>
            if bool_decide (status = 200 \/ status = 202) then Ok tt
            else Raise (Exn PlainException
                          ("STOW-RS failed: " +:+ pretty status +:+ " - "
                           +:+ Str.take 500 text))
        end)
  /\ (Str.utf8_valid filename = false ->
      (exists msg, res_of o = Raise (Exn UnicodeEncodeError msg))
      /\ events_of o = []
      /\ stow_calls (state_of o) = stow_calls st
      /\ token_calls (state_of o) = token_calls st).
Proof.
  intros o. subst o.
  pose proof (upload_stow_rs_exact L E cfg dicom_bytes filename st) as Hex.
  cbv zeta in Hex.
  destruct (multipart_body_built L (clock E (ticks st)) filename dicom_bytes)
    as [Hbuilt Hnot].
  split.
  - intros Hvalid. destruct (Hbuilt Hvalid) as [body Hbody].
    rewrite Hbody in Hex. destruct Hex as (tok & Hres & ->).
    destruct (get_token_quiet E cfg (with_ticks (S (ticks st)) st)) as (Hq & _).
    unfold res_of, state_of, events_of in *. cbn [fst snd].
    rewrite stow_posts_app, Hq. split; [done|]. split; [done|].
    unfold upload_result.
    destruct (stow_reply E (stow_calls st)) as [e|status text []]; [done|].
    destruct (Z.eqb_spec status 200) as [->|H200]; [done|].
    destruct (Z.eqb_spec status 202) as [->|H202]; [done|].
    cbn [orb]. case_bool_decide as Hd; [|done]. by destruct Hd.
  - intros Hinvalid. rewrite (Hnot Hinvalid) in Hex. rewrite Hex.
    unfold res_of, state_of, events_of. cbn [fst snd].
    split; [by eexists|done].
Qed.

(** X5.  When the body of the upload can be built, which is when the file
    name encodes as UTF-8, the request handed to [session.post] carries an
    [Authorization: Bearer] header exactly when [get_token] returned a
    non-empty token; in particular, without a cached token and without a
    client secret, or with an identity provider that cannot be reached,
    the instance is still posted, with the two fixed headers only.  When
    the file name does not encode, [session.post] is not called at all. *)
Theorem upload_authorization (dicom_bytes : list byte) (filename : string) (st : State) :
  let o := DicomProcessor._upload_stow_rs L E cfg dicom_bytes filename st in
  let g := TokenManager.get_token E cfg (with_ticks (S (ticks st)) st) in
  let b := DicomProcessor.boundary_at L (clock E (ticks st)) in
  let sent headers :=
    exists body,
      DicomProcessor.multipart_body b filename dicom_bytes = Ok body
      /\ stow_posts (events_of o)
         = [(body, [content_type b; ("Accept", "application/dicom+json")] ++ headers)] in
  (Str.utf8_valid filename = true ->
   (forall tok, res_of g = Ok (Some tok) -> tok <> "" ->
      sent [("Authorization", "Bearer " +:+ tok)])
   /\ (res_of g = Ok None \/ res_of g = Ok (Some "") -> sent [])
   /\ (token st = None ->
       keycloak_client_secret cfg = ""
       \/ (exists e, token_reply E (token_calls st) = ConnectionFailed e) ->
       sent []))
  /\ (Str.utf8_valid filename = false -> stow_posts (events_of o) = []).
Proof.
  intros o g b sent. subst o g b sent. cbv beta.
  pose proof (upload_stow_rs_exact L E cfg dicom_bytes filename st) as Hex.
  cbv zeta in Hex.
  destruct (multipart_body_built L (clock E (ticks st)) filename dicom_bytes)
    as [Hbuilt Hnot].
  split.
  2:{ intros Hinvalid. rewrite (Hnot Hinvalid) in Hex. by rewrite Hex. }
  intros Hvalid. destruct (Hbuilt Hvalid) as [body Hbody].
  rewrite Hbody in Hex |- *. destruct Hex as (tok & Hres & Hrun).
  destruct (get_token_quiet E cfg (with_ticks (S (ticks st)) st)) as (Hq & _).
  assert (Hsent : stow_posts
            (events_of (DicomProcessor._upload_stow_rs L E cfg dicom_bytes filename st))
          = [(body,
              [content_type (DicomProcessor.boundary_at L (clock E (ticks st)));
               ("Accept", "application/dicom+json")] ++ authorization tok)]).
  { rewrite Hrun. unfold events_of at 1. cbn [fst snd]. by rewrite stow_posts_app, Hq. }
  rewrite Hsent. clear Hsent Hrun.
  assert (Hnone : res_of (TokenManager.get_token E cfg (with_ticks (S (ticks st)) st))
                  = Ok None \/ res_of (TokenManager.get_token E cfg
                                         (with_ticks (S (ticks st)) st)) = Ok (Some "") ->
                  authorization tok = []).
  { rewrite Hres. by intros [[= ->]|[= ->]]. }
  split; [|split].
  - intros tok' Htok' Hne. rewrite Hres in Htok'. injection Htok' as ->.
    exists body. split; [done|]. by destruct tok'.
  - intros H. exists body. split; [done|]. by rewrite (Hnone H).
  - intros Htok Hwhy. exists body. split; [done|]. rewrite Hnone; [done|]. left.
    pose proof (get_token_run E cfg (with_ticks (S (ticks st)) st)) as Hrun.
    change (token (with_ticks (S (ticks st)) st)) with (token st) in Hrun.
    rewrite Htok in Hrun. rewrite Hrun.
    pose proof (refresh_token_run E cfg (with_ticks (S (ticks st)) st)) as Href.
    cbv zeta in Href.
    change (token_calls (with_ticks (S (ticks st)) st)) with (token_calls st) in Href.
    destruct (keycloak_client_secret cfg) as [|c0 r0].
    + by rewrite Href.
    + destruct Hwhy as [?|[e He]]; [done|]. rewrite He in Href. by destruct Href.
Qed.

End UploaderMore.

(** ** What the processor emits *)

(** The events of each function of the processor, by kind: whatever holds
    of log entries, of requests and of the per-instance and per-study
    metrics holds of everything these functions emit. *)
Section EventKinds.
Context (L : Lib) (E : Env) (cfg : Config).
Context (P : event -> Prop).
Hypothesis P_log : forall l msg kw, P (ELog l msg kw).
Hypothesis P_token_post : forall url form, P (ETokenPost url form).
Hypothesis P_stow_post : forall url body headers, P (EStowPost url body headers).
Hypothesis P_upload_duration : forall d, P (EUploadDuration d).
Hypothesis P_instances : forall c, P (EInstancesUploaded c).
Hypothesis P_imports : forall c s, P (EImportsTotal c s).

Lemma get_token_events (st : State) :
  Forall P (events_of (TokenManager.get_token E cfg st)).
Proof.
  cbv beta iota zeta delta
    [TokenManager.get_token TokenManager._refresh_token
     try_except bind TokenManager.requests_post TokenManager.raise_for_status
     emit get modify log time_time raise ret res_of state_of events_of].
  destruct (token st) as [[|c r]|] eqn:Htok; simpl;
    try destruct (clock E (ticks st) <? token_expires st - 60); simpl;
    try destruct (keycloak_client_secret cfg); simpl;
    try destruct (token_reply E (token_calls st)) as [e|status text [e'|tok [|n|]]]; simpl;
    try destruct ((400 <=? _) && (_ <? 600))%bool; simpl;
    try destruct (float_of_int_overflows n); simpl;
    repeat constructor; auto.
Qed.

Lemma upload_stow_rs_events (dicom_bytes : list byte) (filename : string)
    (st s' : State) (r : Res unit) (ev : list event) :
  DicomProcessor._upload_stow_rs L E cfg dicom_bytes filename st = (r, s', ev) ->
  Forall P ev.
Proof.
  intros Hrun.
  pose proof (upload_stow_rs_exact L E cfg dicom_bytes filename st) as Hex.
  cbv zeta in Hex.
  destruct (DicomProcessor.multipart_body _ filename dicom_bytes) as [body|e].
  - destruct Hex as (tok & _ & Hex).
    rewrite Hex in Hrun. injection Hrun as _ _ <-.
    apply Forall_app. split; [apply get_token_events|].
    repeat constructor; auto.
  - rewrite Hex in Hrun. injection Hrun as _ _ <-. constructor.
Qed.

Lemma process_single_file_events (file_path : path) (clinic_id : string)
    (st s' : State) (r : Res unit) (ev : list event) :
  DicomProcessor._process_single_file L E cfg file_path clinic_id st = (r, s', ev) ->
  Forall P ev.
Proof.
  unfold DicomProcessor._process_single_file. intros Hrun.
  apply bind_inv in Hrun as [(t0 & s1 & e1 & e2 & H1 & Hrun & ->)|(e & H1 & _)];
    [|discriminate H1].
  injection H1 as <- <- <-.
  apply bind_inv in Hrun as [(ds & s2 & e2' & e3 & H2 & Hrun & ->)|(e & H2 & ->)].
  2:{ destruct (DicomProcessor.dcmread L E false file_path) as [ds|e'];
        [discriminate H2|].
      destruct (is_invalid_dicom e'); injection H2 as _ _ <-; constructor. }
  assert (e2' = []) as ->.
  { destruct (DicomProcessor.dcmread L E false file_path) as [ds'|e'].
    - by injection H2 as _ _ <-.
    - destruct (is_invalid_dicom e'); discriminate H2. }
  cbv zeta in Hrun.
  apply bind_inv in Hrun as [(b & s3 & e3' & e4 & H3 & Hrun & ->)|(e & H3 & ->)];
    unfold lift in H3; injection H3 as _ _ <-; [|constructor].
  apply bind_inv in Hrun as [([] & s4 & e4' & e5 & H4 & Hrun & ->)|(e & H4 & ->)];
    apply upload_stow_rs_events in H4; [|done].
  cbv beta iota zeta delta [bind time_time emit ret] in Hrun.
  injection Hrun as _ _ <-.
  cbn [app]. apply Forall_app. split; [done|]. repeat constructor; auto.
Qed.

Lemma process_one_events (study_path : path) (clinic_id : string)
    (acc : DicomProcessor.tally) (dicom_file : path)
    (st s' : State) (r : Res DicomProcessor.tally) (ev : list event) :
  DicomProcessor.process_one L E cfg study_path clinic_id acc dicom_file st = (r, s', ev) ->
  Forall P ev.
Proof.
  unfold DicomProcessor.process_one. intros Hrun.
  apply try_except_inv in Hrun
    as [(t & Hrun & ->)|(e & s1 & e1 & e2 & Hrun & Hh & ->)].
  - apply bind_inv in Hrun as [([] & s2 & e1 & e2 & H1 & Hrun & ->)|(e & H1 & [=])].
    apply process_single_file_events in H1.
    cbv beta iota zeta delta [bind emit ret] in Hrun.
    injection Hrun as _ _ <-. apply Forall_app. split; [done|]. repeat constructor; auto.
  - apply bind_inv in Hrun as [([] & s2 & e1' & e2' & H1 & Hrun & ->)|(e' & H1 & [= <-])].
    { cbv beta iota zeta delta [bind emit ret] in Hrun. discriminate Hrun. }
    apply process_single_file_events in H1.
    apply Forall_app. split; [done|].
    destruct (PathLib.relative_to dicom_file study_path) as [rel|];
      cbv beta iota zeta delta [bind log emit ret raise] in Hh;
      injection Hh as _ _ <-; repeat constructor; auto.
Qed.

Lemma upload_loop_events (study_path : path) (clinic_id : string) (files : list path) :
  forall (acc : DicomProcessor.tally)
         (st s' : State) (r : Res DicomProcessor.tally) (ev : list event),
    DicomProcessor.upload_loop L E cfg study_path clinic_id files acc st = (r, s', ev) ->
    Forall P ev.
Proof.
  induction files as [|f files IH]; intros acc st s' r ev; simpl.
  - intros [= <- <- <-]. constructor.
  - intros Hrun.
    apply bind_inv in Hrun as [(acc' & s1 & e1 & e2 & H1 & Hrun & ->)|(e & H1 & ->)];
      apply process_one_events in H1; [|done].
    apply Forall_app. split; [done|]. by eapply IH.
Qed.

Lemma move_to_processed_events (study_path : path) (clinic_id : string)
    (st s' : State) (r : Res unit) (ev : list event) :
  DicomProcessor._move_to_processed E cfg study_path clinic_id st = (r, s', ev) ->
  Forall P ev.
Proof.
  unfold DicomProcessor._move_to_processed. intros Hrun.
  apply bind_inv in Hrun as [(dest & s1 & e1 & e2 & H1 & Hrun & ->)|(e & H1 & ->)];
    apply dated_destination_run in H1 as [-> H1]; [|constructor].
  apply bind_inv in Hrun as [([] & s2 & e2' & e3 & H2 & Hrun & ->)|(e & H2 & ->)];
    pose proof (shutil_move_run E study_path dest s1) as Hm;
    cbv zeta in Hm; rewrite H2 in Hm;
    unfold res_of, state_of, events_of in Hm; cbn [fst snd] in Hm;
    destruct Hm as [-> Hm]; [|constructor].
  injection Hrun as _ _ <-. repeat constructor; auto.
Qed.

Lemma move_to_failed_events (study_path : path) (clinic_id reason : string)
    (errs : option (list file_error))
    (st s' : State) (r : Res unit) (ev : list event) :
  DicomProcessor._move_to_failed E cfg study_path clinic_id reason errs st = (r, s', ev) ->
  Forall P ev.
Proof.
  unfold DicomProcessor._move_to_failed. intros Hrun.
  apply bind_inv in Hrun as [(dest & s1 & e1 & e2 & H1 & Hrun & ->)|(e & H1 & ->)];
    apply dated_destination_run in H1 as [-> H1]; [|constructor].
  apply bind_inv in Hrun as [([] & s2 & e2' & e3 & H2 & Hrun & ->)|(e & H2 & ->)];
    pose proof (shutil_move_run E study_path dest s1) as Hm;
    cbv zeta in Hm; rewrite H2 in Hm;
    unfold res_of, state_of, events_of in Hm; cbn [fst snd] in Hm;
    destruct Hm as [-> Hm]; [|constructor].
  apply bind_inv in Hrun as [(dt & s3 & e3' & e4 & H3 & Hrun & ->)|(e & H3 & _)];
    [|discriminate H3].
  injection H3 as <- <- <-.
  apply bind_inv in Hrun as [([] & s4 & e4' & e5 & H4 & Hrun & ->)|(e & H4 & ->)];
    match type of H4 with
    | write_json E ?p ?rec ?s = _ =>
        pose proof (write_json_run E p rec s) as Hw
    end;
    cbv zeta in Hw; rewrite H4 in Hw;
    unfold res_of, state_of, events_of in Hw; cbn [fst snd] in Hw;
    destruct Hw as [-> Hw]; [|constructor].
  injection Hrun as _ _ <-. repeat constructor; auto.
Qed.

Lemma classify_events (study_path : path) (clinic_id : string) (t : DicomProcessor.tally)
    (st s' : State) (r : Res bool) (ev : list event) :
  DicomProcessor.classify E cfg study_path clinic_id t st = (r, s', ev) ->
  Forall P ev.
Proof.
  unfold DicomProcessor.classify. intros Hrun.
  destruct (DicomProcessor.error_count t) as [|n];
    [|destruct (0 <? DicomProcessor.success_count t)%nat];
    (apply bind_inv in Hrun as [([] & s1 & e1 & e2 & H1 & Hrun & ->)|(e & H1 & _)];
       [|discriminate H1]);
    injection H1 as _ <-;
    (apply bind_inv in Hrun as [([] & s2 & e2' & e3 & H2 & Hrun & ->)|(e & H2 & ->)]);
    try (cbv beta iota zeta delta [bind emit ret] in Hrun; injection Hrun as _ _ <-).
  all: try (pose proof (move_to_processed_events _ _ _ _ _ _ H2) as Hev).
  all: try (pose proof (move_to_failed_events _ _ _ _ _ _ _ _ H2) as Hev).
  all: constructor; [by auto|].
  all: try (apply Forall_app; split; [done|]; repeat constructor; by auto).
  all: done.
Qed.

Lemma try_body_events (study_path : path) (clinic_id : string)
    (st s' : State) (r : Res bool) (ev : list event) :
  DicomProcessor.try_body L E cfg study_path clinic_id st = (r, s', ev) ->
  Forall P ev.
Proof.
  unfold DicomProcessor.try_body. intros Hrun.
  pose proof (discover_run L E study_path st) as (Hdev & _ & _).
  apply bind_inv in Hrun as [(files & sd & e1 & e2 & H1 & Hrun & ->)|(e & H1 & ->)];
    rewrite H1 in Hdev; unfold events_of in Hdev; cbn [fst snd] in Hdev; subst;
    [|constructor].
  destruct files as [|f files].
  - apply bind_inv in Hrun as [([] & s1 & e1 & e2' & H2 & Hrun & ->)|(e & H2 & _)];
      [|discriminate H2].
    injection H2 as _ <-.
    apply bind_inv in Hrun as [([] & s2 & e2 & e3 & H3 & Hrun & ->)|(e & H3 & ->)];
      try (cbv beta iota zeta delta [bind emit ret] in Hrun; injection Hrun as _ _ <-);
      apply move_to_failed_events in H3.
    + constructor; [by auto|]. apply Forall_app; split; [done|]. repeat constructor; auto.
    + by constructor; [auto|].
  - apply bind_inv in Hrun as [([] & s1 & e1 & e2' & H2 & Hrun & ->)|(e & H2 & _)];
      [|discriminate H2].
    injection H2 as _ <-.
    apply bind_inv in Hrun as [(t & sl & evl & e3 & H3 & Hrun & ->)|(e & H3 & ->)];
      apply upload_loop_events in H3.
    + apply classify_events in Hrun. constructor; [by auto|].
      apply Forall_app. by split.
    + by constructor; [auto|].
Qed.

Lemma on_exception_events (study_path : path) (clinic_id : string) (e : exn)
    (st s' : State) (r : Res bool) (ev : list event) :
  DicomProcessor.on_exception E cfg study_path clinic_id e st = (r, s', ev) ->
  Forall P ev.
Proof.
  unfold DicomProcessor.on_exception. intros Hrun.
  apply bind_inv in Hrun as [([] & s1 & e1 & e2' & H2 & Hrun & ->)|(e' & H2 & _)];
    [|discriminate H2].
  injection H2 as _ <-.
  apply bind_inv in Hrun as [([] & s2 & e2 & e3 & H3 & Hrun & ->)|(e' & H3 & ->)];
    try (cbv beta iota zeta delta [bind emit ret] in Hrun; injection Hrun as _ _ <-);
    apply move_to_failed_events in H3.
  - constructor; [by auto|]. apply Forall_app; split; [done|]. repeat constructor; auto.
  - by constructor; [auto|].
Qed.

End EventKinds.

(** ** The instance loop, continued *)

Lemma uploaded_app (a b : list event) : uploaded (a ++ b) = uploaded a ++ uploaded b.
Proof. apply omap_app. Qed.

Lemma uploaded_none (ev : list event) :
  Forall (fun e => match e with EInstancesUploaded _ => False | _ => True end) ev ->
  uploaded ev = [].
Proof.
  induction 1 as [|e ev He _ IH]; [done|].
  destruct e; try done; by cbn [uploaded omap] in *.
Qed.

Section LoopMore.
Context (L : Lib) (E : Env) (cfg : Config).

(** A file that cannot be read or written back stops before the upload. *)
Lemma process_single_file_unreadable (file_path : path) (clinic_id : string)
    (e : exn) (st : State) :
  match DicomProcessor.dcmread L E false file_path with
  | Ok ds => dcm_encode L (set_InstitutionName clinic_id ds)
  | Raise e0 => Raise (read_error e0)
  end = Raise e ->
  DicomProcessor._process_single_file L E cfg file_path clinic_id st
  = (Raise e, with_ticks (S (ticks st)) st, []).
Proof.
  intros Hprep.
  cbv beta iota zeta delta [DicomProcessor._process_single_file bind time_time lift].
  destruct (DicomProcessor.dcmread L E false file_path) as [ds|e0].
  - cbv beta iota zeta delta [ret]. by rewrite Hprep.
  - unfold read_error in Hprep. injection Hprep as <-.
    by destruct (is_invalid_dicom e0).
Qed.

(** X6.  A file that does not parse, or whose dataset cannot be written
    back, costs no request: nothing goes to the identity provider or to
    the DICOM server.  The loop records it under its path relative to the
    study folder, with the message of the exception (prefixed with
    ["Invalid DICOM file: "] when pydicom rejected the file), counts one
    error and goes on. *)
Theorem unreadable_file_is_recorded (study_path : path) (clinic_id : string)
    (acc : DicomProcessor.tally) (dicom_file rel : path) (e : exn) (st : State) :
  match DicomProcessor.dcmread L E false dicom_file with
  | Ok ds => dcm_encode L (set_InstitutionName clinic_id ds)
  | Raise e0 => Raise (read_error e0)
  end = Raise e ->
  PathLib.relative_to dicom_file study_path = Some rel ->
  DicomProcessor.process_one L E cfg study_path clinic_id acc dicom_file st
  = (Ok (DicomProcessor.Tally
           (DicomProcessor.success_count acc)
           (S (DicomProcessor.error_count acc))
           (DicomProcessor.errors acc ++ [FileError (PathLib.str rel) (exn_msg e)])),
     with_ticks (S (ticks st)) st,
     [ELog Error "Failed to process file"
        (DicomProcessor.bound study_path clinic_id
         ++ [("file", PathLib.str dicom_file); ("error", exn_msg e)])]).
Proof.
  intros Hprep Hrel.
  unfold DicomProcessor.process_one, try_except.
  unfold bind at 1.
  rewrite (process_single_file_unreadable dicom_file clinic_id e st Hprep), Hrel.
  reflexivity.
Qed.

(** One turn of the loop, by its two ways out. *)
Lemma process_one_turn (study_path : path) (clinic_id : string)
    (acc : DicomProcessor.tally) (dicom_file : path)
    (st s' : State) (r : Res DicomProcessor.tally) (ev : list event) :
  DicomProcessor.process_one L E cfg study_path clinic_id acc dicom_file st = (r, s', ev) ->
  (length (stow_posts ev) <= 1)%nat
  /\ (r = Ok (DicomProcessor.Tally (S (DicomProcessor.success_count acc))
                (DicomProcessor.error_count acc) (DicomProcessor.errors acc))
      /\ uploaded ev = [clinic_id] /\ length (stow_posts ev) = 1%nat
      \/ uploaded ev = []
         /\ match PathLib.relative_to dicom_file study_path with
            | Some rel =>
                exists e,
                  r = Ok (DicomProcessor.Tally
                            (DicomProcessor.success_count acc)
                            (S (DicomProcessor.error_count acc))
                            (DicomProcessor.errors acc
                             ++ [FileError (PathLib.str rel) (exn_msg e)]))
            | None => exists e, r = Raise e
            end).
Proof.
  set (Q := fun e : event => match e with EInstancesUploaded _ => False | _ => True end).
  assert (Hq : forall s1 s2 r1 e1,
            DicomProcessor._process_single_file L E cfg dicom_file clinic_id s1
            = (r1, s2, e1) -> uploaded e1 = []).
  { intros s1 s2 r1 e1 H. apply uploaded_none.
    by apply (process_single_file_events L E cfg Q) in H. }
  assert (Hp : forall s1 s2 r1 e1,
            DicomProcessor._process_single_file L E cfg dicom_file clinic_id s1
            = (r1, s2, e1) ->
            (length (stow_posts e1) <= 1)%nat
            /\ (r1 = Ok tt -> length (stow_posts e1) = 1%nat)).
  { intros s1 s2 r1 e1 H. unfold DicomProcessor._process_single_file in H.
    apply bind_inv in H as [(t0 & s3 & e3 & e4 & H1 & H & ->)|(e & H1 & _)];
      [|discriminate H1].
    injection H1 as <- <- <-.
    apply bind_inv in H as [(ds & s4 & e4' & e5 & H2 & H & ->)|(e & H2 & ->)].
    2:{ destruct (DicomProcessor.dcmread L E false dicom_file) as [ds|e'];
          [discriminate H2|].
        destruct (is_invalid_dicom e'); injection H2 as _ _ <-;
          (split; [cbn; lia|intros [=]]). }
    assert (e4' = []) as ->.
    { destruct (DicomProcessor.dcmread L E false dicom_file) as [ds'|e'].
      - by injection H2 as _ _ <-.
      - destruct (is_invalid_dicom e'); discriminate H2. }
    cbv zeta in H.
    apply bind_inv in H as [(b & s5 & e5' & e6 & H3 & H & ->)|(e & H3 & ->)];
      unfold lift in H3; injection H3 as _ _ <-; [|split; [cbn; lia|intros [=]]].
    apply bind_inv in H as [([] & s6 & e6' & e7 & H4 & H & ->)|(e & H4 & ->)];
      apply upload_stow_rs_run in H4
        as (_ & _ & [(body & auth & _ & Hposts)|(Hposts & e' & He')]).
    - cbv beta iota zeta delta [bind time_time emit ret] in H.
      injection H as _ _ <-.
      rewrite !stow_posts_app, Hposts. cbn. split; [lia|done].
    - discriminate He'.
    - rewrite !stow_posts_app, Hposts. cbn. split; [lia|]. intros [=].
    - rewrite !stow_posts_app, Hposts. cbn. split; [lia|]. intros [=]. }
  unfold DicomProcessor.process_one. intros Hrun.
  apply try_except_inv in Hrun
    as [(t & Hrun & ->)|(e & s1 & e1 & e2 & Hrun & Hh & ->)].
  - apply bind_inv in Hrun as [([] & s2 & e1 & e2 & H1 & Hrun & ->)|(e & H1 & [=])].
    pose proof (Hq _ _ _ _ H1) as Hu. destruct (Hp _ _ _ _ H1) as [Hle Hone].
    cbv beta iota zeta delta [bind emit ret] in Hrun.
    injection Hrun as <- _ <-.
    rewrite stow_posts_app, uploaded_app, Hu, length_app, (Hone eq_refl). cbn.
    split; [lia|]. left. done.
  - apply bind_inv in Hrun as [([] & s2 & e1' & e2' & H1 & Hrun & ->)|(e' & H1 & [= <-])].
    { cbv beta iota zeta delta [bind emit ret] in Hrun. discriminate Hrun. }
    pose proof (Hq _ _ _ _ H1) as Hu. destruct (Hp _ _ _ _ H1) as [Hle _].
    destruct (PathLib.relative_to dicom_file study_path) as [rel|];
      cbv beta iota zeta delta [bind log emit ret raise] in Hh;
      injection Hh as <- _ <-;
      rewrite stow_posts_app, uploaded_app, Hu, length_app; cbn;
      (split; [lia|]); right; (split; [done|]); eexists; reflexivity.
Qed.

(** The walk over the files that were found. *)
Lemma upload_loop_walk (study_path : path) (clinic_id : string) (files : list path) :
  forall (acc : DicomProcessor.tally)
         (st s' : State) (r : Res DicomProcessor.tally) (ev : list event),
    DicomProcessor.upload_loop L E cfg study_path clinic_id files acc st = (r, s', ev) ->
    (length (stow_posts ev) <= length files)%nat
    /\ ((forall f, f ∈ files -> is_Some (PathLib.relative_to f study_path)) ->
        exists t, r = Ok t)
    /\ forall t, r = Ok t ->
         (DicomProcessor.success_count acc <= DicomProcessor.success_count t)%nat
         /\ uploaded ev
            = replicate (DicomProcessor.success_count t - DicomProcessor.success_count acc)
                clinic_id
         /\ (DicomProcessor.success_count t - DicomProcessor.success_count acc
             <= length (stow_posts ev))%nat
         /\ exists failed,
              DicomProcessor.errors t = DicomProcessor.errors acc ++ failed
              /\ forall fe, fe ∈ failed ->
                   exists f rel, f ∈ files
                     /\ PathLib.relative_to f study_path = Some rel
                     /\ fe_file fe = PathLib.str rel.
Proof.
  induction files as [|f files IH]; intros acc st s' r ev; simpl.
  - intros [= <- <- <-]. split; [done|]. split; [by eauto|].
    intros t [= <-]. rewrite Nat.sub_diag. split; [done|]. split; [done|].
    split; [done|]. exists []. rewrite app_nil_r. split; [done|].
    intros fe H. by apply elem_of_nil in H.
  - intros Hrun.
    apply bind_inv in Hrun as [(acc' & s1 & e1 & e2 & H1 & Hrun & ->)|(e & H1 & ->)];
      apply process_one_turn in H1 as [Hle H1].
    + apply IH in Hrun as (Hle2 & Hok2 & Hrest).
      rewrite stow_posts_app, uploaded_app, length_app.
      split; [lia|]. split.
      { intros Hbelow. apply Hok2. intros f' Hf'. apply Hbelow. by right. }
      intros t ->. destruct (Hrest t eq_refl) as (Hmono & Hup & Hsent & failed & Herr & Hfailed).
      destruct H1 as [([= ->] & Hu1 & Hp1)|(Hu1 & H1)].
      * cbn [DicomProcessor.success_count DicomProcessor.error_count
             DicomProcessor.errors] in *.
        split; [lia|]. rewrite Hu1, Hup. split.
        { replace (DicomProcessor.success_count t - DicomProcessor.success_count acc)%nat
            with (S (DicomProcessor.success_count t
                     - S (DicomProcessor.success_count acc)))%nat by lia.
          done. }
        split; [lia|]. exists failed. split; [done|].
        intros fe Hfe. destruct (Hfailed fe Hfe) as (f' & rel & Hf' & Hrel & Hname).
        exists f', rel. split; [by right|done].
      * destruct (PathLib.relative_to f study_path) as [rel|] eqn:Hrel;
          destruct H1 as [e [= ->]].
        cbn [DicomProcessor.success_count DicomProcessor.error_count
             DicomProcessor.errors] in *.
        split; [lia|]. rewrite Hu1, Hup. split; [done|]. split; [lia|].
        exists (FileError (PathLib.str rel) (exn_msg e) :: failed).
        split; [by rewrite Herr, <- app_assoc|].
        intros fe Hfe. apply elem_of_cons in Hfe as [->|Hfe].
        -- exists f, rel. split; [left|done].
        -- destruct (Hfailed fe Hfe) as (f' & rel' & Hf' & Hrel' & Hname).
           exists f', rel'. split; [by right|done].
    + split; [lia|]. split; [|by intros t [=]].
      intros Hbelow. exfalso.
      destruct (Hbelow f) as [rel Hrel]; [left|].
      rewrite Hrel in H1.
      destruct H1 as [([=] & _)|(_ & e' & [=])].
Qed.

(** X7.  When every file handed to the loop lies below the study folder,
    as the files of a glob over that folder do, the loop never raises: a
    file that fails is caught, recorded under its path relative to the
    study folder, and the walk continues with the next file. *)
Theorem upload_loop_never_raises (study_path : path) (clinic_id : string)
    (files : list path) (acc : DicomProcessor.tally) (st : State) :
  (forall f, f ∈ files -> exists rel, f = study_path ++ rel) ->
  let o := DicomProcessor.upload_loop L E cfg study_path clinic_id files acc st in
  exists t failed,
    res_of o = Ok t
    /\ (DicomProcessor.success_count t + DicomProcessor.error_count t
        = DicomProcessor.success_count acc + DicomProcessor.error_count acc
          + length files)%nat
    /\ DicomProcessor.errors t = DicomProcessor.errors acc ++ failed
    /\ length failed
       = (DicomProcessor.error_count t - DicomProcessor.error_count acc)%nat
    /\ forall fe, fe ∈ failed ->
         exists rel, study_path ++ rel ∈ files /\ fe_file fe = PathLib.str rel.
Proof.
  intros Hbelow o. subst o.
  destruct (DicomProcessor.upload_loop L E cfg study_path clinic_id files acc st)
    as [[r s'] ev] eqn:Hrun.
  unfold res_of. cbn [fst snd].
  pose proof (upload_loop_run L E cfg _ _ _ _ _ _ _ _ Hrun) as (_ & _ & Hcount).
  apply upload_loop_walk in Hrun as (_ & Hok & Hrest).
  destruct Hok as [t ->].
  { intros f Hf. destruct (Hbelow f Hf) as [rel ->]. rewrite relative_to_app. by eexists. }
  destruct (Hrest t eq_refl) as (_ & _ & _ & failed & Herr & Hfailed).
  destruct (Hcount t eq_refl) as (Hsum & _ & Hmono & Hlen).
  exists t, failed. split; [done|]. split; [done|]. split; [done|]. split.
  - rewrite Herr, length_app in Hlen. lia.
  - intros fe Hfe. destruct (Hfailed fe Hfe) as (f & rel & Hf & Hrel & Hname).
    exists rel. apply relative_to_Some in Hrel as <-. done.
Qed.

(** X8.  The loop sends at most one request per file, and the counter of
    uploaded instances moves in step with the successes: it is bumped
    once, under the tenant's label, for each instance counted as a
    success, and each of those had its request sent. *)
Theorem uploads_are_counted (study_path : path) (clinic_id : string)
    (files : list path) (acc : DicomProcessor.tally) (st : State) :
  let o := DicomProcessor.upload_loop L E cfg study_path clinic_id files acc st in
  (length (stow_posts (events_of o)) <= length files)%nat
  /\ forall t, res_of o = Ok t ->
       uploaded (events_of o)
       = replicate (DicomProcessor.success_count t - DicomProcessor.success_count acc)
           clinic_id
       /\ (DicomProcessor.success_count t - DicomProcessor.success_count acc
           <= length (stow_posts (events_of o)))%nat.
Proof.
  intros o. subst o.
  destruct (DicomProcessor.upload_loop L E cfg study_path clinic_id files acc st)
    as [[r s'] ev] eqn:Hrun.
  unfold res_of, events_of. cbn [fst snd].
  apply upload_loop_walk in Hrun as (Hle & _ & Hrest).
  split; [done|]. intros t ->.
  destruct (Hrest t eq_refl) as (_ & Hup & Hsent & _). done.
Qed.

End LoopMore.

(** ** The study processor, continued *)

Lemma active_imports_app (a b : list event) :
  active_imports (a ++ b) = active_imports a ++ active_imports b.
Proof. apply omap_app. Qed.

Lemma import_durations_app (a b : list event) :
  import_durations (a ++ b) = import_durations a ++ import_durations b.
Proof. apply omap_app. Qed.

Lemma no_gauge_steps (ev : list event) :
  Forall (fun e => match e with
                   | EActiveImports _ | EImportDuration _ _ => False
                   | _ => True
                   end) ev ->
  active_imports ev = [] /\ import_durations ev = [].
Proof.
  induction 1 as [|e ev He _ [IH1 IH2]]; [done|].
  destruct e; try done; by cbn [active_imports import_durations omap] in *.
Qed.

Section ProcessorMore.
Context (L : Lib) (E : Env) (cfg : Config).
Context (study_path : path) (clinic_id : string).

(** What the body records, by what it returns. *)
Lemma try_body_outcome (st s' : State) (r : Res bool) (ev : list event) :
  DicomProcessor.try_body L E cfg study_path clinic_id st = (r, s', ev) ->
  match r with
  | Ok true => outcomes ev = [(clinic_id, "success")]
               \/ outcomes ev = [(clinic_id, "partial")]
  | Ok false => outcomes ev = [(clinic_id, "failed")]
  | Raise _ => outcomes ev = []
  end.
Proof.
  intros Hb. apply try_body_inv in Hb as (rd & sd & Hd & Hfsd & Hb).
  destruct rd as [[|f files]|e'].
  - destruct Hb as (_ & rm & evm & Hm & Hbr).
    destruct rm as [[]|?]; by destruct Hbr as [-> ->].
  - destruct Hb as (rl & sl & evl & Hl & Hfsl & Hb).
    destruct rl as [t|e']; [|by destruct Hb as (-> & _ & ?)].
    destruct Hb as (evc & Hc & ->).
    apply classify_inv in Hc as (_ & Hc).
    destruct (DicomProcessor.error_count t) as [|n];
      [|destruct (0 <? DicomProcessor.success_count t)%nat];
      destruct Hc as (rm & evm & Hm & Hbr);
      destruct rm as [[]|?]; destruct Hbr as [-> ->]; auto.
  - by destruct Hb as (-> & _ & ->).
Qed.

(** X9.  Every call of [process_study_folder] counts the study at most
    once: [True] comes with exactly one increment, labelled success or
    partial; [False] with exactly one, labelled failed or error; and a
    call that raises has counted nothing. *)
Theorem one_outcome_per_study (st : State) :
  let o := DicomProcessor.process_study_folder L E cfg study_path clinic_id st in
  match res_of o with
  | Ok true => outcomes (events_of o) = [(clinic_id, "success")]
               \/ outcomes (events_of o) = [(clinic_id, "partial")]
  | Ok false => outcomes (events_of o) = [(clinic_id, "failed")]
                \/ outcomes (events_of o) = [(clinic_id, "error")]
  | Raise _ => outcomes (events_of o) = []
  end.
Proof.
  intros o. subst o.
  destruct (DicomProcessor.process_study_folder L E cfg study_path clinic_id st)
    as [[r s'] ev] eqn:Hrun.
  unfold res_of, events_of. cbn [fst snd].
  apply process_study_folder_inv in Hrun as (s1 & ev1 & d & Hin & _ & ->).
  destruct (around_body clinic_id ev1 d) as [-> _].
  apply try_except_inv in Hin
    as [(b & Hb & ->)|(e & s2 & e1 & e2 & Hb & Hh & ->)].
  - apply try_body_outcome in Hb. destruct b; auto.
  - apply try_body_outcome in Hb.
    apply on_exception_inv in Hh as (_ & _ & rm & evm & Hm & Hbr).
    rewrite outcomes_app, Hb. cbn [app].
    destruct rm as [[]|?]; destruct Hbr as [-> ->]; auto.
Qed.

(** X10.  The gauge of active imports is stepped up once, as the first
    thing the call emits, and down once, as the last, on every way out of
    [process_study_folder], a raising quarantine included; nothing in
    between touches it.  The one duration observed, under the tenant's
    label, is the last clock reading of the call minus the first. *)
Theorem active_imports_balanced (st : State) :
  let o := DicomProcessor.process_study_folder L E cfg study_path clinic_id st in
  let d := clock E (ticks (state_of o) - 1) - clock E (ticks st) in
  (exists body,
     events_of o = EActiveImports 1 :: body
                   ++ [EImportDuration clinic_id d; EActiveImports (-1)]
     /\ active_imports body = [] /\ import_durations body = [])
  /\ active_imports (events_of o) = [1; -1]
  /\ import_durations (events_of o) = [(clinic_id, d)].
Proof.
  intros o d. subst o d.
  unfold DicomProcessor.process_study_folder.
  cbv beta iota zeta delta [bind time_time emit ret try_finally].
  destruct (try_except _ _ (with_ticks (S (ticks st)) st)) as [[r1 s1] ev1] eqn:Hin.
  unfold state_of, events_of. cbn [fst snd ticks with_ticks app].
  replace (S (ticks s1) - 1)%nat with (ticks s1) by lia.
  set (Q := fun e : event => match e with
                             | EActiveImports _ | EImportDuration _ _ => False
                             | _ => True
                             end).
  assert (Hq : Forall Q ev1).
  { apply try_except_inv in Hin
      as [(b & Hb & ->)|(e & s2 & e1 & e2 & Hb & Hh & ->)].
    - by apply (try_body_events L E cfg Q) in Hb.
    - apply Forall_app. split.
      + by apply (try_body_events L E cfg Q) in Hb.
      + by apply (on_exception_events E cfg Q) in Hh. }
  apply no_gauge_steps in Hq as [Ha Hd].
  split; [|split].
  - by exists ev1.
  - change (EActiveImports 1 :: ev1 ++ ?l) with ([EActiveImports 1] ++ ev1 ++ l).
    by rewrite !active_imports_app, Ha.
  - change (EActiveImports 1 :: ev1 ++ ?l) with ([EActiveImports 1] ++ ev1 ++ l).
    by rewrite !import_durations_app, Hd.
Qed.

End ProcessorMore.

(** ** Discovery, continued *)

Lemma append_inj_same_length (pre pre' a b : string) :
  pre +:+ a = pre' +:+ b -> String.length a = String.length b -> a = b.
Proof.
  revert pre'. induction pre as [|c pre IH]; intros [|c' pre'] Heq Hlen.
  - done.
  - apply (f_equal String.length) in Heq. rewrite !length_append in Heq.
    cbn [String.length] in Heq. lia.
  - apply (f_equal String.length) in Heq. rewrite !length_append in Heq.
    cbn [String.length] in Heq. lia.
  - change (String c (pre +:+ a) = String c' (pre' +:+ b)) in Heq.
    injection Heq as _ Heq. by eapply IH.
Qed.

(** No name matches both globs. *)
Lemma globs_apart (n : string) :
  Str.endswith ".dcm" n = true -> Str.endswith ".DCM" n = true -> False.
Proof.
  intros H1 H2. apply endswith_app in H1 as [pre Hpre]. apply endswith_app in H2 as [pre' Hpre'].
  rewrite Hpre in Hpre'. by apply append_inj_same_length in Hpre'.
Qed.

Lemma NoDup_List_filter {A : Type} (f : A -> bool) (l : list A) :
  NoDup l -> NoDup (List.filter f l).
Proof. rewrite !NoDup_ListNoDup. apply List.NoDup_filter. Qed.

Section DiscoveryMore.
Context (L : Lib) (E : Env).

Lemma try_other_file_second_pass (acc : list path) (q : path) :
  DicomProcessor.try_other_file L E acc q
  = if (second_pass L E q && negb (DicomProcessor.path_in q acc))%bool
    then acc ++ [q] else acc.
Proof.
  unfold DicomProcessor.try_other_file, second_pass.
  destruct (is_file E q); cbn [andb]; [|done].
  destruct (negb _); cbn [andb]; [|done].
  destruct (DicomProcessor.dcmread L E true q); cbn [andb]; [|done].
  by destruct (DicomProcessor.path_in q acc).
Qed.

Lemma foldl_try_other_file_exact (l : list path) :
  NoDup l ->
  forall acc : list path,
    foldl (DicomProcessor.try_other_file L E) acc l
    = acc ++ List.filter
               (fun p => (second_pass L E p && negb (DicomProcessor.path_in p acc))%bool) l.
Proof.
  induction 1 as [|q l Hq Hl IH]; intros acc; simpl.
  - by rewrite app_nil_r.
  - rewrite IH, try_other_file_second_pass.
    destruct (second_pass L E q && negb (DicomProcessor.path_in q acc))%bool eqn:Hc.
    + rewrite <- app_assoc. cbn [app]. do 2 f_equal.
      apply filter_ext_in. intros p Hp. f_equal. f_equal.
      unfold DicomProcessor.path_in.
      apply bool_decide_ext. rewrite elem_of_app, list_elem_of_singleton.
      split; [intros [? | ->]; [done|]|by left].
      exfalso. apply Hq. by apply list_elem_of_In.
    + done.
Qed.

(** X11.  For a folder listing without repetitions, discovery returns the
    entries named [*.dcm], then those named [*.DCM], then, in the order of
    the listing, the other regular files with an extension outside .dcm,
    .json, .txt and .log that parse as DICOM; and it returns no path
    twice, so no instance of a folder is uploaded twice in one run. *)
Theorem discover_order (study_path : path) (st : State) (files : list path) :
  NoDup (walk E study_path) ->
  res_of (DicomProcessor.discover L E study_path st) = Ok files ->
  files = List.filter (PathLib.glob_match ".dcm") (walk E study_path)
          ++ List.filter (PathLib.glob_match ".DCM") (walk E study_path)
          ++ List.filter (fun p => (second_pass L E p && negb (globbed p))%bool)
               (walk E study_path)
  /\ NoDup files.
Proof.
  intros Hnd Hres. destruct (discover_run L E study_path st) as (_ & _ & Hf).
  rewrite (Hf _ Hres). clear Hf Hres.
  assert (Hall : forall l : list path, List.filter (fun _ : path => true) l = l).
  { induction l as [|x l IH]; [done|]. cbn [List.filter]. by rewrite IH. }
  rewrite Hall, (foldl_try_other_file_exact _ Hnd), <- app_assoc.
  assert (Hsame : List.filter
            (fun p => (second_pass L E p
                       && negb (DicomProcessor.path_in p
                                  (List.filter (PathLib.glob_match ".dcm") (walk E study_path)
                                   ++ List.filter (PathLib.glob_match ".DCM")
                                        (walk E study_path))))%bool)
            (walk E study_path)
          = List.filter (fun p => (second_pass L E p && negb (globbed p))%bool)
              (walk E study_path)).
  { apply filter_ext_in. intros p Hp. f_equal. f_equal.
    unfold DicomProcessor.path_in, globbed.
    apply list_elem_of_In in Hp.
    destruct (PathLib.glob_match ".dcm" p) eqn:H1; cbn [orb].
    - apply bool_decide_eq_true. rewrite elem_of_app, !elem_of_List_filter. by left.
    - destruct (PathLib.glob_match ".DCM" p) eqn:H2.
      + apply bool_decide_eq_true. rewrite elem_of_app, !elem_of_List_filter. by right.
      + apply bool_decide_eq_false. rewrite elem_of_app, !elem_of_List_filter.
        intros [[_ ?]|[_ ?]]; congruence. }
  rewrite Hsame. split; [done|].
  apply NoDup_app. split; [by apply NoDup_List_filter|]. split.
  - intros p Hp. rewrite elem_of_app, !elem_of_List_filter.
    apply elem_of_List_filter in Hp as [_ H1].
    intros [[_ H2]|[_ H2]].
    + by apply (globs_apart (PathLib.name p)).
    + unfold globbed in H2. rewrite H1 in H2. cbn in H2. by rewrite andb_false_r in H2.
  - apply NoDup_app. split; [by apply NoDup_List_filter|]. split; [|by apply NoDup_List_filter].
    intros p Hp. rewrite elem_of_List_filter.
    apply elem_of_List_filter in Hp as [_ H1].
    intros [_ H2]. unfold globbed in H2. rewrite H1, orb_true_r in H2. cbn in H2.
    by rewrite andb_false_r in H2.
Qed.

End DiscoveryMore.

(** ** File watcher, continued *)

Lemma submissions_app (a b : list event) :
  submissions (a ++ b) = submissions a ++ submissions b.
Proof. apply omap_app. Qed.

Lemma NoDup_fst_List_filter {A B : Type} (f : A * B -> bool) (l : list (A * B)) :
  NoDup l.*1 -> NoDup (List.filter f l).*1.
Proof.
  induction l as [|x l IH]; [done|]. cbn [fmap list_fmap List.filter].
  rewrite NoDup_cons. intros [Hx Hl]. destruct (f x); [|by apply IH].
  cbn [fmap list_fmap]. apply NoDup_cons. split; [|by apply IH].
  intros Hin. apply Hx.
  apply list_elem_of_fmap in Hin as (y & -> & Hy).
  apply elem_of_List_filter in Hy as [Hy _].
  apply list_elem_of_fmap. by exists y.
Qed.

Lemma NoDup_fst_omap {A B : Type} (g : A -> option (A * B)) (l : list A) :
  (forall k x, g k = Some x -> x.1 = k) ->
  NoDup l -> NoDup (omap g l).*1.
Proof.
  intros Hg. induction 1 as [|k l Hk Hl IH]; [constructor|].
  cbn [omap list_omap]. destruct (g k) as [x|] eqn:Hx; [|done].
  cbn [fmap list_fmap]. apply NoDup_cons. split; [|done].
  rewrite (Hg _ _ Hx). intros Hin. apply Hk.
  apply list_elem_of_fmap in Hin as (y & Hy1 & Hy).
  apply list_elem_of_omap in Hy as (k' & Hk' & Hy).
  apply Hg in Hy. by subst.
Qed.

Section WatcherMore.
Context (E : Env) (cfg : Config).

Lemma expire_fold_list (t : Z) (l : list (path * Z)) :
  forall (acc : list path) (m : gmap path Z),
    (foldl (InboxHandler.expire cfg t) (acc, m) l).1
    = acc ++ (List.filter (fun it => cooldown_seconds cfg <=? t - it.2) l).*1.
Proof.
  induction l as [|[k0 ts0] l IH]; intros acc m; simpl.
  - by rewrite app_nil_r.
  - unfold InboxHandler.expire at 2. cbn [fst snd].
    destruct (cooldown_seconds cfg <=? t - ts0); rewrite IH; [|done].
    by rewrite <- app_assoc.
Qed.

Lemma for_each_dispatch_submissions (l : list path) (st : State) :
  exists ev,
    for_each l (InboxHandler.dispatch cfg) st = (Ok tt, st, ev)
    /\ submissions ev = omap (submission cfg (fs st)) l.
Proof.
  induction l as [|k l (ev & Hrun & Hsub)]; simpl.
  - by exists [].
  - assert (H0 : exists ev0, InboxHandler.dispatch cfg k st = (Ok tt, st, ev0)
                   /\ submissions ev0 = from_option (fun x => [x]) [] (submission cfg (fs st) k)).
    { unfold InboxHandler.dispatch, submission, bind, get, log, emit. simpl.
      destruct (path_exists (fs st) k); simpl; [|by eexists].
      destruct (PathLib.relative_to k (inbox_path cfg)) as [[|c r]|]; simpl; by eexists. }
    destruct H0 as (ev0 & Hrun0 & Hsub0).
    exists (ev0 ++ ev). unfold bind. rewrite Hrun0, Hrun. split; [done|].
    rewrite submissions_app, Hsub0, Hsub.
    by destruct (submission cfg (fs st) k).
Qed.

(** A drain in full. *)
Lemma drain_run (st : State) :
  let t := clock E (ticks st) in
  exists kept promoted ev,
    InboxHandler.check_pending_folders E cfg st
    = (Ok tt, with_pending kept (with_ticks (S (ticks st)) st),
       EPendingImports (size kept) :: ev)
    /\ (forall k ts, kept !! k = Some ts <->
          pending_folders st !! k = Some ts /\ t - ts < cooldown_seconds cfg)
    /\ NoDup promoted
    /\ (forall k, k ∈ promoted <->
          exists ts, pending_folders st !! k = Some ts /\ cooldown_seconds cfg <= t - ts)
    /\ submissions ev = omap (submission cfg (fs st)) promoted.
Proof.
  intros t.
  unfold InboxHandler.check_pending_folders, bind, time_time, get, modify, emit.
  cbn [ticks with_ticks pending_folders fst snd]. fold t.
  set (r := foldl (InboxHandler.expire cfg t) ([], pending_folders st)
              (map_to_list (pending_folders st))).
  set (st2 := with_pending r.2 (with_ticks (S (ticks st)) st)).
  destruct (for_each_dispatch_submissions r.1 st2) as (ev & Hrun & Hsub).
  rewrite Hrun. exists r.2, r.1, ev. cbn [app]. split; [done|].
  split; [|split; [|split]].
  - intros k ts. unfold r.
    destruct (expire_fold_map cfg t (map_to_list (pending_folders st)) []
                (pending_folders st) k) as [Hgone Hkept].
    destruct (classic_list cfg (map_to_list (pending_folders st)) k t) as [Hd|Hd].
    + rewrite (Hgone Hd). split; [done|]. intros (Hk & Hlt).
      destruct Hd as (ts' & Hin & Hle).
      apply elem_of_map_to_list in Hin. rewrite Hk in Hin. injection Hin as <-. lia.
    + rewrite (Hkept Hd). split.
      * intros Hk. split; [done|].
        destruct (Z.lt_ge_cases (t - ts) (cooldown_seconds cfg)) as [?|Hge]; [done|].
        exfalso. apply Hd. exists ts. by rewrite elem_of_map_to_list.
      * by intros (Hk & _).
  - unfold r. rewrite expire_fold_list. cbn [app].
    apply NoDup_fst_List_filter, NoDup_fst_map_to_list.
  - intros k. unfold r. rewrite expire_fold_keys. split.
    + intros [H|(ts & H & Hts)]; [by apply elem_of_nil in H|].
      exists ts. by rewrite <- elem_of_map_to_list.
    + intros (ts & H & Hts). right. exists ts. by rewrite elem_of_map_to_list.
  - done.
Qed.

Lemma elem_of_submission (disk : FS) (l : list path) (k : path) (c : string) :
  (k, c) ∈ omap (submission cfg disk) l ->
  k ∈ l /\ submission cfg disk k = Some (k, c).
Proof.
  intros Hin. apply list_elem_of_omap in Hin as (k' & Hk' & Hs).
  assert (k' = k) as ->; [|done].
  unfold submission in Hs. destruct (path_exists disk k'); [|done].
  destruct (PathLib.relative_to k' (inbox_path cfg)) as [[|c' r]|]; by simplify_eq.
Qed.

(** X12.  A drain hands to the executor only folders that were pending
    when it started and had been so for the cooldown, each of them once,
    and it takes them out of the pending folders; it makes no folder
    pending.  So a folder that a drain has submitted is submitted by no
    drain that starts while the folder is not pending: a second submission
    needs [_handle_new_folder] to note the folder again in between, which
    it does on any later event below a folder still in the inbox
    ([noted_again_is_submitted_again] runs such a case). *)
Theorem drain_submits_pending_once (st : State) :
  let o := InboxHandler.check_pending_folders E cfg st in
  NoDup (submissions (events_of o)).*1
  /\ (forall k c, (k, c) ∈ submissions (events_of o) ->
        (exists ts, pending_folders st !! k = Some ts
                    /\ cooldown_seconds cfg <= clock E (ticks st) - ts)
        /\ pending_folders (state_of o) !! k = None)
  /\ (forall k ts, pending_folders (state_of o) !! k = Some ts ->
        pending_folders st !! k = Some ts)
  /\ (forall k c, (k, c) ∈ submissions (events_of o) ->
        forall st', pending_folders st' !! k = None ->
          forall c', (k, c') ∉ submissions
                                (events_of (InboxHandler.check_pending_folders E cfg st'))).
Proof.
  intros o. subst o.
  assert (Hsubmitted : forall (s : State) (k : path) (c : string),
            (k, c) ∈ submissions (events_of (InboxHandler.check_pending_folders E cfg s)) ->
            exists ts, pending_folders s !! k = Some ts
                       /\ cooldown_seconds cfg <= clock E (ticks s) - ts).
  { intros s k c Hin.
    destruct (drain_run s) as (kept & promoted & ev & Hrun & _ & _ & Hprom & Hsub).
    rewrite Hrun in Hin. unfold events_of in Hin. cbn [snd] in Hin.
    change (submissions (EPendingImports (size kept) :: ev)) with (submissions ev) in Hin.
    rewrite Hsub in Hin. apply elem_of_submission in Hin as [Hin _].
    by apply Hprom. }
  pose proof (Hsubmitted st) as Hfirst.
  destruct (drain_run st) as (kept & promoted & ev & Hrun & Hkept & Hnd & Hprom & Hsub).
  rewrite Hrun in Hfirst |- *.
  unfold state_of, events_of in Hfirst |- *. cbn [fst snd] in Hfirst |- *.
  change (submissions (EPendingImports (size kept) :: ev)) with (submissions ev)
    in Hfirst |- *.
  split; [|split; [|split]].
  - rewrite Hsub. apply NoDup_fst_omap; [|done]. intros k x Hx. unfold submission in Hx.
    destruct (path_exists (fs st) k); [|done].
    destruct (PathLib.relative_to k (inbox_path cfg)) as [[|c' r]|]; by simplify_eq.
  - intros k c Hin. destruct (Hfirst k c Hin) as (ts & Hk & Hle).
    split; [by exists ts|].
    cbn [pending_folders with_pending].
    destruct (kept !! k) as [ts'|] eqn:Hk'; [|done].
    apply Hkept in Hk' as [Hk' Hlt]. rewrite Hk in Hk'. injection Hk' as <-. lia.
  - intros k ts Hk. cbn [pending_folders with_pending] in Hk.
    by apply Hkept in Hk as [Hk _].
  - intros k c _ st' Hnone c' Hin2.
    apply Hsubmitted in Hin2 as (ts & Hk & _). congruence.
Qed.

(** X13.  Debouncing: a folder noted at clock reading [t0] is kept, with
    [t0], and not submitted by a drain that reads the clock at [t1] while
    [t1 - t0 < cooldown_seconds]; from [t1 - t0 = cooldown_seconds] on the
    drain removes it and, when the folder is still on disk, submits it for
    the tenant named by the first segment below the inbox. *)
Theorem noted_then_drained (seg0 seg1 : string) (rest : path) (st : State) :
  let key := inbox_path cfg // seg0 // seg1 in
  let o1 := InboxHandler._handle_new_folder E cfg
              (inbox_path cfg ++ seg0 :: seg1 :: rest) st in
  let o2 := InboxHandler.check_pending_folders E cfg (state_of o1) in
  let t0 := clock E (ticks st) in
  let t1 := clock E (S (ticks st)) in
  (t1 - t0 < cooldown_seconds cfg ->
   pending_folders (state_of o2) !! key = Some t0
   /\ forall c, (key, c) ∉ submissions (events_of o2))
  /\ (cooldown_seconds cfg <= t1 - t0 ->
      pending_folders (state_of o2) !! key = None
      /\ (path_exists (fs st) key = true -> seg0 <> "" ->
          (key, seg0) ∈ submissions (events_of o2))
      /\ (path_exists (fs st) key = false ->
          forall c, (key, c) ∉ submissions (events_of o2))).
Proof.
  intros key o1 o2 t0 t1. subst o1 o2.
  rewrite handle_new_folder_study. cbv zeta. fold key. fold t0.
  unfold state_of, events_of. cbn [fst snd].
  set (st1 := with_pending _ _).
  destruct (drain_run st1) as (kept & promoted & ev & -> & Hkept & Hnd & Hprom & Hsub).
  cbn [fst snd pending_folders with_pending].
  change (submissions (EPendingImports (size kept) :: ev)) with (submissions ev).
  change (clock E (ticks st1)) with t1 in Hkept, Hprom.
  change (fs st1) with (fs st) in Hsub.
  assert (Hkey : pending_folders st1 !! key = Some t0).
  { unfold st1. cbn [pending_folders with_pending]. apply lookup_insert_eq. }
  rewrite Hsub. split.
  - intros Hlt. split.
    + apply Hkept. done.
    + intros c Hin. apply elem_of_submission in Hin as [Hin _].
      apply Hprom in Hin as (ts & Hk & Hle). rewrite Hkey in Hk. injection Hk as <-. lia.
  - intros Hle. split; [|split].
    + destruct (kept !! key) as [ts|] eqn:Hk; [|done].
      apply Hkept in Hk as [Hk Hlt]. rewrite Hkey in Hk. injection Hk as <-. lia.
    + intros Hex Hseg0. apply list_elem_of_omap. exists key. split.
      * apply Hprom. by exists t0.
      * unfold submission. rewrite Hex. unfold key.
        rewrite (joinpath_nonempty _ seg0) by done.
        destruct seg1 as [|c1 r1]; cbn [PathLib.joinpath].
        -- by rewrite relative_to_app.
        -- by rewrite <- app_assoc, relative_to_app.
    + intros Hex c Hin. apply elem_of_submission in Hin as [_ Hs].
      unfold submission in Hs. by rewrite Hex in Hs.
Qed.

(** X14.  What the observer's events do.  A file created or modified
    anywhere below a study folder, and a directory created at or below
    one, note that study folder: the entry [{inbox}/{seg0}/{seg1}] gets
    the clock reading of the event.  A file directly in a tenant's
    directory, a directory created directly below the inbox and the
    modification of a directory change nothing. *)
Theorem events_note_the_study_folder (seg0 seg1 f : string) (rest : path) (st : State) :
  let below := inbox_path cfg ++ seg0 :: seg1 :: rest in
  let noted o :=
    res_of o = Ok tt
    /\ pending_folders (state_of o)
       = <[inbox_path cfg // seg0 // seg1 := clock E (ticks st)]> (pending_folders st) in
  noted (InboxHandler.on_created E cfg (FileCreatedEvent (below ++ [f])) st)
  /\ noted (InboxHandler.on_modified E cfg (FileModifiedEvent (below ++ [f])) st)
  /\ noted (InboxHandler.on_created E cfg (DirCreatedEvent below) st)
  /\ InboxHandler.on_created E cfg (FileCreatedEvent (inbox_path cfg ++ [seg0; f])) st
     = (Ok tt, st, [])
  /\ InboxHandler.on_modified E cfg (FileModifiedEvent (inbox_path cfg ++ [seg0; f])) st
     = (Ok tt, st, [])
  /\ InboxHandler.on_created E cfg (DirCreatedEvent (inbox_path cfg ++ [seg0])) st
     = (Ok tt, st, [])
  /\ forall p, InboxHandler.on_modified E cfg (DirModifiedEvent p) st = (Ok tt, st, []).
Proof.
  intros below noted. subst below noted. cbv beta.
  unfold InboxHandler.on_created, InboxHandler.on_modified.
  cbn [is_directory src_path negb].
  assert (Hparent : forall (l : path) (x : string), PathLib.parent (l ++ [x]) = l).
  { intros l x. unfold PathLib.parent. apply removelast_last. }
  rewrite Hparent, handle_new_folder_study.
  change (inbox_path cfg ++ [seg0; f]) with (inbox_path cfg ++ [seg0] ++ [f]).
  rewrite app_assoc, Hparent.
  assert (Hshort : InboxHandler._handle_new_folder E cfg (inbox_path cfg ++ [seg0]) st
                   = (Ok tt, st, [])).
  { unfold InboxHandler._handle_new_folder. by rewrite relative_to_app. }
  rewrite Hshort. done.
Qed.

Lemma for_each_dispatch_gauge (l : list path) (st : State) :
  pending_gauge (events_of (for_each l (InboxHandler.dispatch cfg) st)) = [].
Proof.
  induction l as [|k l IH]; [done|]. cbn [for_each].
  assert (H0 : exists ev0, InboxHandler.dispatch cfg k st = (Ok tt, st, ev0)
                 /\ pending_gauge ev0 = []).
  { unfold InboxHandler.dispatch, bind, get, log, emit. simpl.
    destruct (path_exists (fs st) k); simpl; [|by eexists].
    destruct (PathLib.relative_to k (inbox_path cfg)) as [[|c r]|]; simpl; by eexists. }
  destruct H0 as (ev0 & Hrun0 & Hg0).
  unfold bind. rewrite Hrun0.
  destruct (for_each l (InboxHandler.dispatch cfg) st) as [[r s2] ev2].
  unfold events_of in *. cbn [fst snd] in *.
  unfold pending_gauge in *. by rewrite omap_app, Hg0, IH.
Qed.

(** X19.  The gauge of pending imports follows the map: each call that
    notes a study folder, and each drain, sets it once, to the number of
    folders pending when the call ends; a call of [_handle_new_folder]
    on a path that names no study folder does not set it. *)
Theorem pending_gauge_follows_the_map (st : State) :
  (forall seg0 seg1 rest,
     let o := InboxHandler._handle_new_folder E cfg
                (inbox_path cfg ++ seg0 :: seg1 :: rest) st in
     pending_gauge (events_of o) = [size (pending_folders (state_of o))])
  /\ (forall p,
        (exists seg0 seg1 rest, p = inbox_path cfg ++ seg0 :: seg1 :: rest)
        \/ pending_gauge (events_of (InboxHandler._handle_new_folder E cfg p st)) = [])
  /\ (let o := InboxHandler.check_pending_folders E cfg st in
      pending_gauge (events_of o) = [size (pending_folders (state_of o))]).
Proof.
  split; [|split].
  - intros seg0 seg1 rest o. subst o. by rewrite handle_new_folder_study.
  - intros p. destruct (handle_new_folder_ignored E cfg p st) as [? | ->]; [by left|by right].
  - cbv zeta.
    unfold InboxHandler.check_pending_folders, bind, time_time, get, modify, emit.
    cbn [ticks with_ticks pending_folders fst snd].
    set (r := foldl _ _ _).
    set (st2 := with_pending r.2 (with_ticks (S (ticks st)) st)).
    pose proof (for_each_dispatch_gauge r.1 st2) as Hg.
    destruct (for_each_dispatch_submissions r.1 st2) as (ev & Hrun & _).
    rewrite Hrun in Hg |- *. unfold state_of, events_of in *. cbn [fst snd app] in *.
    unfold st2. cbn [pending_folders with_pending].
    change (pending_gauge (EPendingImports (size r.2) :: ev))
      with (size r.2 :: pending_gauge ev).
    by rewrite Hg.
Qed.

End WatcherMore.

(** ** The two moves, continued *)

Section MoveMore.
Context (E : Env) (cfg : Config).

(** [mkdir] keeps every entry. *)
Lemma make_dirs_keep (l : list path) (m : FS) (q : path) (n : node) :
  m !! q = Some n -> foldr make_dir m l !! q = Some n.
Proof.
  intros Hq. destruct (foldr_make_dir_lookup l m q) as [->|(Hn & _)]; congruence.
Qed.

Lemma rename_entry_keeps_dirs (src : path) (n : node) (real_dst : path)
    (st : State) (q : path) :
  q <> src -> fs st !! q = Some Dir ->
  fs (state_of (rename_entry src n real_dst st)) !! q = Some Dir.
Proof.
  intros Hq Hdir.
  cbv beta iota zeta delta [rename_entry bind get modify ret raise state_of].
  case_bool_decide; [done|].
  destruct (fs st !! real_dst) as [[|c]|] eqn:Hreal; [done| |].
  - destruct n; [done|]. cbn [fst snd fs with_fs].
    rewrite lookup_insert_ne by congruence. by rewrite lookup_delete_ne.
  - cbn [fst snd fs with_fs].
    rewrite lookup_insert_ne by congruence. by rewrite lookup_delete_ne.
Qed.

(** [shutil.move] never replaces or removes a directory other than the
    one it moves. *)
Lemma shutil_move_keeps_dirs (src dst : path) (st : State) (q : path) :
  q <> src -> fs st !! q = Some Dir ->
  fs (state_of (shutil_move E src dst st)) !! q = Some Dir.
Proof.
  intros Hq Hdir.
  cbv beta iota zeta delta [shutil_move bind io_step get ret raise].
  destruct (fs_fault E (io_ops st)); [done|].
  set (st1 := with_io_ops (S (io_ops st)) st).
  change (fs st1) with (fs st).
  assert (Hgo : forall real : path,
            fs (state_of (let '(r, s2, ev2) :=
                            let '(r, s2, ev2) := rename_entry src
                                                   (default Dir (fs st !! src)) real st1 in
                            (r, s2, [] ++ ev2) in (r, s2, [] ++ ev2))) !! q = Some Dir).
  { intros real.
    pose proof (rename_entry_keeps_dirs src (default Dir (fs st !! src)) real st1 q Hq Hdir)
      as H.
    by destruct (rename_entry src _ real st1) as [[r s2] ev2]. }
  destruct (fs st !! src) as [n|] eqn:Hsrc; [|done].
  case_bool_decide as Heq; [done|].
  destruct (is_dir (fs st) dst).
  - destruct (path_exists (fs st) (dst // PathLib.name src)); [done|]. apply Hgo.
  - apply Hgo.
Qed.

Lemma dated_destination_keeps (root study_path : path) (clinic_id : string)
    (st : State) (q : path) (n : node) :
  fs st !! q = Some n ->
  fs (state_of (DicomProcessor.dated_destination E root study_path clinic_id st)) !! q
  = Some n.
Proof.
  intros Hq.
  destruct (DicomProcessor.dated_destination E root study_path clinic_id st)
    as [[r s'] ev] eqn:Hrun.
  apply dated_destination_run in Hrun as [_ Hrun]. cbn [state_of fst snd].
  destruct r as [dest|e]; [|congruence].
  destruct Hrun as (ymd & -> & _). by apply make_dirs_keep.
Qed.

(** X15.  Neither move ever replaces or removes a directory other than
    the study folder it is moving: whatever was archived or quarantined
    before is still there afterwards, whether the move completes or
    raises. *)
Theorem moves_keep_other_directories (study_path : path) (clinic_id reason : string)
    (errs : option (list file_error)) (st : State) (q : path) :
  let p := DicomProcessor._move_to_processed E cfg study_path clinic_id st in
  let f := DicomProcessor._move_to_failed E cfg study_path clinic_id reason errs st in
  (q <> study_path /\ fs st !! q = Some Dir ->
   fs (state_of p) !! q = Some Dir)
  /\ (q <> study_path /\ fs st !! q = Some Dir ->
      fs (state_of f) !! q = Some Dir).
Proof.
  intros p f. subst p f.
  assert (Hmove : forall root s1 dest s2 r2 e2,
            fs st !! q = Some Dir -> q <> study_path ->
            (exists r1 e1, DicomProcessor.dated_destination E root study_path clinic_id st
                           = (r1, s1, e1)) ->
            shutil_move E study_path dest s1 = (r2, s2, e2) ->
            fs s2 !! q = Some Dir).
  { intros root s1 dest s2 r2 e2 Hdir Hq (r1 & e1 & H1) H2.
    pose proof (dated_destination_keeps root study_path clinic_id st q Dir Hdir) as Hk.
    rewrite H1 in Hk. cbn [state_of fst snd] in Hk.
    pose proof (shutil_move_keeps_dirs study_path dest s1 q Hq Hk) as Hm.
    by rewrite H2 in Hm. }
  split; intros [Hq Hdir].
  - destruct (DicomProcessor._move_to_processed E cfg study_path clinic_id st)
      as [[r s'] ev] eqn:Hrun.
    cbn [state_of fst snd]. unfold DicomProcessor._move_to_processed in Hrun.
    apply bind_inv in Hrun as [(dest & s1 & e1 & e2 & H1 & Hrun & ->)|(e & H1 & ->)].
    2:{ pose proof (dated_destination_keeps (processed_path cfg) study_path clinic_id
                      st q Dir Hdir) as Hk.
        by rewrite H1 in Hk. }
    apply bind_inv in Hrun as [([] & s2 & e2' & e3 & H2 & Hrun & ->)|(e & H2 & ->)].
    + injection Hrun as _ <- _. eapply Hmove; eauto.
    + eapply Hmove; eauto.
  - destruct (DicomProcessor._move_to_failed E cfg study_path clinic_id reason errs st)
      as [[r s'] ev] eqn:Hrun.
    cbn [state_of fst snd]. unfold DicomProcessor._move_to_failed in Hrun.
    apply bind_inv in Hrun as [(dest & s1 & e1 & e2 & H1 & Hrun & ->)|(e & H1 & ->)].
    2:{ pose proof (dated_destination_keeps (failed_path cfg) study_path clinic_id
                      st q Dir Hdir) as Hk.
        by rewrite H1 in Hk. }
    apply bind_inv in Hrun as [([] & s2 & e2' & e3 & H2 & Hrun & ->)|(e & H2 & ->)];
      [|eapply Hmove; eauto].
    assert (Hs2 : fs s2 !! q = Some Dir) by (eapply Hmove; eauto).
    apply bind_inv in Hrun as [(dt & s3 & e3' & e4 & H3 & Hrun & ->)|(e & H3 & _)];
      [|discriminate H3].
    injection H3 as <- <- <-.
    apply bind_inv in Hrun as [([] & s4 & e4' & e5 & H4 & Hrun & ->)|(e & H4 & ->)];
      match type of H4 with
      | write_json E ?p ?rec ?s = _ =>
          pose proof (write_json_run E p rec s) as Hw;
          assert (Hnd : res_of (write_json E p rec s) = Ok tt -> is_dir (fs s) p = false)
      end;
      try (cbv beta iota zeta delta
             [write_json bind io_step get modify raise ret res_of];
           destruct (fs_fault E _); [done|]; cbn [fst snd fs with_io_ops];
           by destruct (is_dir _ _));
      cbv zeta in Hw; rewrite H4 in Hw, Hnd;
      unfold res_of, state_of, events_of in Hw, Hnd; cbn [fst snd] in Hw, Hnd;
      destruct Hw as [_ Hw]; change (fs (with_ticks _ s2)) with (fs s2) in Hw, Hnd.
    + injection Hrun as _ <- _. rewrite Hw.
      rewrite lookup_insert_ne; [done|]. intros <-.
      specialize (Hnd eq_refl). unfold is_dir in Hnd. by rewrite Hs2 in Hnd.
    + by rewrite Hw.
Qed.

Lemma rename_entry_exact (src : path) (n : node) (real_dst : path)
    (st s' : State) (ev : list event) :
  rename_entry src n real_dst st = (Ok tt, s', ev) ->
  fs s' = <[real_dst := n]> (delete src (fs st))
  /\ (n = Dir -> fs st !! real_dst = None)
  /\ ~ src `prefix_of` real_dst.
Proof.
  cbv beta iota zeta delta [rename_entry bind get modify ret raise].
  case_bool_decide; [done|].
  destruct (fs st !! real_dst) as [[|c]|] eqn:Hreal; [done| |].
  - destruct n; [done|]. by intros [= <- _].
  - by intros [= <- _].
Qed.

(** A completed [shutil.move] between different paths: into the
    destination when that is a directory, onto it otherwise. *)
Lemma shutil_move_exact (src dst : path) (st s' : State) (ev : list event) :
  shutil_move E src dst st = (Ok tt, s', ev) -> src <> dst ->
  let real_dst := if is_dir (fs st) dst then dst // PathLib.name src else dst in
  exists n,
    fs st !! src = Some n
    /\ fs s' = <[real_dst := n]> (delete src (fs st))
    /\ (n = Dir -> fs st !! real_dst = None)
    /\ ~ src `prefix_of` real_dst.
Proof.
  intros Hrun Hne real_dst. subst real_dst. revert Hrun.
  cbv beta iota zeta delta [shutil_move bind io_step get ret raise].
  destruct (fs_fault E (io_ops st)); [done|].
  set (st1 := with_io_ops (S (io_ops st)) st).
  change (fs st1) with (fs st).
  destruct (fs st !! src) as [n|] eqn:Hsrc; [|done].
  case_bool_decide as Heq; [done|].
  assert (Hgo : forall real : path,
            (let '(r, s2, ev2) :=
               let '(r, s2, ev2) := rename_entry src n real st1 in
               (r, s2, [] ++ ev2) in (r, s2, [] ++ ev2)) = (Ok tt, s', ev) ->
            exists n0, Some n = Some n0
              /\ fs s' = <[real := n0]> (delete src (fs st))
              /\ (n0 = Dir -> fs st !! real = None)
              /\ ~ src `prefix_of` real).
  { intros real H.
    destruct (rename_entry src n real st1) as [[r s2] ev2] eqn:Hr.
    injection H as -> -> _. apply rename_entry_exact in Hr. by exists n. }
  destruct (is_dir (fs st) dst).
  - destruct (path_exists (fs st) (dst // PathLib.name src)); [done|]. apply Hgo.
  - apply Hgo.
Qed.

(** Where the dated destination lies: under the plain name when that is
    free once the dated directory exists, under the name with the time
    appended when it is taken. *)
Lemma dated_destination_exact (root study_path : path) (clinic_id : string)
    (st s' : State) (dest : path) (ev : list event) :
  DicomProcessor.dated_destination E root study_path clinic_id st = (Ok dest, s', ev) ->
  let dest_dir := root // clinic_id // dt_ymd (datetime_now E (ticks st)) in
  let plain := dest_dir // PathLib.name study_path in
  fs s' = foldr make_dir (fs st) (ancestors dest_dir)
  /\ dest = (if path_exists (fs s') plain
             then dest_dir // (PathLib.name study_path +:+ "_"
                               +:+ dt_hms (datetime_now E (S (ticks st))))
             else plain).
Proof.
  cbv beta iota zeta delta
    [DicomProcessor.dated_destination mkdir_parents bind now io_step get modify raise ret].
  cbn [io_ops with_ticks fs ticks].
  destruct (fs_fault E (io_ops st)); [done|]. cbn [fst snd fs with_io_ops with_ticks].
  destruct (existsb _ _); [done|]. cbn [fst snd fs with_fs with_io_ops with_ticks ticks].
  destruct (path_exists _ _) eqn:Hex; cbn [fst snd fs with_fs with_io_ops with_ticks ticks];
    intros [= <- <- _]; cbn [fs with_fs with_ticks]; by rewrite ?Hex.
Qed.

Lemma below_not_ancestor (d : path) (x : string) (r : path) (m : FS) :
  foldr make_dir m (ancestors d) !! (d ++ x :: r) = m !! (d ++ x :: r).
Proof.
  destruct (foldr_make_dir_lookup (ancestors d) m (d ++ x :: r)) as [->|(_ & _ & Hin)];
    [done|].
  apply ancestors_prefix in Hin as [k Hk].
  apply (f_equal length) in Hk. rewrite !length_app in Hk. cbn in Hk. lia.
Qed.

(** X16.  Where a completed archive puts a study folder, on the day and
    at the time the clock shows: at
    [{processed}/{clinic}/{YYYY-MM-DD}/{name}] when that name is free; when
    it is taken, at [{name}_{HHMMSS}] beside it, or, should that exist as a
    directory too, inside that directory.  The folder has left its inbox
    path. *)
Theorem archive_destination (study_path : path) (clinic_id : string) (st : State) :
  let o := DicomProcessor._move_to_processed E cfg study_path clinic_id st in
  let dest_dir := processed_path cfg // clinic_id // dt_ymd (datetime_now E (ticks st)) in
  let plain := dest_dir // PathLib.name study_path in
  let stamped := dest_dir // (PathLib.name study_path +:+ "_"
                              +:+ dt_hms (datetime_now E (S (ticks st)))) in
  res_of o = Ok tt ->
  fs st !! study_path = Some Dir ->
  PathLib.name study_path <> "" ->
  fs (state_of o) !! study_path = None
  /\ match fs st !! plain, fs st !! stamped with
     | None, _ => fs (state_of o) !! plain = Some Dir
     | Some _, None => fs (state_of o) !! stamped = Some Dir
     | Some _, Some _ =>
         fs st !! stamped = Some Dir
         /\ fs (state_of o) !! (stamped // PathLib.name study_path) = Some Dir
     end.
Proof.
  intros o dest_dir plain stamped Hres Hsrc Hname. subst o.
  destruct (DicomProcessor._move_to_processed E cfg study_path clinic_id st)
    as [[r s'] ev] eqn:Hrun.
  cbn [res_of state_of fst snd] in *. subst r.
  unfold DicomProcessor._move_to_processed in Hrun.
  apply bind_inv in Hrun as [(dest & s1 & e1 & e2 & H1 & Hrun & ->)|(e & H1 & [=])].
  apply dated_destination_exact in H1 as [Hmade Hdest]. fold dest_dir in Hmade, Hdest.
  fold plain in Hdest. fold stamped in Hdest.
  apply bind_inv in Hrun as [([] & s2 & e2' & e3 & H2 & Hrun & ->)|(e & H2 & [=])].
  injection Hrun as <- _.
  assert (Hplain : plain = dest_dir ++ [PathLib.name study_path]).
  { unfold plain. by apply joinpath_nonempty. }
  assert (Hstamped : stamped = dest_dir ++ [PathLib.name study_path +:+ "_"
                                            +:+ dt_hms (datetime_now E (S (ticks st)))]).
  { unfold stamped. apply joinpath_nonempty, suffixed_nonempty. }
  assert (Hinside : stamped // PathLib.name study_path
                    = dest_dir ++ [PathLib.name study_path +:+ "_"
                                   +:+ dt_hms (datetime_now E (S (ticks st)));
                                   PathLib.name study_path]).
  { rewrite Hstamped, joinpath_nonempty by done. by rewrite <- app_assoc. }
  assert (Hm1 : fs s1 !! plain = fs st !! plain).
  { rewrite Hmade, Hplain. apply below_not_ancestor. }
  assert (Hm2 : fs s1 !! stamped = fs st !! stamped).
  { rewrite Hmade, Hstamped. apply below_not_ancestor. }
  assert (Hm3 : fs s1 !! study_path = Some Dir).
  { rewrite Hmade. by apply make_dirs_keep. }
  assert (Hne : study_path <> dest).
  { intros Heq. rewrite Hdest in Heq. unfold path_exists in Heq.
    destruct (fs s1 !! plain) as [x|] eqn:Hp.
    - apply (f_equal PathLib.name) in Heq. unfold stamped in Heq.
      rewrite name_joinpath in Heq by apply suffixed_nonempty.
      pose proof (suffixed_longer (PathLib.name study_path)
                    (dt_hms (datetime_now E (S (ticks st))))) as Hl.
      rewrite <- Heq in Hl. lia.
    - rewrite <- Heq in Hp. congruence. }
  apply shutil_move_exact in H2 as (n & Hn & Hafter & Hfree & Hnp); [|done].
  rewrite Hm3 in Hn. injection Hn as <-. specialize (Hfree eq_refl).
  rewrite Hafter. split.
  { rewrite lookup_insert_ne; [apply lookup_delete_eq|].
    intros Heq. rewrite Heq in Hfree. congruence. }
  revert Hfree Hnp. rewrite Hdest. unfold path_exists, is_dir. rewrite Hm1.
  destruct (fs st !! plain) as [x|] eqn:Hp.
  - rewrite Hm2. destruct (fs st !! stamped) as [[|c]|] eqn:Hs.
    + intros _ _. split; [done|]. apply lookup_insert_eq.
    + intros Hfree. congruence.
    + intros _ _. apply lookup_insert_eq.
  - rewrite Hm1. intros _ _. apply lookup_insert_eq.
Qed.

(** X17.  Quarantining a folder that is not there raises, and leaves no
    error record behind: no file is written, the dated directory is all
    that may have been created. *)
Theorem quarantine_of_missing_folder (study_path : path) (clinic_id reason : string)
    (errs : option (list file_error)) (st : State) :
  let o := DicomProcessor._move_to_failed E cfg study_path clinic_id reason errs st in
  fs st !! study_path = None ->
  (exists e, res_of o = Raise e)
  /\ forall q n, fs (state_of o) !! q = Some n -> fs st !! q = Some n \/ n = Dir.
Proof.
  intros o Hmissing. subst o.
  destruct (DicomProcessor._move_to_failed E cfg study_path clinic_id reason errs st)
    as [[r s'] ev] eqn:Hrun.
  cbn [res_of state_of fst snd].
  unfold DicomProcessor._move_to_failed in Hrun.
  apply bind_inv in Hrun as [(dest & s1 & e1 & e2 & H1 & Hrun & ->)|(e & H1 & ->)].
  2:{ apply dated_destination_run in H1 as [_ H1]. split; [by eauto|].
      intros q n. rewrite H1. by left. }
  pose proof H1 as H1'.
  apply dated_destination_exact in H1 as [Hmade Hdest].
  apply dated_destination_run in H1' as [_ (ymd' & _ & Hshape)].
  set (dest_dir := failed_path cfg // clinic_id // dt_ymd (datetime_now E (ticks st))) in *.
  assert (Hkeep : forall q n, fs s1 !! q = Some n -> fs st !! q = Some n \/ n = Dir).
  { intros q n. rewrite Hmade.
    destruct (foldr_make_dir_lookup (ancestors dest_dir) (fs st) q)
      as [->|(_ & -> & _)]; [by left|]. intros [= <-]. by right. }
  assert (Hraise : exists e, shutil_move E study_path dest s1
                               = (Raise e, state_of (shutil_move E study_path dest s1),
                                  events_of (shutil_move E study_path dest s1))).
  { destruct (shutil_move E study_path dest s1) as [[[[]|e] s2] e2'] eqn:H2;
      [|by exists e].
    exfalso.
    assert (Hlen : (length dest_dir < length dest)%nat
                   \/ (dest = dest_dir /\ path_exists (fs s1) dest = false)).
    { rewrite Hdest. destruct (path_exists (fs s1) _) eqn:Hex.
      - left. rewrite joinpath_nonempty by apply suffixed_nonempty.
        rewrite length_app. cbn. lia.
      - destruct (PathLib.name study_path) as [|c r0] eqn:Hn.
        + right. done.
        + left. rewrite joinpath_nonempty by done. rewrite length_app. cbn. lia. }
    destruct (foldr_make_dir_lookup (ancestors dest_dir) (fs st) study_path)
      as [Hsame|(_ & Hnew & Hanc)]; rewrite <- Hmade in *.
    - rewrite Hmissing in Hsame.
      revert H2. cbv beta iota zeta delta [shutil_move bind io_step get ret raise].
      destruct (fs_fault E (io_ops s1)); [done|].
      change (fs (with_io_ops (S (io_ops s1)) s1)) with (fs s1). by rewrite Hsame.
    - apply ancestors_prefix in Hanc.
      assert (Hne : study_path <> dest).
      { intros ->. destruct Hlen as [Hlen|[_ Hex]].
        - destruct Hanc as [k Hk]. apply (f_equal length) in Hk.
          rewrite length_app in Hk. lia.
        - unfold path_exists in Hex. by rewrite Hnew in Hex. }
      apply shutil_move_exact in H2 as (n & _ & _ & _ & Hnp); [|done].
      apply Hnp. etrans; [exact Hanc|].
      assert (Hpd : dest_dir `prefix_of` dest).
      { rewrite Hdest. destruct (path_exists (fs s1) _); apply joinpath_prefix. }
      etrans; [exact Hpd|].
      destruct (is_dir (fs s1) dest); [apply joinpath_prefix|done]. }
  destruct Hraise as (e & Hraise).
  apply bind_inv in Hrun as [([] & s2 & e2' & e3 & H2 & _)|(e' & H2 & ->)];
    [rewrite Hraise in H2; discriminate H2|].
  split; [by eauto|].
  pose proof (shutil_move_run E study_path dest s1) as Hm.
  cbv zeta in Hm. rewrite H2 in Hm.
  unfold res_of, state_of, events_of in Hm. cbn [fst snd] in Hm.
  destruct Hm as [_ Hm]. rewrite Hm. exact Hkeep.
Qed.

End MoveMore.

(** ** The scan at startup *)

Lemma is_dir_is_Some (disk : FS) (q : path) : is_dir disk q = true -> is_Some (disk !! q).
Proof. unfold is_dir. destruct (disk !! q); [by eexists|done]. Qed.

Section MainProps.
Context (E : Env) (cfg : Config).

Lemma scanned_refl (disk : FS) (st : State) : scanned E cfg disk st st.
Proof. split; [done|]. split; [done|]. intros k. by left. Qed.

Lemma scanned_trans (disk : FS) (st1 st2 st3 : State) :
  scanned E cfg disk st1 st2 -> scanned E cfg disk st2 st3 -> scanned E cfg disk st1 st3.
Proof.
  intros (Hfs1 & Ht1 & Hp1) (Hfs2 & Ht2 & Hp2).
  split; [congruence|]. split; [lia|]. intros k.
  destruct (Hp2 k) as [Hsame|(c & s & n & -> & Hc & Hs & Hn & Hk)].
  - destruct (Hp1 k) as [Hsame1|(c & s & n & -> & Hc & Hs & Hn & Hk)].
    + left. congruence.
    + right. exists c, s, n. split; [done|]. split; [done|]. split; [done|].
      split; [lia|congruence].
  - right. exists c, s, n. split; [done|]. split; [done|]. split; [done|].
    split; [lia|done].
Qed.

Lemma noted_since_scanned (disk : FS) (t0 : nat) (c s : string) (st st' : State) :
  (t0 <= ticks st)%nat ->
  noted_since E cfg t0 c s st -> scanned E cfg disk st st' ->
  noted_since E cfg t0 c s st'.
Proof.
  intros Ht0 (n & Hn & Hk) (_ & Ht & Hp).
  destruct (Hp (inbox_path cfg // c // s)) as [Hsame|(c' & s' & n' & _ & _ & _ & Hn' & Hk')].
  - exists n. split; [lia|congruence].
  - exists n'. split; [lia|done].
Qed.

Lemma iterdir_run (p : path) (st s' : State) (r : Res (list path)) (ev : list event) :
  Main.iterdir E p st = (r, s', ev) ->
  ev = [] /\ fs s' = fs st /\ ticks s' = ticks st
  /\ pending_folders s' = pending_folders st
  /\ forall l, r = Ok l ->
       fs st !! p = Some Dir
       /\ forall q, q ∈ l <-> is_Some (fs st !! q) /\ exists x, q = p ++ [x].
Proof.
  cbv beta iota zeta delta [Main.iterdir bind io_step get raise ret].
  destruct (fs_fault E (io_ops st)); [by intros [= <- <- <-]|].
  cbn [fst snd fs with_io_ops].
  destruct (fs st !! p) as [[|c]|] eqn:Hp; intros [= <- <- <-];
    (split; [done|]); (split; [done|]); (split; [done|]); (split; [done|]);
    intros l [= <-].
  split; [done|]. intros q.
  rewrite elem_of_List_filter, list_elem_of_fmap. unfold Main.is_child. split.
  - intros [([q' n] & -> & Hin) Hchild]. cbn [fst] in *.
    apply elem_of_map_to_list in Hin. apply bool_decide_eq_true in Hchild as [Hne Hpar].
    split; [by eexists|]. exists (List.last q' ""). subst p.
    unfold PathLib.parent. by apply app_removelast_last.
  - intros [[n Hn] [x ->]]. split.
    + exists (p ++ [x], n). split; [done|]. by apply elem_of_map_to_list.
    + apply bool_decide_eq_true. split; [by destruct p|].
      unfold PathLib.parent. apply removelast_last.
Qed.

(** One study folder of the scan. *)
Lemma scan_study_run (disk : FS) (c s : string) (st : State) :
  fs st = disk ->
  is_dir disk (inbox_path cfg ++ [c]) = true ->
  exists st' ev,
    Main.scan_study E cfg (inbox_path cfg ++ [c; s]) st = (Ok tt, st', ev)
    /\ scanned E cfg disk st st'
    /\ (is_dir disk (inbox_path cfg ++ [c; s]) = true ->
        noted_since E cfg (ticks st) c s st').
Proof.
  intros Hdisk Hc.
  cbv beta iota zeta delta [Main.scan_study bind get ret]. rewrite Hdisk.
  destruct (is_dir disk (inbox_path cfg ++ [c; s])) eqn:Hs.
  - rewrite (handle_new_folder_study E cfg c s [] st). cbv zeta.
    eexists _, _. split; [reflexivity|]. split.
    + split; [done|]. split; [cbn; lia|]. intros k. cbn [pending_folders with_pending].
      destruct (decide (k = inbox_path cfg // c // s)) as [->|Hne].
      * right. exists c, s, (ticks st). rewrite lookup_insert_eq. cbn [ticks with_ticks with_pending].
        repeat split; try done; lia.
      * left. by rewrite lookup_insert_ne.
    + intros _. exists (ticks st). cbn [pending_folders with_pending ticks with_ticks].
      rewrite lookup_insert_eq. split; [lia|done].
  - eexists _, _. split; [reflexivity|]. split; [apply scanned_refl|done].
Qed.

(** The study folders of one clinic. *)
Lemma scan_studies_run (disk : FS) (c : string) (studies : list path) :
  is_dir disk (inbox_path cfg ++ [c]) = true ->
  (forall q, q ∈ studies -> exists s, q = inbox_path cfg ++ [c; s]) ->
  forall st, fs st = disk ->
    exists st' ev,
      for_each studies (Main.scan_study E cfg) st = (Ok tt, st', ev)
      /\ scanned E cfg disk st st'
      /\ forall s, inbox_path cfg ++ [c; s] ∈ studies ->
           is_dir disk (inbox_path cfg ++ [c; s]) = true ->
           noted_since E cfg (ticks st) c s st'.
Proof.
  intros Hc. induction studies as [|q studies IH]; intros Hshape st Hdisk.
  - exists st, []. split; [done|]. split; [apply scanned_refl|].
    intros s H. by apply elem_of_nil in H.
  - destruct (Hshape q) as [s0 ->]; [left|].
    destruct (scan_study_run disk c s0 st Hdisk Hc) as (st1 & ev1 & Hrun1 & Hsc1 & Hnoted1).
    destruct (IH (fun q Hq => Hshape q (list_elem_of_further _ _ _ Hq)) st1)
      as (st2 & ev2 & Hrun2 & Hsc2 & Hnoted2).
    { destruct Hsc1 as (-> & _). done. }
    exists st2, (ev1 ++ ev2). cbn [for_each]. unfold bind. rewrite Hrun1, Hrun2.
    split; [done|]. split; [by eapply scanned_trans|].
    pose proof Hsc1 as (_ & Ht1 & _).
    intros s Hin Hs.
    destruct (decide (s = s0)) as [->|Hne].
    + eapply noted_since_scanned; [|by apply Hnoted1|exact Hsc2]. done.
    + apply elem_of_cons in Hin as [Heq|Hin].
      * apply app_inv_head in Heq. congruence.
      * destruct (Hnoted2 s Hin Hs) as (n & Hn & Hk). exists n. split; [lia|done].
Qed.

(** One clinic directory of the scan. *)
Lemma scan_clinic_run (disk : FS) (c : string) (st s' : State) (r : Res unit)
    (ev : list event) :
  fs st = disk ->
  Main.scan_clinic E cfg (inbox_path cfg ++ [c]) st = (r, s', ev) ->
  scanned E cfg disk st s'
  /\ (r = Ok tt -> is_dir disk (inbox_path cfg ++ [c]) = true ->
      forall s, is_dir disk (inbox_path cfg ++ [c; s]) = true ->
        noted_since E cfg (ticks st) c s s').
Proof.
  intros Hdisk. unfold Main.scan_clinic. unfold bind at 1. unfold get at 1.
  cbv beta iota. rewrite Hdisk.
  destruct (is_dir disk (inbox_path cfg ++ [c])) eqn:Hc.
  2:{ intros H. assert (s' = st) as ->.
      { destruct (ret tt st) as [[? ?] ?] eqn:Hr. unfold ret in Hr.
        injection Hr as <- <- <-. by injection H as _ <- _. }
      split; [apply scanned_refl|done]. }
  intros H.
  assert (Hrun : (studies <- Main.iterdir E (inbox_path cfg ++ [c]) ;;
                  for_each studies (Main.scan_study E cfg)) st = (r, s', ev)).
  { destruct ((studies <- Main.iterdir E (inbox_path cfg ++ [c]) ;;
               for_each studies (Main.scan_study E cfg)) st) as [[r0 s0] ev0].
    by injection H as <- <- <-. }
  clear H.
  apply bind_inv in Hrun as [(studies & s1 & e1 & e2 & H1 & Hrun & ->)|(e & H1 & ->)];
    apply iterdir_run in H1 as (-> & Hfs1 & Ht1 & Hp1 & Hlist).
  - destruct (Hlist studies eq_refl) as [_ Hmem].
    destruct (scan_studies_run disk c studies Hc) with (st := s1)
      as (st2 & ev2 & Hrun2 & Hsc2 & Hnoted2).
    { intros q Hq. apply Hmem in Hq as [_ [x ->]]. exists x. by rewrite <- app_assoc. }
    { congruence. }
    rewrite Hrun2 in Hrun. injection Hrun as <- <- <-.
    assert (Hsc1 : scanned E cfg disk st s1).
    { split; [done|]. split; [lia|]. intros k. left. by rewrite Hp1. }
    split; [by eapply scanned_trans|].
    intros _ _ s Hs. rewrite <- Ht1. apply Hnoted2; [|done].
    apply Hmem. split.
    + rewrite Hdisk. by apply is_dir_is_Some.
    + exists s. by rewrite <- app_assoc.
  - split; [|done]. split; [done|]. split; [lia|]. intros k. left. by rewrite Hp1.
Qed.

(** The clinic directories of the inbox. *)
Lemma scan_clinics_run (disk : FS) (clinics : list path) :
  (forall q, q ∈ clinics -> exists c, q = inbox_path cfg ++ [c]) ->
  forall (st s' : State) (r : Res unit) (ev : list event),
    fs st = disk ->
    for_each clinics (Main.scan_clinic E cfg) st = (r, s', ev) ->
    scanned E cfg disk st s'
    /\ (r = Ok tt ->
        forall c s, inbox_path cfg ++ [c] ∈ clinics ->
          is_dir disk (inbox_path cfg ++ [c]) = true ->
          is_dir disk (inbox_path cfg ++ [c; s]) = true ->
          noted_since E cfg (ticks st) c s s').
Proof.
  induction clinics as [|q clinics IH]; intros Hshape st s' r ev Hdisk Hrun.
  - injection Hrun as <- <- <-. split; [apply scanned_refl|].
    intros _ c s H. by apply elem_of_nil in H.
  - destruct (Hshape q) as [c0 ->]; [left|]. cbn [for_each] in Hrun.
    apply bind_inv in Hrun as [([] & s1 & e1 & e2 & H1 & Hrun & ->)|(e & H1 & ->)];
      apply (scan_clinic_run disk c0 _ _ _ _ Hdisk) in H1 as [Hsc1 Hnoted1];
      [|by split].
    apply IH in Hrun as [Hsc2 Hnoted2].
    + split; [by eapply scanned_trans|].
      pose proof Hsc1 as (_ & Ht1 & _).
      intros -> c s Hin Hc Hs.
      destruct (decide (c = c0)) as [->|Hne].
      * eapply noted_since_scanned; [|by apply Hnoted1|exact Hsc2]. done.
      * apply elem_of_cons in Hin as [Heq|Hin].
        -- apply app_inv_head in Heq. congruence.
        -- destruct (Hnoted2 eq_refl c s Hin Hc Hs) as (n & Hn & Hk).
           exists n. split; [lia|done].
    + intros q' Hq'. apply Hshape. by right.
    + destruct Hsc1 as (-> & _). done.
Qed.

(** X18.  A scan at startup that completes has noted every study folder
    that was in the inbox: each directory [{inbox}/{c}/{s}] of a directory
    [{inbox}/{c}] is pending, stamped with a reading of the clock taken
    during the scan.  Nothing else was added: every other entry is as it
    was, files and folders directly below the inbox are not noted, and
    the disk is untouched. *)
Theorem startup_scan_notes_every_study (st : State) :
  let o := Main.startup_scan E cfg st in
  res_of o = Ok tt ->
  fs (state_of o) = fs st
  /\ (forall c s,
        is_dir (fs st) (inbox_path cfg ++ [c]) = true ->
        is_dir (fs st) (inbox_path cfg ++ [c; s]) = true ->
        exists n, (ticks st <= n < ticks (state_of o))%nat
          /\ pending_folders (state_of o) !! (inbox_path cfg // c // s) = Some (clock E n))
  /\ (forall k,
        pending_folders (state_of o) !! k = pending_folders st !! k
        \/ exists c s n,
             k = inbox_path cfg // c // s
             /\ is_dir (fs st) (inbox_path cfg ++ [c]) = true
             /\ is_dir (fs st) (inbox_path cfg ++ [c; s]) = true
             /\ (ticks st <= n < ticks (state_of o))%nat
             /\ pending_folders (state_of o) !! k = Some (clock E n)).
Proof.
  intros o Hres. subst o.
  destruct (Main.startup_scan E cfg st) as [[r s'] ev] eqn:Hrun.
  cbn [res_of state_of fst snd] in *. subst r.
  unfold Main.startup_scan in Hrun.
  apply bind_inv in Hrun as [(clinics & s1 & e1 & e2 & H1 & Hrun & ->)|(e & H1 & [=])].
  apply iterdir_run in H1 as (-> & Hfs1 & Ht1 & Hp1 & Hlist).
  destruct (Hlist clinics eq_refl) as [_ Hmem].
  apply (scan_clinics_run (fs st)) in Hrun as [(Hfs & Ht & Hp) Hnoted]; [| |done].
  2:{ intros q Hq. by apply Hmem in Hq as [_ ?]. }
  split; [congruence|]. split.
  - intros c s Hc Hs. rewrite <- Ht1. apply Hnoted; [done| |done|done].
    apply Hmem. split; [|by eexists].
    by apply is_dir_is_Some.
  - intros k. rewrite <- Hp1, <- Ht1. apply Hp.
Qed.

End MainProps.

(** ** The further properties on the scenarios *)

(** The repository's test of the cache: a token with a lifetime of 300
    seconds obtained at time 100 is served again at time 100. *)
Lemma token_reused_until_expiry_witness :
  let E := Scenario.world Scenario.idp_up [] Scenario.no_files in
  let o1 := TokenManager.get_token E Scenario.cfg Scenario.empty_state in
  let o2 := TokenManager.get_token E Scenario.cfg (state_of o1) in
  res_of o1 = Ok (Some "test-token-123")
  /\ res_of o2 = Ok (Some "test-token-123")
  /\ events_of o2 = [].
Proof.
  cbv zeta.
  destruct (token_reused_until_expiry
              (Scenario.world Scenario.idp_up [] Scenario.no_files)
              Scenario.cfg Scenario.empty_state 200 "" "test-token-123" (ExpNum 300) 300)
    as (H1 & _ & H2 & _);
    [reflexivity | discriminate | reflexivity | reflexivity | by left | discriminate |].
  destruct H2 as (H2 & H3 & _); [vm_compute; reflexivity|].
  split; [exact H1|]. split; [exact H2|exact H3].
Defined.


(** A file that pydicom rejects, in the folder of the scenarios. *)
Lemma unreadable_file_is_recorded_witness :
  let bad := Scenario.study ++ ["bad.dcm"] in
  let E := Scenario.world Scenario.idp_down [bad] (Scenario.contents [bad]) in
  let o := DicomProcessor.process_one Scenario.lib E Scenario.cfg Scenario.study "clinicA"
             (DicomProcessor.Tally 0 0 []) bad Scenario.inbox_state in
  res_of o
  = Ok (DicomProcessor.Tally 0 1
          [FileError "bad.dcm"
             "Invalid DICOM file: File is missing DICOM File Meta Information"])
  /\ stow_posts (events_of o) = []
  /\ List.filter is_token_post (events_of o) = [].
Proof.
  cbv zeta.
  rewrite (unreadable_file_is_recorded Scenario.lib
             (Scenario.world Scenario.idp_down [Scenario.study ++ ["bad.dcm"]]
                (Scenario.contents [Scenario.study ++ ["bad.dcm"]]))
             Scenario.cfg Scenario.study "clinicA" (DicomProcessor.Tally 0 0 [])
             (Scenario.study ++ ["bad.dcm"]) ["bad.dcm"]
             (Exn ValueError
                "Invalid DICOM file: File is missing DICOM File Meta Information")
             Scenario.inbox_state);
    [|vm_compute; reflexivity|vm_compute; reflexivity].
  split; [reflexivity|]. split; reflexivity.
Defined.

(** A good and a broken file below the study folder: the loop returns
    with one success and one recorded failure. *)
Lemma upload_loop_never_raises_witness :
  let bad := Scenario.study ++ ["bad.dcm"] in
  let E := Scenario.world Scenario.idp_down [Scenario.img; bad] (Scenario.contents [bad]) in
  let o := DicomProcessor.upload_loop Scenario.lib E Scenario.cfg_anonymous Scenario.study
             "clinicA" [Scenario.img; bad] (DicomProcessor.Tally 0 0 [])
             Scenario.inbox_state in
  exists t failed,
    res_of o = Ok t
    /\ (DicomProcessor.success_count t + DicomProcessor.error_count t = 0 + 0 + 2)%nat
    /\ DicomProcessor.errors t = [] ++ failed
    /\ length failed = (DicomProcessor.error_count t - 0)%nat
    /\ forall fe, fe ∈ failed ->
         exists rel, Scenario.study ++ rel ∈ [Scenario.img; Scenario.study ++ ["bad.dcm"]]
                     /\ fe_file fe = PathLib.str rel.
Proof.
  cbv zeta.
  apply (upload_loop_never_raises Scenario.lib
           (Scenario.world Scenario.idp_down [Scenario.img; Scenario.study ++ ["bad.dcm"]]
              (Scenario.contents [Scenario.study ++ ["bad.dcm"]]))
           Scenario.cfg_anonymous Scenario.study "clinicA"
           [Scenario.img; Scenario.study ++ ["bad.dcm"]]
           (DicomProcessor.Tally 0 0 []) Scenario.inbox_state).
  intros f Hf. apply elem_of_cons in Hf as [->|Hf].
  - exists ["img.dcm"]. reflexivity.
  - apply list_elem_of_singleton in Hf as ->. exists ["bad.dcm"]. reflexivity.
Defined.

(** A folder with two spellings of the extension, a DICOM file without
    one of them and a text file. *)
Lemma discover_order_witness :
  let a := Scenario.study ++ ["a.dcm"] in
  let b := Scenario.study ++ ["b.DCM"] in
  let c := Scenario.study ++ ["c.bin"] in
  let t := Scenario.study ++ ["readme.txt"] in
  let E := Scenario.world Scenario.idp_down [c; t; b; a] (Scenario.contents []) in
  res_of (DicomProcessor.discover Scenario.lib E Scenario.study Scenario.inbox_state)
  = Ok [a; b; c]
  /\ NoDup [a; b; c].
Proof.
  cbv zeta.
  destruct (discover_order Scenario.lib
              (Scenario.world Scenario.idp_down
                 [Scenario.study ++ ["c.bin"]; Scenario.study ++ ["readme.txt"];
                  Scenario.study ++ ["b.DCM"]; Scenario.study ++ ["a.dcm"]]
                 (Scenario.contents []))
              Scenario.study Scenario.inbox_state
              [Scenario.study ++ ["a.dcm"]; Scenario.study ++ ["b.DCM"];
               Scenario.study ++ ["c.bin"]])
    as [_ Hnd].
  - apply (bool_decide_unpack _). vm_compute. exact I.
  - vm_compute. reflexivity.
  - split; [vm_compute; reflexivity|exact Hnd].
Defined.

(** Scenario 4 of the specification: the name is taken in the processed
    tree. *)
Lemma archive_destination_witness :
  let E := Scenario.world Scenario.idp_down [] Scenario.no_files in
  let taken := ["/"; "processed"; "clinicA"; "2024-01-01"; "study1"] in
  let st := with_fs (<[taken := Dir]> (fs Scenario.inbox_state)) Scenario.inbox_state in
  let o := DicomProcessor._move_to_processed E Scenario.cfg Scenario.study "clinicA" st in
  fs (state_of o) !! Scenario.study = None
  /\ fs (state_of o) !! ["/"; "processed"; "clinicA"; "2024-01-01"; "study1_120000"]
     = Some Dir.
Proof.
  cbv zeta.
  destruct (archive_destination
              (Scenario.world Scenario.idp_down [] Scenario.no_files) Scenario.cfg
              Scenario.study "clinicA"
              (with_fs (<[["/"; "processed"; "clinicA"; "2024-01-01"; "study1"] := Dir]>
                          (fs Scenario.inbox_state)) Scenario.inbox_state))
    as [Hgone Hthere];
    [vm_compute; reflexivity | vm_compute; reflexivity | vm_compute; discriminate |].
  split; [exact Hgone|exact Hthere].
Defined.

(** A folder that has vanished from an empty disk. *)
Lemma quarantine_of_missing_folder_witness :
  let E := Scenario.world Scenario.idp_down [] Scenario.no_files in
  let o := DicomProcessor._move_to_failed E Scenario.cfg Scenario.study "clinicA"
             "No DICOM files found" None Scenario.empty_state in
  (exists e, res_of o = Raise e)
  /\ forall q n, fs (state_of o) !! q = Some n ->
       fs Scenario.empty_state !! q = Some n \/ n = Dir.
Proof.
  cbv zeta.
  apply (quarantine_of_missing_folder
           (Scenario.world Scenario.idp_down [] Scenario.no_files) Scenario.cfg
           Scenario.study "clinicA" "No DICOM files found" None Scenario.empty_state).
  reflexivity.
Defined.

(** An inbox that holds one study folder of [clinicA], a file beside it
    and a file directly below the inbox. *)
Lemma startup_scan_notes_every_study_witness :
  let E := Scenario.world Scenario.idp_down [] Scenario.no_files in
  let disk : FS :=
    <[["/"; "inbox"] := Dir]>
      (<[["/"; "inbox"; "clinicA"] := Dir]>
         (<[Scenario.study := Dir]>
            (<[["/"; "inbox"; "clinicA"; "notes.txt"] := File Blob]>
               {[ ["/"; "inbox"; "stray.dcm"] := File Blob ]}))) in
  let o := Main.startup_scan E Scenario.cfg (with_fs disk Scenario.empty_state) in
  exists n, pending_folders (state_of o) !! Scenario.study = Some (clock E n).
Proof.
  cbv zeta.
  destruct (startup_scan_notes_every_study
              (Scenario.world Scenario.idp_down [] Scenario.no_files) Scenario.cfg
              (with_fs
                 (<[["/"; "inbox"] := Dir]>
                    (<[["/"; "inbox"; "clinicA"] := Dir]>
                       (<[Scenario.study := Dir]>
                          (<[["/"; "inbox"; "clinicA"; "notes.txt"] := File Blob]>
                             {[ ["/"; "inbox"; "stray.dcm"] := File Blob ]}))))
                 Scenario.empty_state))
    as (_ & Hnoted & _); [vm_compute; reflexivity|].
  destruct (Hnoted "clinicA" "study1") as (n & _ & Hn);
    [vm_compute; reflexivity | vm_compute; reflexivity |].
  exists n. exact Hn.
Defined.

(** A file is created in the study folder at 0 and the drain at 60 submits
    the folder; the file is modified at 70, the folder being still in the
    inbox, and the drain at 130 submits the folder a second time. *)
Example noted_again_is_submitted_again :
  let E := Scenario.timeline [0; 60; 70; 130]
             (Scenario.world Scenario.idp_down [] Scenario.no_files) in
  let o := (InboxHandler.on_created E Scenario.cfg (FileCreatedEvent Scenario.img) ;;
            InboxHandler.check_pending_folders E Scenario.cfg ;;
            InboxHandler.on_modified E Scenario.cfg (FileModifiedEvent Scenario.img) ;;
            InboxHandler.check_pending_folders E Scenario.cfg) Scenario.inbox_state in
  res_of o = Ok tt
  /\ submissions (events_of o) = [(Scenario.study, "clinicA"); (Scenario.study, "clinicA")].
Proof. cbv zeta. split; vm_compute; reflexivity. Qed.
